(** * Voyage backend: the trip-planning orchestrator of [backend/server.py]

    A shallow embedding of the part of [plan_trip_from_prompt] that starts
    once the slot extractor has answered: the merge with the previous
    extraction, the check of the required fields, the research cache, the
    reading of the minimum daily cost out of the research text, the
    transport estimate, the budget check with its tier, and the choice of
    the planning prompt. Around it stand the head of the same endpoint
    (the routing by intent and the extraction), the OTP service of
    [backend/otp_service.py] with its two endpoints and the profile status,
    the trending cache, the check for a day optimization, and the feedback
    statistics of [backend/feedback_service.py].

    Conventions of the embedding.
    - A Python [str] is the list of its Unicode code points.
    - A Python [int] is a [Z]; a Python [float] amount (budget, costs) is an
      exact rational [Q], so [1.2], [1.3] and [2.5] are [6/5], [13/10] and
      [5/2]: the rounding of binary64 arithmetic is not part of the model
      (module [Binary64] replays the documented example in binary64).
    - [datetime.now()] is an argument: a point of the local time line in
      microseconds.
    - An exception is a value of [result]; the calls to the outside world
      are recorded, in order, in a trace of [event]s. *)

From Stdlib Require Import ZArith QArith Lqa List String Ascii Bool Lia.
From Stdlib Require Import Floats.PrimFloat.
From stdpp Require Import gmap.
Import ListNotations.

Local Open Scope Z_scope.

(* ===================================================================== *)
(** ** Python values *)
(* ===================================================================== *)

Module Py.

(** A [str]: its code points. *)
Abbreviation str := (list N).

(** The [str] of an ASCII literal of the source. *)
Definition u (s : string) : str := map N_of_ascii (list_ascii_of_string s).

(** [str.lower], one code point at a time. The capitals of ASCII go to
    their small letters. Outside ASCII two code points have a lower-case
    form holding an ASCII letter: U+212A KELVIN SIGN goes to [k], and
    U+0130 goes to [i] followed by U+0307. Every other code point is kept:
    [str.lower] folds further capitals, each to code points outside ASCII,
    which makes no difference to a comparison with an ASCII literal, the
    only use of [lower] in the source. *)
Definition lower_cp (c : N) : list N :=
  if ((65 <=? c) && (c <=? 90))%N then [(c + 32)%N]
  else if (c =? 8490)%N then [107%N]
  else if (c =? 304)%N then [105%N; 775%N]
  else [c].

Definition lower (s : str) : str := flat_map lower_cp s.

Fixpoint str_eqb (a b : str) : bool :=
  match a, b with
  | [], [] => true
  | x :: a', y :: b' => (x =? y)%N && str_eqb a' b'
  | _, _ => false
  end.

(** [s in [l0, l1, ...]] on strings. *)
Definition in_list (s : str) (l : list str) : bool := existsb (str_eqb s) l.

(** Truth values: an empty [str], [0], [0.0] and [None] are false. *)
Definition truthy_str (s : str) : bool :=
  match s with [] => false | _ :: _ => true end.
Definition truthy_int (z : Z) : bool := negb (z =? 0).
Definition truthy_float (q : Q) : bool := negb (Qeq_bool q 0).
Definition truthy_opt {A} (truthy : A -> bool) (o : option A) : bool :=
  match o with Some a => truthy a | None => false end.

(** [x < y] and [x <= y] on amounts. *)
Definition Qltb (x y : Q) : bool := negb (Qle_bool y x).
Definition Qleb (x y : Q) : bool := Qle_bool x y.

(** [min(l)] of a non-empty list of integers, from its first element. *)
Definition min_list (x : Z) (l : list Z) : Z := fold_left Z.min l x.

End Py.
Import Py.

(* ===================================================================== *)
(** ** Slots: the extracted trip details and the previous extraction *)
(* ===================================================================== *)

(** Modelled from the spec: the [TripDetails] schema. [schemas.py] is not
    among the sources; the fields are those the orchestrator reads and
    writes, typed as the data model of the spec types them: the two cities
    are strings, the counts integers, the budget a decimal amount, the
    interests and the start date a string or [None]. The record has no
    [original_destination]: the orchestrator adds that key to the dumped
    dictionary of its answer next to [was_budget_insufficient]. *)
Record TripDetails : Type := mkTripDetails {
  origin_city : str;
  destination : str;
  num_days : Z;
  num_people : Z;
  budget : Q;
  interests : option str;
  start_date : option str
}.

(** [request.previous_extraction]: the dictionary the client sends back.
    A field is what [.get(key)] returns, [None] for a key that is absent. *)
Record PreviousExtraction : Type := mkPrevious {
  prev_origin_city : option str;
  prev_destination : option str;
  prev_num_days : option Z;
  prev_num_people : option Z;
  prev_budget : option Q;
  prev_interests : option str;
  prev_start_date : option str;
  prev_original_destination : option str
}.

(** The value [.get(key)] returned, read once its truth was tested. *)
Definition str_of (o : option str) : str := default [] o.
Definition int_of (o : option Z) : Z := default 0 o.
Definition float_of (o : option Q) : Q := default (0 # 1) o.

Definition set_origin_city (v : str) (t : TripDetails) : TripDetails :=
  mkTripDetails v (destination t) (num_days t) (num_people t) (budget t)
                (interests t) (start_date t).
Definition set_destination (v : str) (t : TripDetails) : TripDetails :=
  mkTripDetails (origin_city t) v (num_days t) (num_people t) (budget t)
                (interests t) (start_date t).
Definition set_num_days (v : Z) (t : TripDetails) : TripDetails :=
  mkTripDetails (origin_city t) (destination t) v (num_people t) (budget t)
                (interests t) (start_date t).
Definition set_num_people (v : Z) (t : TripDetails) : TripDetails :=
  mkTripDetails (origin_city t) (destination t) (num_days t) v (budget t)
                (interests t) (start_date t).
Definition set_budget (v : Q) (t : TripDetails) : TripDetails :=
  mkTripDetails (origin_city t) (destination t) (num_days t) (num_people t) v
                (interests t) (start_date t).
Definition set_interests (v : option str) (t : TripDetails) : TripDetails :=
  mkTripDetails (origin_city t) (destination t) (num_days t) (num_people t)
                (budget t) v (start_date t).
Definition set_start_date (v : option str) (t : TripDetails) : TripDetails :=
  mkTripDetails (origin_city t) (destination t) (num_days t) (num_people t)
                (budget t) (interests t) v.

(** The literals the merge compares a freshly extracted city with. *)
Definition merge_sentinels : list str :=
  map u ["not specified"; "unknown"; "n/a"; ""]%string.

(** The literals the check of the required fields compares a city with. *)
Definition required_sentinels : list str :=
  map u ["not specified"; "unknown"; "n/a"; ""; "anywhere"]%string.

(** [not x or x <= 0] on a count and on an amount. *)
Definition int_not_given (z : Z) : bool := negb (truthy_int z) || (z <=? 0).
Definition float_not_given (q : Q) : bool := negb (truthy_float q) || Qleb q 0.

(** The merge, one field after the other as the source runs them. *)
Definition merge_origin_city (p : PreviousExtraction) (t : TripDetails) : TripDetails :=
  if in_list (lower (origin_city t)) merge_sentinels
     && truthy_opt truthy_str (prev_origin_city p)
  then set_origin_city (str_of (prev_origin_city p)) t
  else t.

Definition merge_destination (p : PreviousExtraction) (t : TripDetails) : TripDetails :=
  if in_list (lower (destination t)) merge_sentinels
     && truthy_opt truthy_str (prev_destination p)
  then set_destination (str_of (prev_destination p)) t
  else t.

Definition merge_num_days (p : PreviousExtraction) (t : TripDetails) : TripDetails :=
  if int_not_given (num_days t) && truthy_opt truthy_int (prev_num_days p)
  then set_num_days (int_of (prev_num_days p)) t
  else t.

Definition merge_num_people (p : PreviousExtraction) (t : TripDetails) : TripDetails :=
  if int_not_given (num_people t) && truthy_opt truthy_int (prev_num_people p)
  then set_num_people (int_of (prev_num_people p)) t
  else t.

Definition merge_budget (p : PreviousExtraction) (t : TripDetails) : TripDetails :=
  if float_not_given (budget t) && truthy_opt truthy_float (prev_budget p)
  then set_budget (float_of (prev_budget p)) t
  else if truthy_float (budget t) && Qltb 0 (budget t)
          && truthy_opt truthy_float (prev_budget p)
  then
    let old_budget := float_of (prev_budget p) in
    let new_budget := budget t in
    if Qltb old_budget new_budget
    then
      if truthy_opt truthy_str (prev_original_destination p)
      then set_destination (str_of (prev_original_destination p)) t
      else t
    else t
  else t.

Definition merge_interests (p : PreviousExtraction) (t : TripDetails) : TripDetails :=
  if negb (truthy_opt truthy_str (interests t))
     && truthy_opt truthy_str (prev_interests p)
  then set_interests (prev_interests p) t
  else t.

Definition merge_start_date (p : PreviousExtraction) (t : TripDetails) : TripDetails :=
  if negb (truthy_opt truthy_str (start_date t))
     && truthy_opt truthy_str (prev_start_date p)
  then set_start_date (prev_start_date p) t
  else t.

Definition merge (p : PreviousExtraction) (t : TripDetails) : TripDetails :=
  merge_start_date p
    (merge_interests p
       (merge_budget p
          (merge_num_people p
             (merge_num_days p
                (merge_destination p
                   (merge_origin_city p t)))))).

(** [if request.previous_extraction: ...]: no dictionary, or an empty one,
    skips the merge (with an empty one every [.get] is [None], and [merge]
    changes nothing either). *)
Definition merge_with_previous (prev : option PreviousExtraction) (t : TripDetails)
  : TripDetails :=
  match prev with
  | Some p => merge p t
  | None => t
  end.

(* ===================================================================== *)
(** ** The check of the required fields *)
(* ===================================================================== *)

(** The fields the orchestrator asks for, in the order it checks them. *)
Inductive RequiredField : Type :=
| FieldOriginCity | FieldDestination | FieldDuration | FieldBudget | FieldStartDate.

(** What [missing_fields.append] is given for each of them; the question
    appended to [follow_up_questions] in the same step is the one of the
    field. *)
Definition label (f : RequiredField) : str :=
  match f with
  | FieldOriginCity => u "origin city"
  | FieldDestination => u "destination"
  | FieldDuration => u "duration"
  | FieldBudget => u "budget"
  | FieldStartDate => u "start date"
  end.

(** [not city or city.lower() in [...]] *)
Definition city_missing (city : str) : bool :=
  negb (truthy_str city) || in_list (lower city) required_sentinels.

Definition missing_fields (t : TripDetails) : list RequiredField :=
  (if city_missing (origin_city t) then [FieldOriginCity] else [])
  ++ (if city_missing (destination t) then [FieldDestination] else [])
  ++ (if int_not_given (num_days t) then [FieldDuration] else [])
  ++ (if float_not_given (budget t) then [FieldBudget] else [])
  ++ (if negb (truthy_opt truthy_str (start_date t)) then [FieldStartDate] else []).

(** The lines of "What I know so far". *)
Inductive InfoLine : Type :=
| InfoFrom (city : str)
| InfoTo (city : str)
| InfoDuration (days : Z)
| InfoTravelers (people : Z)
| InfoBudget (amount : Q)
| InfoStartDate (date : str).

Definition info_sentinels : list str := map u ["not specified"; "unknown"; "n/a"]%string.

Definition current_info (t : TripDetails) : list InfoLine :=
  (if truthy_str (origin_city t) && negb (in_list (lower (origin_city t)) info_sentinels)
   then [InfoFrom (origin_city t)] else [])
  ++ (if truthy_str (destination t) && negb (in_list (lower (destination t)) info_sentinels)
      then [InfoTo (destination t)] else [])
  ++ (if truthy_int (num_days t) && (0 <? num_days t) then [InfoDuration (num_days t)] else [])
  ++ (if truthy_int (num_people t) && (0 <? num_people t)
      then [InfoTravelers (num_people t)] else [])
  ++ (if truthy_float (budget t) && Qltb 0 (budget t) then [InfoBudget (budget t)] else [])
  ++ (if truthy_opt truthy_str (start_date t)
      then [InfoStartDate (str_of (start_date t))] else []).

(** The dictionary sent back as [extracted_details]: [model_dump()] of the
    details, and the two keys the final answer adds ([None]: key absent or
    [None], which [.get] does not tell apart). *)
Record ExtractedDetails : Type := mkExtracted {
  details : TripDetails;
  original_destination : option str;
  was_budget_insufficient : option bool
}.

Definition model_dump (t : TripDetails) : ExtractedDetails :=
  mkExtracted t None None.

(* ===================================================================== *)
(** ** The research cache *)
(* ===================================================================== *)

(** What the four research tools return for a destination. *)
Record ResearchData : Type := mkResearch {
  minimum_budget : str;
  travel_advisory : str;
  weather : str;
  document_info : str
}.

Module ResearchCache.

(** The two module-level dictionaries, keyed by the destination text as
    it is passed in. A timestamp is a [datetime], in microseconds. *)
Record t : Type := mk {
  research_cache : gmap str ResearchData;
  research_cache_timestamps : gmap str Z
}.

Definition empty : t := mk ∅ ∅.

Definition RESEARCH_CACHE_DURATION_SECONDS : Z := 3600.

(** [(later - earlier).total_seconds()] *)
Definition total_seconds (later earlier : Z) : Q := (later - earlier) # 1000000.

(** [get_cached_research], read at time [now]. A [datetime] is never
    false, so [if timestamp:] asks only for the key. *)
Definition get_cached_research (now : Z) (destination : str) (c : t)
  : option ResearchData :=
  match research_cache c !! destination with
  | Some data =>
      match research_cache_timestamps c !! destination with
      | Some timestamp =>
          let age := total_seconds now timestamp in
          if Qltb age (inject_Z RESEARCH_CACHE_DURATION_SECONDS)
          then Some data
          else None
      | None => None
      end
  | None => None
  end.

(** [cache_research], run at time [now]. *)
Definition cache_research (now : Z) (destination : str) (data : ResearchData) (c : t) : t :=
  mk (<[destination := data]> (research_cache c))
     (<[destination := now]> (research_cache_timestamps c)).

End ResearchCache.

(* ===================================================================== *)
(** ** Exceptions, outside calls, and the monad of the request handler *)
(* ===================================================================== *)

Inductive exn : Type :=
| ZeroDivisionError
| CollaboratorError
| HTTPException (status : Z).

Inductive result (A : Type) : Type :=
| Ok (a : A)
| Raised (e : exn).
Arguments Ok {A} a.
Arguments Raised {A} e.

Inductive Tier : Type := BudgetFriendly | Moderate | Luxury.

Inductive TierDescription : Type :=
| BackpackerStyle | ComfortableMidRange | PremiumExperience | StandardComfortable.

(** The master prompt handed to the planning agent. *)
Inductive Mission : Type :=
| StandardPlanning (budget_tier : Tier) (tier_description : TierDescription)
| RePlanning (shortfall : Q).

(** A call that leaves the process. *)
Inductive event : Type :=
| CallMinimumDailyBudget (city : str)
| CallTravelAdvisory (city : str)
| CallRealtimeWeather (city : str)
| CallTravelDocumentInfo (city : str)
| CallEstimateTransportCost (origin dest : str) (people : Z)
| CallEstimateTransportFallback (origin dest : str) (people : Z)
| CallPlanningAgent (mission : Mission).

(** A step of the handler: it reads and writes the research cache, leaves a
    trace of outside calls, and returns or raises. *)
Definition M (A : Type) : Type :=
  ResearchCache.t -> list event * ResearchCache.t * result A.

Definition ret {A} (a : A) : M A := fun c => ([], c, Ok a).

Definition raise {A} (e : exn) : M A := fun c => ([], c, Raised e).

Definition bind {A B} (m : M A) (k : A -> M B) : M B :=
  fun c =>
    match m c with
    | (tr, c1, Ok a) =>
        match k a c1 with
        | (tr', c2, r) => (tr ++ tr', c2, r)
        end
    | (tr, c1, Raised e) => (tr, c1, Raised e)
    end.

(** [try: m except Exception as e: h e] *)
Definition try_except {A} (m : M A) (h : exn -> M A) : M A :=
  fun c =>
    match m c with
    | (tr, c1, Ok a) => (tr, c1, Ok a)
    | (tr, c1, Raised e) =>
        match h e c1 with
        | (tr', c2, r) => (tr ++ tr', c2, r)
        end
    end.

Definition lift {A} (r : result A) : M A := fun c => ([], c, r).

(** An outside call: the event, and what the collaborator answered. *)
Definition call {A} (ev : event) (r : result A) : M A := fun c => ([ev], c, r).

Definition read_cache : M ResearchCache.t := fun c => ([], c, Ok c).
Definition write_cache (c' : ResearchCache.t) : M unit := fun _ => ([], c', Ok tt).

Declare Scope handler_scope.
Delimit Scope handler_scope with handler.
Notation "x <- m ;; k" := (bind m (fun x => k))
  (at level 20, m at level 99, k at level 200, only parsing) : handler_scope.

(** [x / d] with [d] an [int]: true division. *)
Definition true_div (x : Q) (d : Z) : result Q :=
  if d =? 0 then Raised ZeroDivisionError else Ok (x / inject_Z d)%Q.

(* ===================================================================== *)
(** ** Reading the minimum daily cost out of the research text *)
(* ===================================================================== *)

(** [\s] of a [str] pattern: the white space of Unicode. *)
Definition is_space (c : N) : bool :=
  (((9 <=? c) && (c <=? 13)) || ((28 <=? c) && (c <=? 32))
   || (c =? 133) || (c =? 160) || (c =? 5760)
   || ((8192 <=? c) && (c <=? 8202))
   || (c =? 8232) || (c =? 8233) || (c =? 8239) || (c =? 8287) || (c =? 12288))%N.

Definition RUPEE : N := 8377.

(** [[₹Rs\.]]: one of the rupee sign, [R], [s] and the full stop. *)
Definition rupee_class (c : N) : bool :=
  ((c =? RUPEE) || (c =? 82) || (c =? 115) || (c =? 46))%N.

(** [\$] *)
Definition dollar_class (c : N) : bool := (c =? 36)%N.

Fixpoint skip_spaces (s : str) : str :=
  match s with
  | c :: s' => if is_space c then skip_spaces s' else s
  | [] => []
  end.

Fixpoint count_spaces (s : str) : nat :=
  match s with
  | c :: s' => if is_space c then S (count_spaces s') else O
  | [] => O
  end.

Fixpoint strip_prefix (prefix s : str) : option str :=
  match prefix, s with
  | [], _ => Some s
  | x :: prefix', y :: s' => if (x =? y)%N then strip_prefix prefix' s' else None
  | _ :: _, [] => None
  end.

Section CostSignal.

(** The decimal value of a code point that is a decimal digit, in
    whatever script (Unicode category Nd), and [None] for every other code
    point: the table that [\d] of a [str] pattern and [int()] both read. *)
Variable digit_value : N -> option Z.

Definition is_digit (c : N) : bool :=
  match digit_value c with Some _ => true | None => false end.

(** [(\d{1,n})] at the head of [s], greedy: the digits it takes. *)
Fixpoint take_digits (n : nat) (s : str) : str :=
  match n, s with
  | S n', c :: s' => if is_digit c then c :: take_digits n' s' else []
  | _, _ => []
  end.

(** [(\d+)] at the head of [s]. *)
Fixpoint span_digits (s : str) : str :=
  match s with
  | c :: s' => if is_digit c then c :: span_digits s' else []
  | [] => []
  end.

(** [int(m)] of a run of decimal digits. *)
Definition py_int (m : str) : Z :=
  fold_left (fun acc c => 10 * acc + default 0 (digit_value c)) m 0.

(** [\s*(\d{1,n})] at the head of [s]: the group, and how many code
    points the match takes. *)
Definition spaces_then_digits (n : nat) (s : str) : option (str * nat) :=
  let sp := count_spaces s in
  match take_digits n (skip_spaces s) with
  | [] => None
  | c :: m => Some (c :: m, (sp + length (c :: m))%nat)
  end.

(** [re.findall] of [class \s*(\d{1,n})]: the groups of the matches, left
    to right, none overlapping. [skip] counts the code points still
    covered by the match before. *)
Fixpoint findall (class : N -> bool) (n : nat) (skip : nat) (s : str) : list str :=
  match s with
  | [] => []
  | c :: s' =>
      match skip with
      | S k => findall class n k s'
      | O =>
          if class c then
            match spaces_then_digits n s' with
            | Some (m, taken) => m :: findall class n taken s'
            | None => findall class n O s'
            end
          else findall class n O s'
      end
  end.

(** [EXTRACTED MINIMUM:\s*₹\s*(\d+)] matched at the head of [s]. *)
Definition marker_at (s : str) : option str :=
  match strip_prefix (u "EXTRACTED MINIMUM:") s with
  | Some s1 =>
      match skip_spaces s1 with
      | c :: s2 =>
          if (c =? RUPEE)%N then
            match span_digits (skip_spaces s2) with
            | [] => None
            | d :: m => Some (d :: m)
            end
          else None
      | [] => None
      end
  | None => None
  end.

(** [re.search] of the marker: the group of the leftmost match. *)
Fixpoint search_marker (s : str) : option str :=
  match marker_at s with
  | Some m => Some m
  | None =>
      match s with
      | _ :: s' => search_marker s'
      | [] => None
      end
  end.

Definition rupee_matches (budget_info : str) : list str :=
  findall rupee_class 5 0 budget_info.

Definition dollar_matches (budget_info : str) : list str :=
  findall dollar_class 4 0 budget_info.

Definition DEFAULT_MIN_DAILY : Z := 2500.

(** [min(amounts)] when [amounts] is not empty, else the value kept. *)
Definition min_or (kept : Z) (amounts : list Z) : Z :=
  match amounts with
  | a :: l => min_list a l
  | [] => kept
  end.

(** The first part of the [try] block: [estimated_min_daily]. *)
Definition estimate_min_daily (budget_info : str) : Z :=
  let estimated_min_daily := DEFAULT_MIN_DAILY in
  if truthy_str budget_info then
    match search_marker budget_info with
    | Some m => py_int m
    | None =>
        let rupees := rupee_matches budget_info in
        let dollars := dollar_matches budget_info in
        match rupees, dollars with
        | _ :: _, _ =>
            let amounts :=
              List.filter (fun a => (1000 <=? a) && (a <=? 15000)) (map py_int rupees) in
            min_or estimated_min_daily amounts
        | [], _ :: _ =>
            let amounts :=
              map (fun a => a * 83)
                  (List.filter (fun a => (10 <=? a) && (a <=? 200)) (map py_int dollars)) in
            min_or estimated_min_daily amounts
        | [], [] => estimated_min_daily
        end
    end
  else estimated_min_daily.

End CostSignal.

(** The decimal digits of ASCII, the table of the examples. *)
Definition ascii_digit (c : N) : option Z :=
  if ((48 <=? c) && (c <=? 57))%N then Some (Z.of_N c - 48) else None.

(* ===================================================================== *)
(** ** The budget check *)
(* ===================================================================== *)

(** What "Pure Python Calculation" leaves in the local variables.
    [surplus] is assigned on the sufficient branch only. *)
Record Feasibility : Type := mkFeasibility {
  user_daily_per_person : Q;
  estimated_min_total : Q;
  is_budget_sufficient : bool;
  shortfall : Q;
  surplus : option Q
}.

Definition BUFFER : Q := 6 # 5.

Definition bind_result {A B} (r : result A) (k : A -> result B) : result B :=
  match r with
  | Ok a => k a
  | Raised e => Raised e
  end.

Definition feasibility (t : TripDetails) (estimated_min_daily : Z) (transport_cost_total : Q)
  : result Feasibility :=
  bind_result (true_div (budget t) (num_people t)) (fun per_person =>
  bind_result (true_div per_person (num_days t)) (fun daily =>
    let total :=
      (inject_Z (estimated_min_daily * num_days t * num_people t) * BUFFER
       + transport_cost_total)%Q in
    let sufficient := Qleb total (budget t) in
    Ok (mkFeasibility daily total sufficient
          (if negb sufficient then (total - budget t)%Q else 0%Q)
          (if negb sufficient then None else Some (budget t - total)%Q)))).

(** The tier, by how far the daily budget of one traveller stands above the
    researched minimum. *)
Definition classify_tier (daily_per_person : Q) (estimated_min_daily : Z)
  : Tier * TierDescription :=
  if Qltb daily_per_person (inject_Z estimated_min_daily * (13 # 10))%Q
  then (BudgetFriendly, BackpackerStyle)
  else if Qltb daily_per_person (inject_Z estimated_min_daily * (5 # 2))%Q
  then (Moderate, ComfortableMidRange)
  else (Luxury, PremiumExperience).

(** What the steps after the [try] block read. *)
Record Verdict : Type := mkVerdict {
  verdict_sufficient : bool;
  verdict_shortfall : Q;
  budget_tier : Tier;
  tier_description : TierDescription
}.

(** The assignments of the [except] branch. *)
Definition default_verdict : Verdict :=
  mkVerdict true 0%Q Moderate StandardComfortable.

(** What a finished handler sends back. *)
Inductive Response : Type :=
| NeedMoreInformation (known : list InfoLine) (asked : list RequiredField)
                      (extracted_details : ExtractedDetails)
| TripPlanGenerated (trip_plan : str) (extracted_details : ExtractedDetails)
                    (research_data : ResearchData).

Section Orchestrator.

Local Open Scope handler_scope.

(** The collaborators, each as what it answers within one request. *)
Variable digit_value : N -> option Z.
Variable get_minimum_daily_budget : str -> result str.
Variable get_travel_advisory : str -> result str.
Variable get_realtime_weather : str -> result str.
Variable get_travel_document_info : str -> result str.
Variable estimate_transport_cost : str -> str -> Z -> result Q.
Variable estimate_transport_fallback : str -> str -> Z -> result Q.
Variable agent_executor : Mission -> TripDetails -> ResearchData -> result str.

(** The four tools are submitted to the pool together; the results are
    then read in this order, and the first failure is raised. *)
Definition run_research_parallel (city : str) : M ResearchData :=
  fun c =>
    ([CallMinimumDailyBudget city; CallTravelAdvisory city;
      CallRealtimeWeather city; CallTravelDocumentInfo city],
     c,
     bind_result (get_minimum_daily_budget city) (fun b =>
     bind_result (get_travel_advisory city) (fun a =>
     bind_result (get_realtime_weather city) (fun w =>
     bind_result (get_travel_document_info city) (fun d =>
       Ok (mkResearch b a w d)))))).

(** Step 2. The cache is read at [now_lookup] and, on a miss, written at
    [now_store]. A stored value is a dictionary of four keys, which is
    never false, so [if cached_research:] asks only for a hit. *)
Definition research_phase (now_lookup now_store : Z) (city : str) : M ResearchData :=
  c <- read_cache ;;
  match ResearchCache.get_cached_research now_lookup city c with
  | Some cached_research => ret cached_research
  | None =>
      research_data <- run_research_parallel city ;;
      c' <- read_cache ;;
      stored <- write_cache (ResearchCache.cache_research now_store city research_data c') ;;
      ret research_data
  end.

(** The transport estimate: the primary estimator inside its own [try],
    the fallback in the [except] branch. *)
Definition estimate_transport (t : TripDetails) : M Q :=
  try_except
    (call (CallEstimateTransportCost (origin_city t) (destination t) (num_people t))
          (estimate_transport_cost (origin_city t) (destination t) (num_people t)))
    (fun _ =>
       call (CallEstimateTransportFallback (origin_city t) (destination t) (num_people t))
            (estimate_transport_fallback (origin_city t) (destination t) (num_people t))).

(** The body of the [try] block of step 3. Its last statement prints the
    ratio [daily_per_person / estimated_min_daily]. *)
Definition budget_check_body (t : TripDetails) (research_data : ResearchData) : M Verdict :=
  let estimated_min_daily := estimate_min_daily digit_value (minimum_budget research_data) in
  transport_cost_total <- estimate_transport t ;;
  f <- lift (feasibility t estimated_min_daily transport_cost_total) ;;
  let daily_per_person := user_daily_per_person f in
  let tier := classify_tier daily_per_person estimated_min_daily in
  ratio <- lift (true_div daily_per_person estimated_min_daily) ;;
  ret (mkVerdict (is_budget_sufficient f) (shortfall f) (fst tier) (snd tier)).

(** Step 3: the [try] block and its [except Exception]. *)
Definition validate_budget (t : TripDetails) (research_data : ResearchData) : M Verdict :=
  try_except (budget_check_body t research_data) (fun _ => ret default_verdict).

(** Step 4: which master prompt is built. *)
Definition assign_mission (v : Verdict) : Mission :=
  if verdict_sufficient v
  then StandardPlanning (budget_tier v) (tier_description v)
  else RePlanning (verdict_shortfall v).

(** The dictionary of the final answer. *)
Definition final_details (t : TripDetails) (v : Verdict) : ExtractedDetails :=
  mkExtracted t
    (if negb (verdict_sufficient v) then Some (destination t) else None)
    (Some (negb (verdict_sufficient v))).

(** The handler from the merge on. The detection of a budget update at the
    head of step 3 only prints; the loading of the user preferences and
    the saving of the trip fail soft and change neither the verdict nor
    the answer. The three are left out. *)
Definition plan_after_extraction
    (previous_extraction : option PreviousExtraction) (extracted : TripDetails)
    (now_lookup now_store : Z) : M Response :=
  let trip_details := merge_with_previous previous_extraction extracted in
  match missing_fields trip_details with
  | f :: fs =>
      ret (NeedMoreInformation (current_info trip_details) (f :: fs)
             (model_dump trip_details))
  | [] =>
      research_data <- research_phase now_lookup now_store (destination trip_details) ;;
      v <- validate_budget trip_details research_data ;;
      let mission := assign_mission v in
      final_plan <- call (CallPlanningAgent mission)
                         (agent_executor mission trip_details research_data) ;;
      ret (TripPlanGenerated final_plan (final_details trip_details v) research_data)
  end.

(** The outermost [except Exception] of the endpoint. *)
Definition plan_trip_from_prompt
    (previous_extraction : option PreviousExtraction) (extracted : TripDetails)
    (now_lookup now_store : Z) : M Response :=
  try_except
    (plan_after_extraction previous_extraction extracted now_lookup now_store)
    (fun _ => raise (HTTPException 500)).

End Orchestrator.

(* ===================================================================== *)
(** ** The arithmetic of the budget check in binary64 *)
(* ===================================================================== *)

Module Binary64.

(** [product * 1.2 + transport] and the two tier bounds, with the constants
    as the nearest binary64 numbers. *)
Definition required_total (product transport : float) : float :=
  (product * 0x1.3333333333333p+0 + transport)%float.
Definition budget_bound (daily_minimum : float) : float :=
  (daily_minimum * 0x1.4cccccccccccdp+0)%float.
Definition moderate_bound (daily_minimum : float) : float :=
  (daily_minimum * 0x1.4p+1)%float.

End Binary64.

(* ===================================================================== *)
(** ** Definitions the statements are written with *)
(* ===================================================================== *)

(** The condition the source tests for a field. *)
Definition field_missing (t : TripDetails) (f : RequiredField) : bool :=
  match f with
  | FieldOriginCity => city_missing (origin_city t)
  | FieldDestination => city_missing (destination t)
  | FieldDuration => int_not_given (num_days t)
  | FieldBudget => float_not_given (budget t)
  | FieldStartDate => negb (truthy_opt truthy_str (start_date t))
  end.

(** A required field is unknown, in the words of the data model: a city in
    the sentinel set whatever its case, a count or an amount that is not
    positive, a start date that is absent or empty. *)
Definition required_unknown (t : TripDetails) (f : RequiredField) : Prop :=
  match f with
  | FieldOriginCity => In (lower (origin_city t)) required_sentinels
  | FieldDestination => In (lower (destination t)) required_sentinels
  | FieldDuration => num_days t <= 0
  | FieldBudget => (budget t <= 0)%Q
  | FieldStartDate => start_date t = None \/ start_date t = Some []
  end.

(** The trace of a run of the four research tools. *)
Definition research_calls (city : str) : list event :=
  [CallMinimumDailyBudget city; CallTravelAdvisory city;
   CallRealtimeWeather city; CallTravelDocumentInfo city].

(** [m] is the least element of [amounts]. *)
Definition least_of (amounts : list Z) (m : Z) : Prop :=
  In m amounts /\ forall a, In a amounts -> m <= a.

(** The amounts the source keeps of the matches of each currency. *)
Definition plausible_rupees (digit_value : N -> option Z) (budget_info : str) : list Z :=
  List.filter (fun a => (1000 <=? a) && (a <=? 15000))
              (map (py_int digit_value) (rupee_matches digit_value budget_info)).

Definition converted_dollars (digit_value : N -> option Z) (budget_info : str) : list Z :=
  map (fun a => a * 83)
      (List.filter (fun a => (10 <=? a) && (a <=? 200))
                   (map (py_int digit_value) (dollar_matches digit_value budget_info))).

(** The chain as the claim words it: the marker; else the least plausible
    rupee amount; else the least dollar amount, converted and put through
    the same filter; else the default. *)
Definition claimed_min_daily (digit_value : N -> option Z) (budget_info : str) : Z :=
  match search_marker digit_value budget_info with
  | Some m => py_int digit_value m
  | None =>
      match plausible_rupees digit_value budget_info with
      | a :: l => min_list a l
      | [] =>
          match List.filter (fun a => (1000 <=? a) && (a <=? 15000))
                  (map (fun a => a * 83)
                       (map (py_int digit_value)
                            (dollar_matches digit_value budget_info))) with
          | a :: l => min_list a l
          | [] => DEFAULT_MIN_DAILY
          end
      end
  end.

(** The transport total as the claim words it: zero when both estimators
    fail. *)
Definition claimed_transport_total (primary fallback : result Q) : Q :=
  match primary with
  | Ok x => x
  | Raised _ =>
      match fallback with
      | Ok y => y
      | Raised _ => 0%Q
      end
  end.

(* ===================================================================== *)
(** ** The data of the examples *)
(* ===================================================================== *)

(** The trip of the documented example, with the budget left open. *)
Definition goa_trip (b : Q) : TripDetails :=
  mkTripDetails (u "Mumbai") (u "Goa") 5 2 b None (Some (u "2025-12-20")).

(** A trip that lacks its start date and nothing else. *)
Definition goa_trip_undated : TripDetails :=
  mkTripDetails (u "Mumbai") (u "Goa") 5 2 (50000 # 1) None None.


(** The documented turn: Ladakh was suggested after Goa proved too dear at
    40000; the next message gives a budget of 60000 and nothing else. *)
Definition ladakh_after_goa : PreviousExtraction :=
  mkPrevious None (Some (u "Ladakh")) None None (Some (40000 # 1)) None None
             (Some (u "Goa")).
Definition only_budget_60000 : TripDetails :=
  mkTripDetails (u "Not specified") (u "Not specified") 0 1 (60000 # 1) None None.

(** The previous turn knew the whole trip but its start date; the extractor
    reads the new message as coming from "Anywhere". *)
Definition trip_from_mumbai : PreviousExtraction :=
  mkPrevious (Some (u "Mumbai")) (Some (u "Goa")) (Some 5) (Some 2) (Some (40000 # 1))
             None None None.
Definition from_anywhere : TripDetails :=
  mkTripDetails (u "Anywhere") (u "Not specified") 0 1 0 None (Some (u "2025-12-20")).

(** Collaborators and research texts of the examples. *)
Definition flat_fare (amount : Q) : str -> str -> Z -> result Q :=
  fun _ _ _ => Ok amount.
Definition out_of_order : str -> str -> Z -> result Q :=
  fun _ _ _ => Raised CollaboratorError.
Definition research_saying (budget_text : str) : ResearchData :=
  mkResearch budget_text (u "No advisories") (u "Sunny") (u "ID card").
Definition extracted_minimum (amount : string) : str :=
  u "EXTRACTED MINIMUM: " ++ [RUPEE] ++ u amount.

(** A research tool that answers with a fixed text. *)
Definition answering (text : str) : str -> result str := fun _ => Ok text.

(* ===================================================================== *)
(** ** The OTP service of [backend/otp_service.py] *)
(* ===================================================================== *)

(** [s.replace(old, new)] for a non-empty [old]: the occurrences of [old]
    are taken from left to right, none overlapping. [skip] counts the code
    points still covered by the occurrence before. *)
Fixpoint replace_from (old new : str) (skip : nat) (s : str) : str :=
  match s with
  | [] => []
  | c :: s' =>
      match skip with
      | S k => replace_from old new k s'
      | O =>
          match strip_prefix old s with
          | Some _ => new ++ replace_from old new (length old - 1) s'
          | None => c :: replace_from old new O s'
          end
      end
  end.

Definition replace (old new s : str) : str := replace_from old new 0 s.

Module OTP.

Definition OTP_VALIDITY_MINUTES : Z := 10.
Definition MAX_ATTEMPTS : Z := 3.

(** [timedelta(minutes=n)], in microseconds. *)
Definition minutes (n : Z) : Z := n * 60000000.

(** A value of [otp_storage]. *)
Record entry : Type := mkEntry {
  otp : str;
  method : str;
  created_at : Z;
  expires_at : Z;
  attempts : Z;
  verified : bool
}.

(** [otp_storage]: the module-level dictionary, keyed by the identifier
    (the phone number as it was sent in). *)
Abbreviation storage := (gmap str entry).

(** [store_otp]; [datetime.now()] is read twice, for [created_at] and for
    [expires_at]. *)
Definition store_otp (now_created now_expires : Z) (identifier code method_name : str)
           (s : storage) : storage :=
  <[identifier :=
      mkEntry code method_name now_created
              (now_expires + minutes OTP_VALIDITY_MINUTES) 0 false]> s.

(** The [message] of the dictionary [verify_otp] returns; [success] is
    [True] with the one message of a verified code only. *)
Inductive message : Type :=
| NoOtpFound
| OtpAlreadyUsed
| OtpExpired
| MaximumAttemptsExceeded
| OtpVerified
| InvalidOtp (attempts_left : Z).

Definition success (m : message) : bool :=
  match m with
  | OtpVerified => true
  | _ => false
  end.

Definition count_attempt (d : entry) : entry :=
  mkEntry (otp d) (method d) (created_at d) (expires_at d) (attempts d + 1) (verified d).

Definition mark_verified (d : entry) : entry :=
  mkEntry (otp d) (method d) (created_at d) (expires_at d) (attempts d) true.

(** [verify_otp], run at time [now]. [stored_data] is the dictionary held
    in the storage, so its updates are updates of the storage. *)
Definition verify_otp (now : Z) (identifier code : str) (s : storage)
  : storage * message :=
  match s !! identifier with
  | None => (s, NoOtpFound)
  | Some stored_data =>
      if verified stored_data then (s, OtpAlreadyUsed)
      else if expires_at stored_data <? now then (delete identifier s, OtpExpired)
      else if MAX_ATTEMPTS <=? attempts stored_data
      then (delete identifier s, MaximumAttemptsExceeded)
      else
        let counted := count_attempt stored_data in
        if str_eqb (otp counted) code
        then (<[identifier := mark_verified counted]> s, OtpVerified)
        else (<[identifier := counted]> s, InvalidOtp (MAX_ATTEMPTS - attempts counted))
  end.

(** [cleanup_expired_otps], run at time [now]. *)
Definition expired_keys (now : Z) (s : storage) : list str :=
  map fst (List.filter (fun kd => expires_at (snd kd) <? now) (map_to_list s)).

Definition cleanup_expired_otps (now : Z) (s : storage) : storage :=
  fold_left (fun acc key => delete key acc) (expired_keys now s) s.

(** What leaves the process when a code is sent: the request to Fast2SMS,
    and the line that prints the code on the console. *)
Inductive sms_event : Type :=
| PostFast2SMS (numbers text : str)
| ConsoleOtp (code : str).

(** The answer of Fast2SMS: the status code, and the truth of the key
    [return] of the decoded body ([Raised] when decoding or reading it
    raises). *)
Record http_response : Type := mkHttp {
  status_code : Z;
  json_return : result bool
}.

(** What [send_otp] returns next to [True] or [False]. *)
Inductive send_message : Type :=
| OtpSentTo (phone_number : str)
| OtpGeneratedCheckConsole (code : str).

Section Sending.

(** [str.isdigit] on one code point. *)
Variable isdigit_char : N -> bool.
(** [os.getenv('FAST2SMS_API_KEY')]. *)
Variable api_key : option str.
(** [requests.post] to the Fast2SMS route, by the [numbers] and the
    [message] of the payload. *)
Variable post : str -> str -> result http_response.

Definition isdigit (s : str) : bool := truthy_str s && forallb isdigit_char s.

Definition clean_number (phone_number : str) : str :=
  replace (u " ") []
    (replace (u "-") []
       (replace (u "+") []
          (replace (u "+91") [] phone_number))).

Definition sms_text (code : str) : str :=
  u "Your Voyage verification code is " ++ code
    ++ u ". Valid for 10 minutes. Do not share.".

(** [send_otp_via_fast2sms]: the whole body stands in a [try] whose
    [except] prints the code and returns [True]. *)
Definition send_otp_via_fast2sms (phone_number code : str) : list sms_event * bool :=
  if negb (truthy_opt truthy_str api_key) then ([ConsoleOtp code], true)
  else
    let clean := clean_number phone_number in
    if negb (Nat.eqb (length clean) 10) || negb (isdigit clean)
    then ([ConsoleOtp code], true)
    else
      match post clean (sms_text code) with
      | Raised _ => ([PostFast2SMS clean (sms_text code); ConsoleOtp code], true)
      | Ok response =>
          if status_code response =? 200 then
            match json_return response with
            | Raised _ => ([PostFast2SMS clean (sms_text code); ConsoleOtp code], true)
            | Ok true => ([PostFast2SMS clean (sms_text code)], true)
            | Ok false => ([PostFast2SMS clean (sms_text code); ConsoleOtp code], true)
            end
          else ([PostFast2SMS clean (sms_text code); ConsoleOtp code], true)
      end.

(** [OTPService.send_otp], with the code [generate_otp] drew. Nothing in
    its [try] raises: the sending catches its own failures and the storing
    is an assignment. *)
Definition send_otp (now_created now_expires : Z) (phone_number code : str) (s : storage)
  : list sms_event * storage * (bool * send_message) :=
  let '(trace, sms_sent) := send_otp_via_fast2sms phone_number code in
  let s' := store_otp now_created now_expires phone_number code (u "sms") s in
  if sms_sent
  then (trace, s', (true, OtpSentTo phone_number))
  else (trace, s', (true, OtpGeneratedCheckConsole code)).

End Sending.

(** [verify_otp_simple]: the pair of the success flag and the message. *)
Definition verify_otp_simple (now : Z) (phone_number code : str) (s : storage)
  : storage * (bool * message) :=
  let '(s', m) := verify_otp now phone_number code s in
  (s', (success m, m)).

End OTP.
(** The answers of a run of verifications for one identifier, each guess
    with the time it is made at. *)
Fixpoint verify_all (identifier : str) (guesses : list (Z * str)) (s : OTP.storage)
  : list OTP.message :=
  match guesses with
  | [] => []
  | (now, code) :: rest =>
      snd (OTP.verify_otp now identifier code s)
      :: verify_all identifier rest (fst (OTP.verify_otp now identifier code s))
  end.


(* ===================================================================== *)
(** ** The OTP endpoints of [backend/server.py] *)
(* ===================================================================== *)

(** The values a stored document holds. A time is a [datetime] or its ISO
    text; a dictionary inside a document is the list of its items, each
    key once. *)
#[warnings="-register-all"] Inductive pyval : Type :=
| PyNone
| PyBool (b : bool)
| PyInt (z : Z)
| PyFloat (q : Q)
| PyStr (s : str)
| PyTime (t : Z)
| PyList (l : list pyval)
| PyDict (items : list (str * pyval)).

(** [bool(v)] *)
Definition truthy_val (v : pyval) : bool :=
  match v with
  | PyNone => false
  | PyBool b => b
  | PyInt z => truthy_int z
  | PyFloat q => truthy_float q
  | PyStr s => truthy_str s
  | PyTime _ => true
  | PyList l => match l with [] => false | _ :: _ => true end
  | PyDict items => match items with [] => false | _ :: _ => true end
  end.

(** [d.get(key, default)] on the items of a dictionary. *)
Fixpoint dict_get (key : str) (default : pyval) (items : list (str * pyval)) : pyval :=
  match items with
  | [] => default
  | (k, v) :: rest => if str_eqb k key then v else dict_get key default rest
  end.

(** [a or b] *)
Definition py_or (a b : pyval) : pyval := if truthy_val a then a else b.

(** [current_user]: what the endpoints read of it. *)
Record FirebaseUser : Type := mkFirebaseUser {
  user_uid : str;
  user_email : pyval;
  user_name : pyval
}.

(** The calls to the profile store. *)
Inductive profile_event : Type :=
| GetUserProfile (user_id : str)
| CreateOrUpdateUserProfile (user_id : str) (profile_data : gmap str pyval).

(** The [detail] of an [HTTPException] of the two endpoints. *)
Inductive otp_detail : Type :=
| VerifyDetail (m : OTP.message)
| SendDetail (m : OTP.send_message)
| FailedToVerifyOtp (e : exn).

Inductive otp_reply : Type :=
| OTPResponse (success : bool) (text : str) (expires_in : option Z)
| OtpHTTPException (status : Z) (detail : otp_detail).

Section OtpEndpoints.

Variable isdigit_char : N -> bool.
Variable api_key : option str.
Variable post : str -> str -> result OTP.http_response.
(** [firestore_service.get_user_profile] and
    [firestore_service.create_or_update_user_profile]. *)
Variable get_user_profile : str -> result (option (gmap str pyval)).
Variable create_or_update_user_profile : str -> gmap str pyval -> result unit.

(** [POST /api/auth/send-otp]. [send_otp] catches what it calls, so the
    handlers of the endpoint have nothing to catch. *)
Definition send_otp_endpoint (now_created now_expires : Z) (phone_number code : str)
           (s : OTP.storage) : list OTP.sms_event * OTP.storage * otp_reply :=
  let '(trace, s', (ok, m)) :=
    OTP.send_otp isdigit_char api_key post now_created now_expires phone_number code s in
  if negb ok
  then (trace, s', OtpHTTPException 400 (SendDetail m))
  else (trace, s', OTPResponse true (u "OTP sent successfully") (Some 300)).

(** [if not profile:]: no profile, or an empty one. *)
Definition profile_or_new (current_user : FirebaseUser) (found : option (gmap str pyval))
  : gmap str pyval :=
  match found with
  | Some profile =>
      match map_to_list profile with
      | _ :: _ => profile
      | [] =>
          <[u "preferences" := (PyDict [])]>
            (<[u "display_name" := user_name current_user]>
               (<[u "email" := user_email current_user]> ∅))
      end
  | None =>
      <[u "preferences" := (PyDict [])]>
        (<[u "display_name" := user_name current_user]>
           (<[u "email" := user_email current_user]> ∅))
  end.

Definition with_verified_phone (phone_number : str) (utcnow : Z) (profile : gmap str pyval)
  : gmap str pyval :=
  <[u "phone_verified_at" := PyTime utcnow]>
    (<[u "phone_verified" := PyBool true]>
       (<[u "phone_number" := PyStr phone_number]> profile)).

(** [POST /api/auth/verify-otp], run at [now], with [utcnow] the time read
    for [phone_verified_at]. A failure of the profile store is the
    [except Exception] of the endpoint: HTTP 500. *)
Definition verify_otp_endpoint (current_user : FirebaseUser) (now utcnow : Z)
           (phone_number code : str) (s : OTP.storage)
  : list profile_event * OTP.storage * otp_reply :=
  let '(s', (ok, m)) := OTP.verify_otp_simple now phone_number code s in
  if negb ok
  then ([], s', OtpHTTPException 400 (VerifyDetail m))
  else
    match get_user_profile (user_uid current_user) with
    | Raised e =>
        ([GetUserProfile (user_uid current_user)], s',
         OtpHTTPException 500 (FailedToVerifyOtp e))
    | Ok found =>
        let profile :=
          with_verified_phone phone_number utcnow (profile_or_new current_user found) in
        match create_or_update_user_profile (user_uid current_user) profile with
        | Raised e =>
            ([GetUserProfile (user_uid current_user);
              CreateOrUpdateUserProfile (user_uid current_user) profile], s',
             OtpHTTPException 500 (FailedToVerifyOtp e))
        | Ok _ =>
            ([GetUserProfile (user_uid current_user);
              CreateOrUpdateUserProfile (user_uid current_user) profile], s',
             OTPResponse true (u "Phone number verified successfully") None)
        end
    end.

(** [GET /api/profile/status]: what it answers. [phone_verified] and
    [profile_complete] are handed out as they are stored. *)
Record ProfileStatus : Type := mkProfileStatus {
  has_phone_number : bool;
  phone_verified : pyval;
  profile_complete : pyval;
  profile_exists : bool
}.

(** [if profile and profile.get("preferences"):] and its body. Stored
    preferences that are true and no dictionary have no [get]: the
    [AttributeError] is the HTTP 500 of the endpoint. *)
Definition profile_completion (profile : gmap str pyval) : result pyval :=
  match map_to_list profile with
  | [] => Ok (PyBool false)
  | _ :: _ =>
      let preferences := default PyNone (profile !! u "preferences") in
      if truthy_val preferences then
        match preferences with
        | PyDict items =>
            Ok (py_or (dict_get (u "completed") (PyBool false) items)
                      (PyBool (truthy_val
                                 (py_or (dict_get (u "travel_style") PyNone items)
                                        (dict_get (u "interests") PyNone items)))))
        | _ => Raised (HTTPException 500)
        end
      else Ok (PyBool false)
  end.

Definition get_profile_status (current_user : FirebaseUser) : result ProfileStatus :=
  match get_user_profile (user_uid current_user) with
  | Raised _ => Raised (HTTPException 500)
  | Ok None => Ok (mkProfileStatus false (PyBool false) (PyBool false) false)
  | Ok (Some profile) =>
      let truthy_profile :=
        match map_to_list profile with [] => false | _ :: _ => true end in
      bind_result (profile_completion profile) (fun complete =>
        Ok (mkProfileStatus
              (if truthy_profile
               then truthy_val (default PyNone (profile !! u "phone_number"))
               else false)
              (if truthy_profile
               then default (PyBool false) (profile !! u "phone_verified")
               else PyBool false)
              complete true))
  end.

End OtpEndpoints.


(* ===================================================================== *)
(** ** The trending cache and its endpoints *)
(* ===================================================================== *)

(** [timedelta(hours=n)], in microseconds. *)
Definition hours (n : Z) : Z := n * 3600000000.

(** What the trending endpoint answers. Both lists are empty in every
    answer it builds; a [datetime] is in microseconds. *)
Module TrendingSuggestionsResponse.

Record t : Type := mk {
  success : bool;
  message : str;
  trending_destinations : list str;
  upcoming_events : list str;
  cache_timestamp : Z;
  valid_until : Z
}.

End TrendingSuggestionsResponse.

Module TrendingCache.

(** The attributes of the one [TrendingCache] object. [cached_data] is
    not set by [__init__]: the clearing endpoint assigns [None] to it. *)
Record t : Type := mk {
  cache_timestamp : option Z;
  cache_data : option TrendingSuggestionsResponse.t;
  cache_duration_hours : Z;
  cached_data : option unit
}.

(** [__init__] *)
Definition init : t := mk None None 6 None.

Definition is_cache_valid (now : Z) (c : t) : bool :=
  match cache_data c, cache_timestamp c with
  | Some _, Some timestamp =>
      Qltb (ResearchCache.total_seconds now timestamp)
           (inject_Z (cache_duration_hours c * 3600))
  | _, _ => false
  end.

Definition get_cache (now : Z) (c : t) : option TrendingSuggestionsResponse.t :=
  if is_cache_valid now c then cache_data c else None.

Definition set_cache (now : Z) (data : TrendingSuggestionsResponse.t) (c : t) : t :=
  mk (Some now) (Some data) (cache_duration_hours c) (cached_data c).

End TrendingCache.

(** [GET /api/trending]. The clock is read three times: by [get_cache], by
    the endpoint for the answer it builds, and by [set_cache]. An answer
    found in the cache is an object, which [if cached:] takes for true. *)
Definition get_trending_suggestions (now_read now now_set : Z) (c : TrendingCache.t)
  : TrendingCache.t * TrendingSuggestionsResponse.t :=
  match TrendingCache.get_cache now_read c with
  | Some cached => (c, cached)
  | None =>
      let response_data :=
        TrendingSuggestionsResponse.mk true (u "Trending suggestions (fallback)") [] []
          now (now + hours (TrendingCache.cache_duration_hours c)) in
      (TrendingCache.set_cache now_set response_data c, response_data)
  end.

(** [POST /api/trending/clear-cache] *)
Definition clear_trending_cache (c : TrendingCache.t) : TrendingCache.t :=
  TrendingCache.mk None (TrendingCache.cache_data c)
                   (TrendingCache.cache_duration_hours c) (Some tt).


(* ===================================================================== *)
(** ** Whether a day optimization is suggested *)
(* ===================================================================== *)

(** [x / d] with [d] a number read from a document; amounts are exact
    here as in the budget check. *)
Definition div_number (x d : Q) : result Q :=
  if Qeq_bool d 0 then Raised ZeroDivisionError else Ok (x / d)%Q.

(** What [check_optimization_needed] reads of a stored trip: each field
    is [None] when the document lacks the key. A budget that is present
    is a number. *)
Record StoredTrip : Type := mkStoredTrip {
  trip_user_id : option str;
  trip_status : option str;
  last_optimization_time : option str;
  trip_budget : option Q
}.

(** What it reads of the expense tracker. *)
Record ExpenseSummary : Type := mkExpenseSummary {
  total_spent : Q;
  total_remaining : Q;
  days_remaining : Z
}.

Inductive OptimizationReason : Type :=
| GoodMorning
| BudgetAlert (budget_used_percent : Q)
| BudgetExceeded
| AfternoonPlans
| EveningAhead.

(** The [reason] of an answer that carries no list of reasons. *)
Inductive Unchecked : Type :=
| TripNotFound
| TripNotStarted
| ErrorCheckingConditions.

Inductive OptimizationCheck : Type :=
| NotChecked (reason : Unchecked)
| Checked (should_optimize : bool) (reasons : list OptimizationReason)
          (remaining_budget : Q) (days_left : Z).

Section CheckOptimization.

(** [firestore_service.get_trip_plan_by_id(trip_id, user_id)] and
    [expense_service.get_expense_tracker(trip_id, include_deleted=False)]:
    what each answers in this request. *)
Variable get_trip_plan_by_id : result (option StoredTrip).
Variable get_expense_tracker : result ExpenseSummary.
(** [datetime.fromisoformat] of a stored time, in microseconds; [Raised]
    when the text is no ISO time, or carries a zone, with which the
    subtraction from [datetime.now()] raises. *)
Variable fromisoformat : str -> result Z.

Definition ONE_DAY : Z := 86400000000.

(** [if 7 <= current_hour <= 9: ...] *)
Definition morning_reasons (now current_hour : Z) (trip : StoredTrip)
  : result (list OptimizationReason) :=
  if (7 <=? current_hour) && (current_hour <=? 9) then
    if negb (truthy_opt truthy_str (last_optimization_time trip))
    then Ok [GoodMorning]
    else
      match last_optimization_time trip with
      | Some last_optimization =>
          bind_result (fromisoformat last_optimization) (fun last =>
            (* [timedelta.days >= 1] *)
            if ONE_DAY <=? now - last then Ok [GoodMorning] else Ok [])
      | None => Ok [GoodMorning]
      end
  else Ok [].

(** [if expense_summary.total_spent > 0: ...] *)
Definition budget_reasons (trip : StoredTrip) (expense_summary : ExpenseSummary)
  : result (list OptimizationReason) :=
  if Qltb 0 (total_spent expense_summary) then
    bind_result
      (div_number (total_spent expense_summary)
                  (match trip_budget trip with Some b => b | None => 1 end))
      (fun used =>
         let budget_used_percent := (used * 100)%Q in
         if Qltb 90 budget_used_percent then Ok [BudgetAlert budget_used_percent]
         else if Qltb (total_remaining expense_summary) 0 then Ok [BudgetExceeded]
         else Ok [])
  else Ok [].

Definition midday_reasons (current_hour : Z) : list OptimizationReason :=
  if (12 <=? current_hour) && (current_hour <=? 14) then [AfternoonPlans] else [].

Definition evening_reasons (current_hour : Z) : list OptimizationReason :=
  if (17 <=? current_hour) && (current_hour <=? 18) then [EveningAhead] else [].

(** The body of the [try], for the user [user_id], with [current_hour] the
    hour in Kolkata and [now] the local time of the server. *)
Definition check_optimization_body (user_id : str) (now current_hour : Z)
  : result OptimizationCheck :=
  bind_result get_trip_plan_by_id (fun found =>
    match found with
    | None => Ok (NotChecked TripNotFound)
    | Some trip =>
        if negb (match trip_user_id trip with
                 | Some owner => str_eqb owner user_id
                 | None => false
                 end)
        then Ok (NotChecked TripNotFound)
        else if negb (match trip_status trip with
                      | Some status => str_eqb status (u "started")
                      | None => false
                      end)
        then Ok (NotChecked TripNotStarted)
        else
          bind_result get_expense_tracker (fun expense_summary =>
          bind_result (morning_reasons now current_hour trip) (fun morning =>
          bind_result (budget_reasons trip expense_summary) (fun money =>
            let reasons :=
              morning ++ money ++ midday_reasons current_hour
                      ++ evening_reasons current_hour in
            Ok (Checked (negb (Nat.eqb (length reasons) 0)) reasons
                        (total_remaining expense_summary)
                        (days_remaining expense_summary)))))
    end).

(** [check_optimization_needed]: every exception of the body becomes an
    answer. *)
Definition check_optimization_needed (user_id : str) (now current_hour : Z)
  : OptimizationCheck :=
  match check_optimization_body user_id now current_hour with
  | Ok answer => answer
  | Raised _ => NotChecked ErrorCheckingConditions
  end.

End CheckOptimization.


(* ===================================================================== *)
(** ** The head of the planning endpoint: intent and extraction *)
(* ===================================================================== *)

(** [str.upper], one code point at a time. The small letters of ASCII go
    to their capitals. Outside ASCII ten code points have an upper-case
    form made of ASCII letters only: U+00DF, U+0131, U+017F and the
    ligatures U+FB00 to U+FB06. Every other code point is kept: where
    [str.upper] changes one of them, the result holds a code point outside
    ASCII, which makes no difference to a comparison with an ASCII
    literal, the only use of [upper] in the source. *)
Definition upper_cp (c : N) : list N :=
  if ((97 <=? c) && (c <=? 122))%N then [(c - 32)%N]
  else if (c =? 223)%N then [83%N; 83%N]
  else if (c =? 305)%N then [73%N]
  else if (c =? 383)%N then [83%N]
  else if (c =? 64256)%N then [70%N; 70%N]
  else if (c =? 64257)%N then [70%N; 73%N]
  else if (c =? 64258)%N then [70%N; 76%N]
  else if (c =? 64259)%N then [70%N; 70%N; 73%N]
  else if (c =? 64260)%N then [70%N; 70%N; 76%N]
  else if ((c =? 64261) || (c =? 64262))%N then [83%N; 84%N]
  else [c].

Definition upper (s : str) : str := flat_map upper_cp s.

(** [str.strip()]: the white space of both ends is taken off. *)
Fixpoint rstrip (s : str) : str :=
  match s with
  | [] => []
  | c :: s' =>
      match rstrip s' with
      | [] => if is_space c then [] else [c]
      | kept => c :: kept
      end
  end.

Definition strip (s : str) : str := rstrip (skip_spaces s).

(** Where the reply of the intent model sends the request. Every reply
    that is none of the six labels the handler tests goes on to the
    extraction. *)
Inductive Intent : Type :=
| GREETING
| DESTINATION_INQUIRY
| RECOMMENDATION
| ADVICE
| OTHER
| MODIFICATION_REQUEST
| TRIP_PLANNING.

(** [intent = intent_response.content.strip().upper()] and the chain of
    [if intent == ...]. *)
Definition intent_of (content : str) : Intent :=
  let intent := upper (strip content) in
  if str_eqb intent (u "GREETING") then GREETING
  else if str_eqb intent (u "DESTINATION_INQUIRY") then DESTINATION_INQUIRY
  else if str_eqb intent (u "RECOMMENDATION") then RECOMMENDATION
  else if str_eqb intent (u "ADVICE") then ADVICE
  else if str_eqb intent (u "OTHER") then OTHER
  else if str_eqb intent (u "MODIFICATION_REQUEST") then MODIFICATION_REQUEST
  else TRIP_PLANNING.

(** The [message] of the answer to a conversational intent. *)
Definition conversation_message (i : Intent) : str :=
  match i with
  | GREETING => u "Greeting"
  | DESTINATION_INQUIRY => u "Destination information"
  | RECOMMENDATION => u "Travel recommendations"
  | ADVICE => u "Travel advice"
  | _ => u "General response"
  end.

(** The calls to the language model, by the prompt of the user. *)
Inductive llm_event : Type :=
| InvokeIntent (prompt : str)
| InvokeSmart (i : Intent) (prompt : str)
| InvokeExtractor (prompt : str) (previous_extraction : option PreviousExtraction).

(** The [trip_plan] of an answer that carries only a text: the stripped
    reply of the conversational model, or one of the two fixed texts of
    the handler, the request to send the full details again with the
    modification, and the request to rephrase. *)
Inductive PlanText : Type :=
| ModelReply (text : str)
| SendFullDetailsAgain
| CouldNotUnderstand.

(** A [TripResponse]: one that carries only a text ([trip_id] and
    [extracted_details] are [None]), or one of the planning steps. *)
Inductive TripResponse : Type :=
| TextOnly (success : bool) (message : str) (trip_plan : PlanText)
| Planning (answer : Response).

Section Endpoint.

Variable digit_value : N -> option Z.
Variable get_minimum_daily_budget : str -> result str.
Variable get_travel_advisory : str -> result str.
Variable get_realtime_weather : str -> result str.
Variable get_travel_document_info : str -> result str.
Variable estimate_transport_cost : str -> str -> Z -> result Q.
Variable estimate_transport_fallback : str -> str -> Z -> result Q.
Variable agent_executor : Mission -> TripDetails -> ResearchData -> result str.
(** The three models, each as what it answers to the prompt built around
    the message of the user. Building the three clients is taken to
    succeed. *)
Variable intent_llm : str -> result str.
Variable smart_llm : Intent -> str -> result str.
Variable extractor_llm : str -> option PreviousExtraction -> result TripDetails.

(** What a request leaves behind: the calls to the models, the calls of
    the planning steps, the research cache, and the answer. *)
Definition Served : Type :=
  list llm_event * list event * ResearchCache.t * result TripResponse.

(** [plan_trip_from_prompt] of [backend/server.py], whole. An exception of
    the intent model or of the conversational model reaches the outermost
    [except Exception]; one of the extractor is caught where it is called. *)
Definition serve_plan_trip_from_prompt
    (prompt : str) (previous_extraction : option PreviousExtraction)
    (now_lookup now_store : Z) (c : ResearchCache.t) : Served :=
  match intent_llm prompt with
  | Raised _ => ([InvokeIntent prompt], [], c, Raised (HTTPException 500))
  | Ok content =>
      match intent_of content with
      | MODIFICATION_REQUEST =>
          ([InvokeIntent prompt], [], c,
           Ok (TextOnly false (u "Cannot modify plan without context")
                        SendFullDetailsAgain))
      | TRIP_PLANNING =>
          match extractor_llm prompt previous_extraction with
          | Raised _ =>
              ([InvokeIntent prompt; InvokeExtractor prompt previous_extraction], [], c,
               Ok (TextOnly false (u "Extraction failed") CouldNotUnderstand))
          | Ok extracted =>
              let '(trace, c', r) :=
                plan_trip_from_prompt digit_value
                  get_minimum_daily_budget get_travel_advisory get_realtime_weather
                  get_travel_document_info estimate_transport_cost
                  estimate_transport_fallback agent_executor
                  previous_extraction extracted now_lookup now_store c in
              ([InvokeIntent prompt; InvokeExtractor prompt previous_extraction],
               trace, c',
               match r with
               | Ok answer => Ok (Planning answer)
               | Raised e => Raised e
               end)
          end
      | conversational =>
          match smart_llm conversational prompt with
          | Raised _ =>
              ([InvokeIntent prompt; InvokeSmart conversational prompt], [], c,
               Raised (HTTPException 500))
          | Ok reply =>
              ([InvokeIntent prompt; InvokeSmart conversational prompt], [], c,
               Ok (TextOnly true (conversation_message conversational)
                        (ModelReply (strip reply))))
          end
      end
  end.

End Endpoint.


(* ===================================================================== *)
(** ** The feedback statistics of [backend/feedback_service.py] *)
(* ===================================================================== *)

Module Feedback.

(** What [get_feedback_stats] reads of a feedback document, each field
    with the default of its [data.get]: a rating of 0, no recommendation,
    no highlights and no improvements. *)
Record t : Type := mk {
  rating : Q;
  would_recommend : bool;
  highlights : list str;
  improvements : list str
}.

(** [counts[item] = counts.get(item, 0) + 1] on a dictionary, which keeps
    its keys in the order of their first insertion. *)
Fixpoint bump (item : str) (counts : list (str * Z)) : list (str * Z) :=
  match counts with
  | [] => [(item, 1)]
  | (k, n) :: rest =>
      if str_eqb k item then (k, n + 1) :: rest else (k, n) :: bump item rest
  end.

(** The inner loop over the items of one document, and the outer loop over
    the documents. *)
Definition count_items (field : t -> list str) (all_feedback : list t)
  : list (str * Z) :=
  fold_left (fun counts data => fold_left (fun acc item => bump item acc) (field data) counts)
            all_feedback [].

(** [sorted(items, key=lambda x: x[1], reverse=True)]: the sort is stable,
    also when reversed, so items of equal count keep their order. *)
Fixpoint insert_by_count (x : str * Z) (sorted : list (str * Z)) : list (str * Z) :=
  match sorted with
  | [] => [x]
  | y :: rest =>
      if snd x <? snd y then y :: insert_by_count x rest else x :: y :: rest
  end.

Definition sorted_by_count (items : list (str * Z)) : list (str * Z) :=
  fold_right insert_by_count [] items.

(** [sorted(...)[:5]] *)
Definition top_five (counts : list (str * Z)) : list (str * Z) :=
  firstn 5 (sorted_by_count counts).

Record stats : Type := mkStats {
  total_feedback : Z;
  average_rating : Q;
  recommendation_rate : Q;
  top_highlights : list (str * Z);
  common_improvements : list (str * Z)
}.

Definition sum_ratings (all_feedback : list t) : Q :=
  fold_left (fun acc data => (acc + rating data)%Q) all_feedback 0%Q.

Definition recommendations (all_feedback : list t) : Z :=
  fold_left (fun acc data => if would_recommend data then acc + 1 else acc) all_feedback 0.

(** [get_feedback_stats] on the documents of the collection. Past the
    first test the list is not empty, so neither division has a zero
    divisor. *)
Definition get_feedback_stats (all_feedback : list t) : stats :=
  match all_feedback with
  | [] => mkStats 0 0 0 [] []
  | _ :: _ =>
      let total := Z.of_nat (length all_feedback) in
      mkStats total
              (sum_ratings all_feedback / inject_Z total)%Q
              (inject_Z (recommendations all_feedback) / inject_Z total * 100)%Q
              (top_five (count_items highlights all_feedback))
              (top_five (count_items improvements all_feedback))
  end.

End Feedback.


(** The tiers in their order, the cheapest first. *)
Definition tier_rank (tier : Tier) : Z :=
  match tier with
  | BudgetFriendly => 0
  | Moderate => 1
  | Luxury => 2
  end.

(** How many answers of a run of verifications are successes. *)
Definition successes (answers : list OTP.message) : nat :=
  length (List.filter OTP.success answers).

(** How often [item] stands in a list of items, and the count a
    dictionary of counts holds for it. *)
Definition count_of (item : str) (items : list str) : Z :=
  Z.of_nat (length (List.filter (str_eqb item) items)).

Fixpoint count_held (item : str) (counts : list (str * Z)) : Z :=
  match counts with
  | [] => 0
  | (k, n) :: rest => if str_eqb k item then n else count_held item rest
  end.

(** The counts go down along the list. *)
Fixpoint descending (l : list (str * Z)) : Prop :=
  match l with
  | [] => True
  | x :: rest => (forall y, In y rest -> snd y <= snd x) /\ descending rest
  end.

(** [tops] lists, with their counts and the most mentioned first, up to
    five items of [items], none twice, and no item left out is mentioned
    more often than a listed one. *)
Definition most_mentioned (items : list str) (tops : list (str * Z)) : Prop :=
  (length tops <= 5)%nat
  /\ descending tops
  /\ List.NoDup (map fst tops)
  /\ (forall item n, In (item, n) tops -> n = count_of item items /\ 1 <= n)
  /\ (forall item, In item items -> ~ In item (map fst tops) ->
        length tops = 5%nat
        /\ forall other n, In (other, n) tops -> count_of item items <= n).

(** The calls of the four research tools among the outside calls. *)
Definition is_research_call (ev : event) : bool :=
  match ev with
  | CallMinimumDailyBudget _ | CallTravelAdvisory _
  | CallRealtimeWeather _ | CallTravelDocumentInfo _ => true
  | _ => false
  end.


(** A started trip of the user [uid-1] with the given budget, and a state
    of its expenses. *)
Definition started_trip (budget : Q) : StoredTrip :=
  mkStoredTrip (Some (u "uid-1")) (Some (u "started")) None (Some budget).

Definition spent_38000_of_40000 : ExpenseSummary := mkExpenseSummary 38000 2000 1.

Definition no_iso_time : str -> result Z := fun _ => Raised CollaboratorError.

(** Models of the examples: an intent model with a fixed reply, a
    conversational model and an extractor that are out of order. *)
Definition replying (content : string) : str -> result str := fun _ => Ok (u content).
Definition silent_model : Intent -> str -> result str :=
  fun _ _ => Raised CollaboratorError.
Definition failing_extractor : str -> option PreviousExtraction -> result TripDetails :=
  fun _ _ => Raised CollaboratorError.

(** Two feedback documents. *)
Definition two_feedbacks : list Feedback.t :=
  [Feedback.mk 5 true [u "beaches"; u "food"] [u "transport"];
   Feedback.mk 4 false [u "food"] []].

(** [str.isdigit] on the code points of ASCII, and a gateway that
    confirms every message. *)
Definition ascii_isdigit (c : N) : bool := ((48 <=? c) && (c <=? 57))%N.
Definition confirming : str -> str -> result OTP.http_response :=
  fun _ _ => Ok (OTP.mkHttp 200 (Ok true)).


(* ===================================================================== *)
(** * Properties *)
(* ===================================================================== *)

(** ** Comparisons *)

Lemma Qltb_lt (x y : Q) : Qltb x y = true <-> (x < y)%Q.
Proof.
  unfold Qltb. rewrite negb_true_iff. split.
  - intros H. apply Qnot_le_lt. intros Hle.
    apply Qle_bool_iff in Hle. congruence.
  - intros H. destruct (Qle_bool y x) eqn:E; [|reflexivity].
    apply Qle_bool_iff in E. exfalso. apply (Qlt_not_le _ _ H E).
Qed.

Lemma Qltb_ge (x y : Q) : Qltb x y = false <-> (y <= x)%Q.
Proof.
  unfold Qltb. rewrite negb_false_iff. apply Qle_bool_iff.
Qed.

Lemma Qleb_le (x y : Q) : Qleb x y = true <-> (x <= y)%Q.
Proof. apply Qle_bool_iff. Qed.

Lemma Qleb_gt (x y : Q) : Qleb x y = false <-> (y < x)%Q.
Proof.
  unfold Qleb. split.
  - intros H. apply Qnot_le_lt. intros Hle. apply Qle_bool_iff in Hle. congruence.
  - intros H. destruct (Qle_bool x y) eqn:E; [|reflexivity].
    apply Qle_bool_iff in E. exfalso. apply (Qlt_not_le _ _ H E).
Qed.

Lemma str_eqb_eq (a b : str) : str_eqb a b = true <-> a = b.
Proof.
  revert b. induction a as [|x a IH]; intros [|y b]; simpl; try (split; congruence).
  rewrite andb_true_iff, N.eqb_eq, IH. split.
  - intros [-> ->]. reflexivity.
  - intros H. injection H as -> ->. split; reflexivity.
Qed.

Lemma in_list_In (s : str) (l : list str) : in_list s l = true <-> In s l.
Proof.
  unfold in_list. rewrite existsb_exists. split.
  - intros [x [Hx Heq]]. apply str_eqb_eq in Heq. subst. exact Hx.
  - intros H. exists s. split; [exact H | apply str_eqb_eq; reflexivity].
Qed.

Lemma true_div_ok (x : Q) (d : Z) : d <> 0 -> true_div x d = Ok (x / inject_Z d)%Q.
Proof.
  intros Hd. unfold true_div. destruct (Z.eqb_spec d 0); [contradiction|reflexivity].
Qed.

Lemma true_div_zero (x : Q) : true_div x 0 = Raised ZeroDivisionError.
Proof. reflexivity. Qed.

(** ** The feasibility computation *)

Lemma feasibility_ok (t : TripDetails) (est : Z) (transport : Q) :
  num_people t <> 0 -> num_days t <> 0 ->
  feasibility t est transport =
    Ok (mkFeasibility
          (budget t / inject_Z (num_people t) / inject_Z (num_days t))%Q
          (inject_Z (est * num_days t * num_people t) * BUFFER + transport)%Q
          (Qleb (inject_Z (est * num_days t * num_people t) * BUFFER + transport)%Q (budget t))
          (if negb (Qleb (inject_Z (est * num_days t * num_people t) * BUFFER + transport)%Q
                         (budget t))
           then (inject_Z (est * num_days t * num_people t) * BUFFER + transport - budget t)%Q
           else 0%Q)
          (if negb (Qleb (inject_Z (est * num_days t * num_people t) * BUFFER + transport)%Q
                         (budget t))
           then None
           else Some (budget t
                      - (inject_Z (est * num_days t * num_people t) * BUFFER + transport))%Q)).
Proof.
  intros Hp Hd. unfold feasibility.
  rewrite (true_div_ok _ _ Hp). simpl.
  rewrite (true_div_ok _ _ Hd). simpl. reflexivity.
Qed.

(** ** The budget check inside the handler *)


Section OrchestratorFacts.

Variable digit_value : N -> option Z.
Variable estimate_transport_cost : str -> str -> Z -> result Q.
Variable estimate_transport_fallback : str -> str -> Z -> result Q.

Local Abbreviation transport_of :=
  (estimate_transport estimate_transport_cost estimate_transport_fallback).
Local Abbreviation body_of :=
  (budget_check_body digit_value estimate_transport_cost estimate_transport_fallback).
Local Abbreviation validate :=
  (validate_budget digit_value estimate_transport_cost estimate_transport_fallback).

Lemma estimate_transport_cases (t : TripDetails) (c : ResearchCache.t) :
  transport_of t c =
    match estimate_transport_cost (origin_city t) (destination t) (num_people t) with
    | Ok x =>
        ([CallEstimateTransportCost (origin_city t) (destination t) (num_people t)],
         c, Ok x)
    | Raised _ =>
        ([CallEstimateTransportCost (origin_city t) (destination t) (num_people t);
          CallEstimateTransportFallback (origin_city t) (destination t) (num_people t)],
         c,
         estimate_transport_fallback (origin_city t) (destination t) (num_people t))
    end.
Proof.
  unfold estimate_transport, try_except, call.
  destruct (estimate_transport_cost _ _ _); reflexivity.
Qed.

(** The [try] body when nothing in it raises. *)
Lemma budget_check_body_ok (t : TripDetails) (rd : ResearchData) (c : ResearchCache.t)
      (tr : list event) (c1 : ResearchCache.t) (transport : Q) :
  transport_of t c = (tr, c1, Ok transport) ->
  num_people t <> 0 -> num_days t <> 0 ->
  estimate_min_daily digit_value (minimum_budget rd) <> 0 ->
  exists f,
    feasibility t (estimate_min_daily digit_value (minimum_budget rd)) transport = Ok f
    /\ body_of t rd c =
       (tr, c1,
        Ok (mkVerdict (is_budget_sufficient f) (shortfall f)
              (fst (classify_tier (user_daily_per_person f)
                      (estimate_min_daily digit_value (minimum_budget rd))))
              (snd (classify_tier (user_daily_per_person f)
                      (estimate_min_daily digit_value (minimum_budget rd)))))).
Proof.
  intros Htr Hp Hd He.
  eexists. split; [apply feasibility_ok; assumption|].
  unfold budget_check_body, bind. rewrite Htr.
  unfold lift. rewrite (feasibility_ok _ _ _ Hp Hd). simpl.
  rewrite (true_div_ok _ _ He). simpl.
  rewrite !app_nil_r. reflexivity.
Qed.

Lemma validate_budget_ok (t : TripDetails) (rd : ResearchData) (c : ResearchCache.t)
      (tr : list event) (c1 : ResearchCache.t) (v : Verdict) :
  body_of t rd c = (tr, c1, Ok v) -> validate t rd c = (tr, c1, Ok v).
Proof.
  intros H. unfold validate_budget, try_except. rewrite H. reflexivity.
Qed.

Lemma validate_budget_raised (t : TripDetails) (rd : ResearchData) (c : ResearchCache.t)
      (tr : list event) (c1 : ResearchCache.t) (e : exn) :
  body_of t rd c = (tr, c1, Raised e) -> validate t rd c = (tr, c1, Ok default_verdict).
Proof.
  intros H. unfold validate_budget, try_except. rewrite H. simpl.
  rewrite app_nil_r. reflexivity.
Qed.


End OrchestratorFacts.



(** C1. For a complete slot set (days, travellers and budget positive), any
    researched daily minimum and any transport total, the feasibility
    computation returns; its required total is
    [daily_minimum * num_days * num_people * 1.2 + transport_total]; the
    budget is declared sufficient exactly when [budget >= required_total];
    the shortfall is [required_total - budget] when insufficient and [0]
    otherwise, where the surplus is [budget - required_total]. For a daily
    minimum of 3000, 5 days, 2 travellers and a transport total of 8000 the
    required total is 44000: a budget of 40000 is insufficient with
    shortfall 4000, 44000 is sufficient with surplus 0, and 50000 is
    sufficient with surplus 6000. Inside the handler the verdict of the
    budget check carries the sufficiency flag and the shortfall of this
    computation whenever the researched minimum is not zero. *)
Theorem feasibility_required_total :
  (forall (t : TripDetails) (daily_minimum : Z) (transport_total : Q),
      0 < num_days t -> 0 < num_people t -> (0 < budget t)%Q ->
      exists f,
        feasibility t daily_minimum transport_total = Ok f
        /\ (estimated_min_total f ==
            inject_Z daily_minimum * inject_Z (num_days t) * inject_Z (num_people t)
            * (12 # 10) + transport_total)%Q
        /\ (is_budget_sufficient f = true <-> (estimated_min_total f <= budget t)%Q)
        /\ (is_budget_sufficient f = false ->
            (shortfall f == estimated_min_total f - budget t)%Q /\ surplus f = None)
        /\ (is_budget_sufficient f = true ->
            (shortfall f == 0)%Q
            /\ exists s, surplus f = Some s /\ (s == budget t - estimated_min_total f)%Q))
  /\ (exists f,
        feasibility (goa_trip 40000) 3000 8000 = Ok f
        /\ (estimated_min_total f == 44000)%Q
        /\ is_budget_sufficient f = false /\ (shortfall f == 4000)%Q)
  /\ (exists f,
        feasibility (goa_trip 44000) 3000 8000 = Ok f
        /\ (estimated_min_total f == 44000)%Q
        /\ is_budget_sufficient f = true /\ (shortfall f == 0)%Q
        /\ exists s, surplus f = Some s /\ (s == 0)%Q)
  /\ (exists f,
        feasibility (goa_trip 50000) 3000 8000 = Ok f
        /\ (estimated_min_total f == 44000)%Q
        /\ is_budget_sufficient f = true /\ (shortfall f == 0)%Q
        /\ exists s, surplus f = Some s /\ (s == 6000)%Q)
  /\ (forall (digit_value : N -> option Z)
             (primary fallback : str -> str -> Z -> result Q)
             (t : TripDetails) (rd : ResearchData) (c : ResearchCache.t)
             (tr : list event) (transport_total : Q),
         0 < num_days t -> 0 < num_people t ->
         estimate_min_daily digit_value (minimum_budget rd) <> 0 ->
         estimate_transport primary fallback t c = (tr, c, Ok transport_total) ->
         exists f v,
           feasibility t (estimate_min_daily digit_value (minimum_budget rd))
             transport_total = Ok f
           /\ validate_budget digit_value primary fallback t rd c = (tr, c, Ok v)
           /\ verdict_sufficient v = is_budget_sufficient f
           /\ verdict_shortfall v = shortfall f).
Proof.
  split; [|split; [|split; [|split]]].
  - intros t est transport Hd Hp Hb.
    eexists. split; [apply feasibility_ok; lia|]. simpl.
    set (total := (inject_Z (est * num_days t * num_people t) * BUFFER + transport)%Q).
    split; [|split; [|split]].
    + unfold total, BUFFER. rewrite !inject_Z_mult. ring.
    + apply Qleb_le.
    + intros H. rewrite H. simpl. split; reflexivity.
    + intros H. rewrite H. simpl. split; [reflexivity|].
      eexists. split; reflexivity.
  - eexists. split; [reflexivity|]. simpl. repeat split; reflexivity.
  - eexists. split; [reflexivity|]. simpl. repeat split; try reflexivity.
    eexists. split; reflexivity.
  - eexists. split; [reflexivity|]. simpl. repeat split; try reflexivity.
    eexists. split; reflexivity.
  - intros digit_value primary fallback t rd c tr transport Hd Hp He Htr.
    destruct (budget_check_body_ok digit_value primary fallback t rd c tr c
                transport Htr) as [f [Hf Hbody]]; try lia; try exact He.
    exists f. eexists. split; [exact Hf|].
    split; [apply validate_budget_ok; exact Hbody|].
    split; reflexivity.
Qed.

Lemma feasibility_required_total_witness :
  exists f,
    feasibility (goa_trip 40000) 2500 1500 = Ok f
    /\ (estimated_min_total f == 31500)%Q
    /\ is_budget_sufficient f = true.
Proof.
  destruct feasibility_required_total as [H _].
  destruct (H (goa_trip 40000) 2500 (1500 # 1)) as [f [Hf [Ht [Hs _]]]];
    [reflexivity | reflexivity | reflexivity |].
  exists f. split; [exact Hf|]. split.
  - rewrite Ht. reflexivity.
  - apply Hs. rewrite Ht. simpl. discriminate.
Defined.



(** ** The merge with the previous extraction *)

(** Each step of the merge is one conditional around a setter. *)
Ltac merge_step f :=
  unfold f;
  repeat match goal with
         | |- context [if ?c then _ else _] => destruct c
         end;
  reflexivity.

(** [proj (f p t) = rhs] becomes [proj t = rhs] when step [f] leaves the
    field alone. *)
Ltac skip_step f :=
  match goal with
  | |- ?proj (f ?p ?t) = _ => transitivity (proj t); [merge_step f|]
  end.

Lemma budget_merge_origin_city p t : budget (merge_origin_city p t) = budget t.
Proof. merge_step merge_origin_city. Qed.
Lemma budget_merge_destination p t : budget (merge_destination p t) = budget t.
Proof. merge_step merge_destination. Qed.
Lemma budget_merge_num_days p t : budget (merge_num_days p t) = budget t.
Proof. merge_step merge_num_days. Qed.
Lemma budget_merge_num_people p t : budget (merge_num_people p t) = budget t.
Proof. merge_step merge_num_people. Qed.
Lemma budget_merge_interests p t : budget (merge_interests p t) = budget t.
Proof. merge_step merge_interests. Qed.
Lemma budget_merge_start_date p t : budget (merge_start_date p t) = budget t.
Proof. merge_step merge_start_date. Qed.

Lemma destination_merge_interests p t :
  destination (merge_interests p t) = destination t.
Proof. merge_step merge_interests. Qed.
Lemma destination_merge_start_date p t :
  destination (merge_start_date p t) = destination t.
Proof. merge_step merge_start_date. Qed.

Lemma merge_budget_before (p : PreviousExtraction) (t : TripDetails) :
  budget (merge_num_people p (merge_num_days p (merge_destination p (merge_origin_city p t))))
  = budget t.
Proof.
  rewrite budget_merge_num_people, budget_merge_num_days,
    budget_merge_destination, budget_merge_origin_city. reflexivity.
Qed.

Lemma merge_after_budget_destination (p : PreviousExtraction) (t : TripDetails) :
  destination (merge_start_date p (merge_interests p t)) = destination t.
Proof. rewrite destination_merge_start_date, destination_merge_interests. reflexivity. Qed.

Lemma merge_after_budget_budget (p : PreviousExtraction) (t : TripDetails) :
  budget (merge_start_date p (merge_interests p t)) = budget t.
Proof. rewrite budget_merge_start_date, budget_merge_interests. reflexivity. Qed.

Lemma truthy_float_pos (q : Q) : (0 < q)%Q -> truthy_float q = true.
Proof.
  intros H. unfold truthy_float. apply negb_true_iff.
  destruct (Qeq_bool q 0) eqn:E; [|reflexivity].
  apply Qeq_bool_iff in E. lra.
Qed.

Lemma float_not_given_iff (q : Q) : float_not_given q = true <-> (q <= 0)%Q.
Proof.
  unfold float_not_given. rewrite orb_true_iff, Qleb_le, negb_true_iff.
  unfold truthy_float. rewrite negb_false_iff, Qeq_bool_iff.
  split; [intros [H|H]; lra | intros H; right; exact H].
Qed.

Lemma int_not_given_iff (z : Z) : int_not_given z = true <-> z <= 0.
Proof.
  unfold int_not_given, truthy_int.
  rewrite orb_true_iff, negb_true_iff, negb_false_iff, Z.eqb_eq, Z.leb_le. lia.
Qed.

(** A budget above the previous one passes the budget step of the merge
    untouched, and the step moves the destination back when a first choice
    was recorded. *)
Lemma merge_budget_increase (p : PreviousExtraction) (t : TripDetails) (old : Q) :
  prev_budget p = Some old -> (0 < old)%Q -> (0 < budget t)%Q -> (old < budget t)%Q ->
  merge_budget p t =
    if truthy_opt truthy_str (prev_original_destination p)
    then set_destination (str_of (prev_original_destination p)) t
    else t.
Proof.
  intros Hp Ho Hb Hlt. unfold merge_budget. rewrite Hp. simpl.
  assert (E1 : float_not_given (budget t) = false).
  { destruct (float_not_given (budget t)) eqn:E; [|reflexivity].
    apply float_not_given_iff in E. lra. }
  rewrite E1. simpl.
  rewrite (truthy_float_pos _ Hb), (truthy_float_pos _ Ho).
  rewrite (proj2 (Qltb_lt 0 (budget t)) Hb). simpl.
  rewrite (proj2 (Qltb_lt old (budget t)) Hlt). reflexivity.
Qed.

(** C4. When the freshly extracted budget is known and strictly above the
    previous known budget, the merged slots carry the new budget; a
    non-empty [original_destination] of the previous slots becomes the
    merged destination, and the merged slots carry no
    [original_destination]. The previous slots (budget 40000, destination
    Ladakh, original destination Goa) merged with a turn that states only a
    budget of 60000 give destination Goa, budget 60000 and no original
    destination, and that is what the handler sends back. *)
Theorem budget_increase_restores_destination :
  (forall (p : PreviousExtraction) (t : TripDetails) (old : Q),
      prev_budget p = Some old -> (0 < old)%Q ->
      (0 < budget t)%Q -> (old < budget t)%Q ->
      budget (merge p t) = budget t
      /\ (forall first_choice,
             prev_original_destination p = Some first_choice -> first_choice <> [] ->
             destination (merge p t) = first_choice)
      /\ original_destination (model_dump (merge p t)) = None)
  /\ (destination (merge ladakh_after_goa only_budget_60000) = u "Goa"
      /\ budget (merge ladakh_after_goa only_budget_60000) = (60000 # 1)
      /\ original_destination (model_dump (merge ladakh_after_goa only_budget_60000)) = None)
  /\ (forall digit research1 research2 research3 research4 primary fallback agent
             now_lookup now_store c,
         exists known asked sent,
           plan_trip_from_prompt digit research1 research2 research3 research4
             primary fallback agent
             (Some ladakh_after_goa) only_budget_60000 now_lookup now_store c
           = ([], c, Ok (NeedMoreInformation known asked sent))
           /\ destination (details sent) = u "Goa"
           /\ budget (details sent) = (60000 # 1)
           /\ original_destination sent = None).
Proof.
  split; [|split].
  - intros p t old Hp Ho Hb Hlt.
    assert (Hstep : merge p t =
                    merge_start_date p (merge_interests p (merge_budget p
                      (merge_num_people p (merge_num_days p
                         (merge_destination p (merge_origin_city p t)))))))
      by reflexivity.
    pose proof (merge_budget_before p t) as Hbefore.
    pose proof (merge_budget_increase p _ old Hp Ho
                  (eq_ind_r (fun b => (0 < b)%Q) Hb Hbefore)
                  (eq_ind_r (fun b => (old < b)%Q) Hlt Hbefore)) as Hbudget.
    split; [|split].
    + rewrite Hstep, merge_after_budget_budget, Hbudget.
      destruct (truthy_opt truthy_str (prev_original_destination p));
        exact Hbefore.
    + intros od Hod Hne.
      rewrite Hstep, merge_after_budget_destination, Hbudget, Hod.
      destruct od as [|x od]; [contradiction|]. reflexivity.
    + reflexivity.
  - vm_compute. repeat split.
  - intros. do 3 eexists. split; [vm_compute; reflexivity|].
    vm_compute. repeat split.
Qed.

Lemma budget_increase_restores_destination_witness :
  budget (merge ladakh_after_goa (goa_trip 60000)) = (60000 # 1)
  /\ destination (merge ladakh_after_goa (goa_trip 60000)) = u "Goa".
Proof.
  destruct budget_increase_restores_destination as [H _].
  destruct (H ladakh_after_goa (goa_trip 60000) (40000 # 1))
    as [Hb [Hd _]]; [reflexivity | reflexivity | reflexivity | reflexivity |].
  split; [exact Hb|].
  apply Hd; [reflexivity | discriminate].
Defined.

(** What the merge does keep: a known count or amount of the previous
    extraction is never replaced by an unknown one. *)
Lemma merge_keeps_known_numbers (p : PreviousExtraction) (t : TripDetails) :
  (forall n, prev_num_days p = Some n -> 0 < n -> 0 < num_days (merge p t))
  /\ (forall n, prev_num_people p = Some n -> 0 < n -> 0 < num_people (merge p t))
  /\ (forall b, prev_budget p = Some b -> (0 < b)%Q -> (0 < budget (merge p t))%Q).
Proof.
  split; [|split].
  - intros n Hn Hpos.
    set (t1 := merge_destination p (merge_origin_city p t)).
    assert (E : num_days (merge p t) = num_days (merge_num_days p t1)).
    { unfold merge. fold t1.
      skip_step merge_start_date. skip_step merge_interests.
      skip_step merge_budget. skip_step merge_num_people. reflexivity. }
    rewrite E. unfold merge_num_days. rewrite Hn.
    cbn [truthy_opt int_of default].
    destruct (int_not_given (num_days t1)) eqn:G.
    + unfold truthy_int. destruct (Z.eqb_spec n 0); [lia | exact Hpos].
    + destruct (Z_lt_le_dec 0 (num_days t1)) as [H|H]; [exact H|].
      apply int_not_given_iff in H. congruence.
  - intros n Hn Hpos.
    set (t2 := merge_num_days p (merge_destination p (merge_origin_city p t))).
    assert (E : num_people (merge p t) = num_people (merge_num_people p t2)).
    { unfold merge. fold t2.
      skip_step merge_start_date. skip_step merge_interests.
      skip_step merge_budget. reflexivity. }
    rewrite E. unfold merge_num_people. rewrite Hn.
    cbn [truthy_opt int_of default].
    destruct (int_not_given (num_people t2)) eqn:G.
    + unfold truthy_int. destruct (Z.eqb_spec n 0); [lia | exact Hpos].
    + destruct (Z_lt_le_dec 0 (num_people t2)) as [H|H]; [exact H|].
      apply int_not_given_iff in H. congruence.
  - intros b Hb Hpos.
    set (t3 := merge_num_people p (merge_num_days p
                 (merge_destination p (merge_origin_city p t)))).
    assert (E : budget (merge p t) = budget (merge_budget p t3))
      by (unfold merge; fold t3; apply merge_after_budget_budget).
    rewrite E. unfold merge_budget. rewrite Hb.
    cbn [truthy_opt float_of default].
    rewrite (truthy_float_pos _ Hpos).
    destruct (float_not_given (budget t3)) eqn:G; [exact Hpos|].
    assert (Hb' : (0 < budget t3)%Q).
    { destruct (Qlt_le_dec 0 (budget t3)) as [H|H]; [exact H|].
      apply float_not_given_iff in H. congruence. }
    cbn [andb].
    repeat match goal with
           | |- context [if ?c then _ else _] => destruct c
           end; exact Hb'.
Qed.

(** Interests and a start date that were given stay given. *)
Lemma merge_keeps_given_texts (p : PreviousExtraction) (t : TripDetails) :
  (truthy_opt truthy_str (prev_interests p) = true ->
   truthy_opt truthy_str (interests (merge p t)) = true)
  /\ (truthy_opt truthy_str (prev_start_date p) = true ->
      truthy_opt truthy_str (start_date (merge p t)) = true).
Proof.
  split.
  - intros Hp.
    set (t5 := merge_budget p (merge_num_people p (merge_num_days p
                 (merge_destination p (merge_origin_city p t))))).
    assert (E : interests (merge p t) = interests (merge_interests p t5)).
    { unfold merge. fold t5. skip_step merge_start_date. reflexivity. }
    rewrite E. unfold merge_interests. rewrite Hp, andb_true_r.
    destruct (truthy_opt truthy_str (interests t5)) eqn:G; cbn [negb]; assumption.
  - intros Hp.
    set (t6 := merge_interests p (merge_budget p (merge_num_people p (merge_num_days p
                 (merge_destination p (merge_origin_city p t)))))).
    change (merge p t) with (merge_start_date p t6).
    unfold merge_start_date. rewrite Hp, andb_true_r.
    destruct (truthy_opt truthy_str (start_date t6)) eqn:G; cbn [negb]; assumption.
Qed.

Lemma in_required_sentinels (s : str) :
  in_list s required_sentinels = in_list s merge_sentinels || str_eqb s (u "anywhere").
Proof.
  unfold in_list, required_sentinels, merge_sentinels.
  cbn [map existsb]. rewrite orb_false_r.
  repeat rewrite <- orb_assoc. reflexivity.
Qed.

(** A known origin city of the previous extraction stays known through the
    merge unless the fresh one reads "anywhere", in whatever case. *)
Lemma merge_keeps_known_origin_city (p : PreviousExtraction) (t : TripDetails) (s : str) :
  prev_origin_city p = Some s -> city_missing s = false ->
  lower (origin_city t) <> u "anywhere" ->
  city_missing (origin_city (merge p t)) = false.
Proof.
  intros Hp Hs Hne.
  assert (E : origin_city (merge p t) = origin_city (merge_origin_city p t)).
  { unfold merge.
    skip_step merge_start_date. skip_step merge_interests. skip_step merge_budget.
    skip_step merge_num_people. skip_step merge_num_days. skip_step merge_destination.
    reflexivity. }
  rewrite E. unfold merge_origin_city. rewrite Hp. cbn [truthy_opt str_of default].
  assert (Hts : truthy_str s = true).
  { unfold city_missing in Hs. apply orb_false_elim in Hs as [Hs _].
    apply negb_false_iff in Hs. exact Hs. }
  rewrite Hts, andb_true_r.
  destruct (in_list (lower (origin_city t)) merge_sentinels) eqn:Em.
  - exact Hs.
  - unfold city_missing. rewrite in_required_sentinels, Em. cbn [orb].
    assert (Hany : str_eqb (lower (origin_city t)) (u "anywhere") = false).
    { destruct (str_eqb _ _) eqn:Ea; [|reflexivity].
      apply str_eqb_eq in Ea. contradiction. }
    rewrite Hany, orb_false_r.
    destruct (origin_city t) as [|c o]; [|reflexivity].
    vm_compute in Em. discriminate Em.
Qed.

(** C3, at an input where it fails. The previous extraction knows the
    origin city "Mumbai"; the fresh one says "Anywhere", which the merge
    does not count among its sentinels although the check of the required
    fields does: the merged origin city is "Anywhere", the check reports it
    missing, and the handler asks for the origin city again. *)
Theorem merge_drops_known_origin_city :
  city_missing (str_of (prev_origin_city trip_from_mumbai)) = false
  /\ city_missing (origin_city from_anywhere) = true
  /\ origin_city (merge trip_from_mumbai from_anywhere) = u "Anywhere"
  /\ city_missing (origin_city (merge trip_from_mumbai from_anywhere)) = true
  /\ missing_fields (merge trip_from_mumbai from_anywhere) = [FieldOriginCity].
Proof. vm_compute. repeat split. Qed.

(** ** The check of the required fields *)

Lemma city_missing_iff (s : str) :
  city_missing s = true <-> In (lower s) required_sentinels.
Proof.
  unfold city_missing. rewrite orb_true_iff, in_list_In. split.
  - intros [H|H]; [|exact H]. destruct s; [|discriminate].
    right. right. right. left. reflexivity.
  - intros H. right. exact H.
Qed.

Lemma field_missing_iff (t : TripDetails) (f : RequiredField) :
  field_missing t f = true <-> required_unknown t f.
Proof.
  destruct f; cbn [field_missing required_unknown].
  - apply city_missing_iff.
  - apply city_missing_iff.
  - apply int_not_given_iff.
  - apply float_not_given_iff.
  - destruct (start_date t) as [[|x d]|]; cbn [truthy_opt truthy_str negb];
      split; intros H;
      try reflexivity; try discriminate; try (right; reflexivity);
      try (left; reflexivity).
    destruct H as [H|H]; discriminate.
Qed.

Lemma In_missing_fields (t : TripDetails) (f : RequiredField) :
  In f (missing_fields t) <-> field_missing t f = true.
Proof.
  unfold missing_fields.
  destruct (city_missing (origin_city t)) eqn:E1,
           (city_missing (destination t)) eqn:E2,
           (int_not_given (num_days t)) eqn:E3,
           (float_not_given (budget t)) eqn:E4,
           (negb (truthy_opt truthy_str (start_date t))) eqn:E5;
    destruct f; cbn [app In field_missing]; rewrite ?E1, ?E2, ?E3, ?E4, ?E5;
    split; intros H; try reflexivity; try discriminate;
    try (repeat (destruct H as [H|H]; try discriminate H); contradiction);
    auto 10.
Qed.

Lemma NoDup_missing_fields (t : TripDetails) : List.NoDup (missing_fields t).
Proof.
  unfold missing_fields.
  destruct (city_missing (origin_city t)), (city_missing (destination t)),
           (int_not_given (num_days t)), (float_not_given (budget t)),
           (negb (truthy_opt truthy_str (start_date t)));
    cbn [app];
    repeat (constructor; [cbn [In]; intuition discriminate|]); constructor.
Qed.

(** ** The research cache *)

Lemma get_after_put (c : ResearchCache.t) (d : str) (data : ResearchData) (stored now : Z) :
  ResearchCache.get_cached_research now d (ResearchCache.cache_research stored d data c)
  = if Qltb (ResearchCache.total_seconds now stored) 3600 then Some data else None.
Proof.
  unfold ResearchCache.get_cached_research, ResearchCache.cache_research.
  cbn [ResearchCache.research_cache ResearchCache.research_cache_timestamps].
  rewrite !lookup_insert_eq. reflexivity.
Qed.

Lemma get_after_put_other (c : ResearchCache.t) (d d' : str) (data : ResearchData)
      (stored now : Z) :
  d <> d' ->
  ResearchCache.get_cached_research now d' (ResearchCache.cache_research stored d data c)
  = ResearchCache.get_cached_research now d' c.
Proof.
  intros Hne.
  unfold ResearchCache.get_cached_research, ResearchCache.cache_research.
  cbn [ResearchCache.research_cache ResearchCache.research_cache_timestamps].
  rewrite !lookup_insert_ne by exact Hne. reflexivity.
Qed.

Lemma get_empty (d : str) (now : Z) :
  ResearchCache.get_cached_research now d ResearchCache.empty = None.
Proof.
  unfold ResearchCache.get_cached_research, ResearchCache.empty.
  cbn [ResearchCache.research_cache]. rewrite lookup_empty. reflexivity.
Qed.

(** C8, as stated, fails: a destination stored as "Goa" is not found under
    "GOA", which differs from it by letter case only. *)
Lemma cache_key_case_counterexample :
  ~ (forall (d D : str) (data : ResearchData) (stored now : Z) (c : ResearchCache.t),
        lower d = lower D ->
        (ResearchCache.total_seconds now stored < 3600)%Q ->
        ResearchCache.get_cached_research now D
          (ResearchCache.cache_research stored d data c) = Some data).
Proof.
  intros H.
  specialize (H (u "Goa") (u "GOA") (research_saying []) 0 0 ResearchCache.empty
                eq_refl eq_refl).
  rewrite get_after_put_other in H by discriminate.
  rewrite get_empty in H. discriminate H.
Qed.

(** C8, amended. The cache is keyed by the destination text exactly as
    given: a [put] followed within the validity window by a [get] of the
    same text returns the stored data; a [get] of any other text, one that
    differs by letter case included, is answered as if the [put] had not
    happened, so "Goa", "GOA" and "GOA, India" are three keys. *)
Theorem cache_keyed_by_exact_text :
  (forall (d : str) (data : ResearchData) (stored now : Z) (c : ResearchCache.t),
      (ResearchCache.total_seconds now stored < 3600)%Q ->
      ResearchCache.get_cached_research now d
        (ResearchCache.cache_research stored d data c) = Some data)
  /\ (forall (d D : str) (data : ResearchData) (stored now : Z) (c : ResearchCache.t),
         d <> D ->
         ResearchCache.get_cached_research now D
           (ResearchCache.cache_research stored d data c)
         = ResearchCache.get_cached_research now D c)
  /\ (forall (data : ResearchData) (stored now : Z),
         ResearchCache.get_cached_research now (u "GOA")
           (ResearchCache.cache_research stored (u "Goa") data ResearchCache.empty) = None
         /\ ResearchCache.get_cached_research now (u "GOA, India")
              (ResearchCache.cache_research stored (u "Goa") data ResearchCache.empty)
            = None).
Proof.
  split; [|split].
  - intros d data stored now c Hage.
    rewrite get_after_put. rewrite (proj2 (Qltb_lt _ _) Hage). reflexivity.
  - intros. apply get_after_put_other. assumption.
  - intros data stored now.
    rewrite !get_after_put_other by discriminate.
    rewrite !get_empty. split; reflexivity.
Qed.

Lemma cache_keyed_by_exact_text_witness :
  ResearchCache.get_cached_research 1800000000 (u "Goa")
    (ResearchCache.cache_research 0 (u "Goa") (research_saying []) ResearchCache.empty)
  = Some (research_saying []).
Proof.
  destruct cache_keyed_by_exact_text as [H _].
  apply H. reflexivity.
Defined.

Section HandlerFacts.

Variable digit_value : N -> option Z.
Variable get_minimum_daily_budget : str -> result str.
Variable get_travel_advisory : str -> result str.
Variable get_realtime_weather : str -> result str.
Variable get_travel_document_info : str -> result str.
Variable estimate_transport_cost : str -> str -> Z -> result Q.
Variable estimate_transport_fallback : str -> str -> Z -> result Q.
Variable agent_executor : Mission -> TripDetails -> ResearchData -> result str.

Local Abbreviation research_of :=
  (research_phase get_minimum_daily_budget get_travel_advisory get_realtime_weather
     get_travel_document_info).
Local Abbreviation tools_of :=
  (run_research_parallel get_minimum_daily_budget get_travel_advisory
     get_realtime_weather get_travel_document_info).
Local Abbreviation handler :=
  (plan_trip_from_prompt digit_value get_minimum_daily_budget get_travel_advisory
     get_realtime_weather get_travel_document_info estimate_transport_cost
     estimate_transport_fallback agent_executor).

Lemma research_phase_hit (now_lookup now_store : Z) (city : str) (c : ResearchCache.t)
      (data : ResearchData) :
  ResearchCache.get_cached_research now_lookup city c = Some data ->
  research_of now_lookup now_store city c = ([], c, Ok data).
Proof.
  intros H. unfold research_phase, bind, read_cache. rewrite H. reflexivity.
Qed.

Lemma research_phase_miss (now_lookup now_store : Z) (city : str) (c : ResearchCache.t) :
  ResearchCache.get_cached_research now_lookup city c = None ->
  research_of now_lookup now_store city c =
    match tools_of city c with
    | (_, _, Ok fresh) =>
        (research_calls city,
         ResearchCache.cache_research now_store city fresh c, Ok fresh)
    | (_, _, Raised e) => (research_calls city, c, Raised e)
    end.
Proof.
  intros H. unfold research_phase, bind, read_cache. rewrite H.
  unfold run_research_parallel, research_calls, write_cache, ret.
  destruct (bind_result _ _); reflexivity.
Qed.

(** C7. When a required field of the merged slots (origin city,
    destination, number of days, budget, start date) is unknown, the
    handler answers "Need more information": the fields it asks for are
    exactly the unknown required ones, each once and in the order of the
    check, the known ones are echoed, and the trace of outside calls is
    empty and the cache untouched: no research, transport or planning
    call is made. Slots that lack only the start date ask for exactly
    ["start date"]. *)
Theorem collecting_asks_for_unknown_fields :
  (forall (previous_extraction : option PreviousExtraction) (extracted : TripDetails)
          (now_lookup now_store : Z) (c : ResearchCache.t),
      (exists f, required_unknown
                   (merge_with_previous previous_extraction extracted) f) ->
      let t := merge_with_previous previous_extraction extracted in
      handler previous_extraction extracted now_lookup now_store c
      = ([], c, Ok (NeedMoreInformation (current_info t) (missing_fields t)
                      (model_dump t)))
      /\ (forall f, In f (missing_fields t) <-> required_unknown t f)
      /\ List.NoDup (missing_fields t))
  /\ (map label (missing_fields goa_trip_undated) = [u "start date"]
      /\ forall now_lookup now_store c,
           handler None goa_trip_undated now_lookup now_store c
           = ([], c, Ok (NeedMoreInformation (current_info goa_trip_undated)
                           [FieldStartDate] (model_dump goa_trip_undated)))).
Proof.
  split.
  - intros prev extracted now_lookup now_store c [f Hf] t.
    assert (Hspec : forall g, In g (missing_fields t) <-> required_unknown t g).
    { intros g. rewrite In_missing_fields. apply field_missing_iff. }
    split; [|split; [exact Hspec | apply NoDup_missing_fields]].
    unfold plan_trip_from_prompt, try_except, plan_after_extraction. fold t.
    destruct (missing_fields t) as [|g gs] eqn:E.
    + exfalso. apply (proj2 (Hspec f)) in Hf. exact Hf.
    + reflexivity.
  - split; [vm_compute; reflexivity|].
    intros. vm_compute. reflexivity.
Qed.

End HandlerFacts.

Lemma collecting_asks_for_unknown_fields_witness :
  plan_trip_from_prompt ascii_digit (fun _ => Raised CollaboratorError)
    (fun _ => Raised CollaboratorError) (fun _ => Raised CollaboratorError)
    (fun _ => Raised CollaboratorError) out_of_order out_of_order
    (fun _ _ _ => Raised CollaboratorError)
    (Some trip_from_mumbai) from_anywhere 0 0 ResearchCache.empty
  = ([], ResearchCache.empty,
     Ok (NeedMoreInformation
           (current_info (merge trip_from_mumbai from_anywhere))
           (missing_fields (merge trip_from_mumbai from_anywhere))
           (model_dump (merge trip_from_mumbai from_anywhere)))).
Proof.
  destruct (collecting_asks_for_unknown_fields ascii_digit
              (fun _ => Raised CollaboratorError) (fun _ => Raised CollaboratorError)
              (fun _ => Raised CollaboratorError) (fun _ => Raised CollaboratorError)
              out_of_order out_of_order (fun _ _ _ => Raised CollaboratorError))
    as [H _].
  assert (Hex : exists f, required_unknown
                            (merge_with_previous (Some trip_from_mumbai) from_anywhere) f).
  { exists FieldOriginCity. apply city_missing_iff. vm_compute. reflexivity. }
  destruct (H (Some trip_from_mumbai) from_anywhere 0 0 ResearchCache.empty Hex)
    as [Heq _].
  exact Heq.
Defined.

Section CacheExpiry.

Variable get_minimum_daily_budget : str -> result str.
Variable get_travel_advisory : str -> result str.
Variable get_realtime_weather : str -> result str.
Variable get_travel_document_info : str -> result str.

Local Abbreviation research_of :=
  (research_phase get_minimum_daily_budget get_travel_advisory get_realtime_weather
     get_travel_document_info).


End CacheExpiry.


(** ** Reading the minimum daily cost *)

Lemma min_list_spec (l : list Z) (a : Z) :
  In (min_list a l) (a :: l) /\ forall b, In b (a :: l) -> min_list a l <= b.
Proof.
  unfold min_list. revert a. induction l as [|x l IH]; intros a.
  - cbn [fold_left]. split; [left; reflexivity|].
    intros b [<-|[]]. lia.
  - cbn [fold_left]. destruct (IH (Z.min a x)) as [Hin Hle]. split.
    + destruct Hin as [Hin|Hin]; [|right; right; exact Hin].
      rewrite <- Hin. destruct (Z.min_spec a x) as [[_ ->]|[_ ->]];
        [left | right; left]; reflexivity.
    + intros b [<-|[<-|Hb]].
      * specialize (Hle (Z.min a x) (or_introl eq_refl)). lia.
      * specialize (Hle (Z.min a x) (or_introl eq_refl)). lia.
      * apply Hle. right. exact Hb.
Qed.

Lemma min_or_spec (kept : Z) (amounts : list Z) :
  (amounts <> [] -> least_of amounts (min_or kept amounts))
  /\ (amounts = [] -> min_or kept amounts = kept).
Proof.
  destruct amounts as [|a l]; cbn [min_or].
  - split; [intros H; contradiction | reflexivity].
  - split; [intros _; apply min_list_spec | discriminate].
Qed.

(** C5, as stated, fails: in "Rs 500 or $50" the only rupee amount is out
    of range and 50 dollars convert to a plausible 4150, yet the source
    answers the default, for it reads dollar amounts only when no rupee
    amount was matched at all. *)
Lemma dollar_fallback_counterexample :
  estimate_min_daily ascii_digit (u "Rs 500 or $50") = 2500
  /\ claimed_min_daily ascii_digit (u "Rs 500 or $50") = 4150
  /\ ~ (forall text,
          estimate_min_daily ascii_digit text = claimed_min_daily ascii_digit text).
Proof.
  split; [vm_compute; reflexivity|]. split; [vm_compute; reflexivity|].
  intros H. specialize (H (u "Rs 500 or $50")). vm_compute in H. discriminate H.
Qed.

Lemma min_daily_cases (digit_value : N -> option Z) (budget_info : str) :
  let est := estimate_min_daily digit_value budget_info in
  (forall m, search_marker digit_value budget_info = Some m ->
             est = py_int digit_value m)
  /\ (search_marker digit_value budget_info = None ->
      rupee_matches digit_value budget_info <> [] ->
      (plausible_rupees digit_value budget_info <> [] ->
       least_of (plausible_rupees digit_value budget_info) est)
      /\ (plausible_rupees digit_value budget_info = [] -> est = DEFAULT_MIN_DAILY))
  /\ (search_marker digit_value budget_info = None ->
      rupee_matches digit_value budget_info = [] ->
      dollar_matches digit_value budget_info <> [] ->
      (converted_dollars digit_value budget_info <> [] ->
       least_of (converted_dollars digit_value budget_info) est)
      /\ (converted_dollars digit_value budget_info = [] -> est = DEFAULT_MIN_DAILY))
  /\ (search_marker digit_value budget_info = None ->
      rupee_matches digit_value budget_info = [] ->
      dollar_matches digit_value budget_info = [] ->
      est = DEFAULT_MIN_DAILY).
Proof.
  intros est. unfold est, estimate_min_daily.
  destruct budget_info as [|c0 text].
  - cbn [truthy_str]. split; [|split; [|split]].
    + intros m H. vm_compute in H. discriminate H.
    + intros _ H. exfalso. apply H. reflexivity.
    + intros _ _ H. exfalso. apply H. reflexivity.
    + intros _ _ _. reflexivity.
  - cbn [truthy_str]. set (info := c0 :: text).
    fold (plausible_rupees digit_value info).
    fold (converted_dollars digit_value info).
    destruct (search_marker digit_value info) as [m|] eqn:Em;
      [|destruct (rupee_matches digit_value info) as [|r rs] eqn:Er;
        [destruct (dollar_matches digit_value info) as [|d ds] eqn:Ed|]];
      (split; [|split; [|split]]).
    + intros m' H. injection H as <-. reflexivity.
    + intros H. discriminate H.
    + intros H. discriminate H.
    + intros H. discriminate H.
    + intros m' H. discriminate H.
    + intros _ H. exfalso. apply H. reflexivity.
    + intros _ _ H. exfalso. apply H. reflexivity.
    + intros _ _ _. reflexivity.
    + intros m' H. discriminate H.
    + intros _ H. exfalso. apply H. reflexivity.
    + intros _ _ _. apply min_or_spec.
    + intros _ _ H. discriminate H.
    + intros m' H. discriminate H.
    + intros _ _. apply min_or_spec.
    + intros _ H. discriminate H.
    + intros _ H. discriminate H.
Qed.

(** C5, amended. For every research text the minimum daily cost is: (1) the
    number of the leftmost "EXTRACTED MINIMUM" marker, when there is one;
    (2) otherwise, when the rupee pattern matches anywhere, the least of
    the matched amounts within 1000..15000, or the default 2500 when none
    of them is in that range; (3) otherwise, when the dollar pattern
    matches, the least of the amounts within 10..200 dollars, each
    converted at 83 rupees, or the default when none is in that range;
    (4) otherwise the default. A text naming 500 and 9000 rupees gives
    9000. *)
Theorem min_daily_fallback_chain :
  (forall (digit_value : N -> option Z) (budget_info : str),
      let est := estimate_min_daily digit_value budget_info in
      (forall m, search_marker digit_value budget_info = Some m ->
                 est = py_int digit_value m)
      /\ (search_marker digit_value budget_info = None ->
          rupee_matches digit_value budget_info <> [] ->
          (plausible_rupees digit_value budget_info <> [] ->
           least_of (plausible_rupees digit_value budget_info) est)
          /\ (plausible_rupees digit_value budget_info = [] -> est = DEFAULT_MIN_DAILY))
      /\ (search_marker digit_value budget_info = None ->
          rupee_matches digit_value budget_info = [] ->
          dollar_matches digit_value budget_info <> [] ->
          (converted_dollars digit_value budget_info <> [] ->
           least_of (converted_dollars digit_value budget_info) est)
          /\ (converted_dollars digit_value budget_info = [] ->
              est = DEFAULT_MIN_DAILY))
      /\ (search_marker digit_value budget_info = None ->
          rupee_matches digit_value budget_info = [] ->
          dollar_matches digit_value budget_info = [] ->
          est = DEFAULT_MIN_DAILY))
  /\ estimate_min_daily ascii_digit
       (u "Street food from " ++ [RUPEE] ++ u "500, rooms from " ++ [RUPEE] ++ u "9000")
     = 9000.
Proof.
  split; [exact min_daily_cases | vm_compute; reflexivity].
Qed.

Lemma min_daily_fallback_chain_witness :
  estimate_min_daily ascii_digit (u "about $50 to $ 120 a day") = 4150.
Proof.
  destruct min_daily_fallback_chain as [Hchain _].
  destruct (Hchain ascii_digit (u "about $50 to $ 120 a day")) as [_ [_ [H _]]].
  assert (Hm : search_marker ascii_digit (u "about $50 to $ 120 a day") = None)
    by (vm_compute; reflexivity).
  assert (Hr : rupee_matches ascii_digit (u "about $50 to $ 120 a day") = [])
    by (vm_compute; reflexivity).
  assert (Hd : dollar_matches ascii_digit (u "about $50 to $ 120 a day") <> [])
    by (vm_compute; discriminate).
  assert (Hc : converted_dollars ascii_digit (u "about $50 to $ 120 a day") <> [])
    by (vm_compute; discriminate).
  destruct (H Hm Hr Hd) as [Hleast _].
  destruct (Hleast Hc) as [Hin Hle].
  assert (Hall : forall a, In a (converted_dollars ascii_digit
                                   (u "about $50 to $ 120 a day")) -> 4150 <= a).
  { vm_compute. intros a [<-|[<-|[]]]; discriminate. }
  assert (H4150 : In 4150 (converted_dollars ascii_digit (u "about $50 to $ 120 a day")))
    by (vm_compute; left; reflexivity).
  apply Z.le_antisymm; [apply Hle; exact H4150 | apply Hall; exact Hin].
Defined.

(** ** Failures inside the budget check *)

(** C6, as stated, fails: with both estimators out of order, a Goa trip on
    a budget of 1000 is declared sufficient, while the verdict computed
    with a transport cost of zero would be a shortfall of 29000. *)
Lemma transport_double_failure_counterexample :
  ~ (forall (primary fallback : str -> str -> Z -> result Q)
            (t : TripDetails) (rd : ResearchData) (c : ResearchCache.t),
        0 < num_days t -> 0 < num_people t -> (0 < budget t)%Q ->
        0 < estimate_min_daily ascii_digit (minimum_budget rd) ->
        exists tr c' v f,
          validate_budget ascii_digit primary fallback t rd c = (tr, c', Ok v)
          /\ feasibility t (estimate_min_daily ascii_digit (minimum_budget rd))
               (claimed_transport_total
                  (primary (origin_city t) (destination t) (num_people t))
                  (fallback (origin_city t) (destination t) (num_people t))) = Ok f
          /\ verdict_sufficient v = is_budget_sufficient f).
Proof.
  intros H.
  destruct (H out_of_order out_of_order (goa_trip 1000) (research_saying [])
              ResearchCache.empty)
    as (tr & c' & v & f & Hv & Hf & Hs);
    [reflexivity | reflexivity | reflexivity | reflexivity |].
  vm_compute in Hv. vm_compute in Hf.
  injection Hv as _ _ <-. injection Hf as <-.
  discriminate Hs.
Qed.

Section BudgetCheckFailures.

Variable digit_value : N -> option Z.
Variable get_minimum_daily_budget : str -> result str.
Variable get_travel_advisory : str -> result str.
Variable get_realtime_weather : str -> result str.
Variable get_travel_document_info : str -> result str.
Variable estimate_transport_cost : str -> str -> Z -> result Q.
Variable estimate_transport_fallback : str -> str -> Z -> result Q.
Variable agent_executor : Mission -> TripDetails -> ResearchData -> result str.

Local Abbreviation transport_of :=
  (estimate_transport estimate_transport_cost estimate_transport_fallback).
Local Abbreviation body_of :=
  (budget_check_body digit_value estimate_transport_cost estimate_transport_fallback).
Local Abbreviation validate :=
  (validate_budget digit_value estimate_transport_cost estimate_transport_fallback).
Local Abbreviation research_of :=
  (research_phase get_minimum_daily_budget get_travel_advisory get_realtime_weather
     get_travel_document_info).
Local Abbreviation handler :=
  (plan_trip_from_prompt digit_value get_minimum_daily_budget get_travel_advisory
     get_realtime_weather get_travel_document_info estimate_transport_cost
     estimate_transport_fallback agent_executor).
Local Abbreviation primary_call t :=
  (CallEstimateTransportCost (origin_city t) (destination t) (num_people t)).
Local Abbreviation fallback_call t :=
  (CallEstimateTransportFallback (origin_city t) (destination t) (num_people t)).

Lemma estimate_transport_keeps_cache (t : TripDetails) (c c' : ResearchCache.t)
      (tr : list event) (r : result Q) :
  transport_of t c = (tr, c', r) -> c' = c.
Proof.
  rewrite estimate_transport_cases.
  destruct (estimate_transport_cost _ _ _); intros H; injection H as _ <- _; reflexivity.
Qed.

Lemma body_raises_with_transport (t : TripDetails) (rd : ResearchData)
      (c c' : ResearchCache.t) (tr : list event) (e : exn) :
  transport_of t c = (tr, c', Raised e) -> body_of t rd c = (tr, c', Raised e).
Proof.
  intros H. unfold budget_check_body, bind. rewrite H. reflexivity.
Qed.



Lemma validate_budget_returns (t : TripDetails) (rd : ResearchData) (c : ResearchCache.t) :
  exists tr v, validate t rd c = (tr, c, Ok v).
Proof.
  destruct (body_of t rd c) as [[tr c1] [v|e]] eqn:E.
  - assert (c1 = c) as ->.
    { revert E. unfold budget_check_body, bind.
      destruct (transport_of t c) as [[tr0 c0] [x|e0]] eqn:Et;
        pose proof (estimate_transport_keeps_cache _ _ _ _ _ Et) as ->.
      - unfold lift. destruct (feasibility _ _ _); [|discriminate].
        destruct (true_div _ _); [|discriminate].
        unfold ret. intros H. injection H as _ <- _. reflexivity.
      - discriminate. }
    exists tr, v. apply validate_budget_ok. exact E.
  - assert (c1 = c) as ->.
    { revert E. unfold budget_check_body, bind.
      destruct (transport_of t c) as [[tr0 c0] [x|e0]] eqn:Et;
        pose proof (estimate_transport_keeps_cache _ _ _ _ _ Et) as ->.
      - unfold lift. destruct (feasibility _ _ _).
        + destruct (true_div _ _); [discriminate|].
          intros H. injection H as _ <- _. reflexivity.
        + intros H. injection H as _ <- _. reflexivity.
      - intros H. injection H as _ <- _. reflexivity. }
    exists tr, default_verdict. apply (validate_budget_raised _ _ _ _ _ _ _ _ e). exact E.
Qed.

(** The handler on complete slots, once the research and the budget
    check have answered. *)
Lemma handler_on_complete_slots
      (previous_extraction : option PreviousExtraction) (extracted : TripDetails)
      (now_lookup now_store : Z) (c c1 c2 : ResearchCache.t)
      (tr1 tr2 : list event) (rd : ResearchData) (v : Verdict) :
  let t := merge_with_previous previous_extraction extracted in
  missing_fields t = [] ->
  research_of now_lookup now_store (destination t) c = (tr1, c1, Ok rd) ->
  validate t rd c1 = (tr2, c2, Ok v) ->
  handler previous_extraction extracted now_lookup now_store c =
    (tr1 ++ tr2 ++ [CallPlanningAgent (assign_mission v)], c2,
     match agent_executor (assign_mission v) t rd with
     | Ok final_plan => Ok (TripPlanGenerated final_plan (final_details t v) rd)
     | Raised _ => Raised (HTTPException 500)
     end).
Proof.
  intros t Hm Hr Hv.
  unfold plan_trip_from_prompt, try_except, plan_after_extraction. fold t.
  rewrite Hm. unfold bind. rewrite Hr, Hv. unfold call, ret, raise.
  destruct (agent_executor (assign_mission v) t rd);
    rewrite ?app_nil_r; reflexivity.
Qed.

(** C6, amended. The transport step takes the figure of the primary
    estimator, and on any failure of it the figure of the category-based
    fallback; the figure is non-negative whenever the estimators return
    non-negative figures. A failure of both is not treated as a cost of
    zero: it leaves the transport step, the handler of the budget check
    catches it, no feasibility is computed, and the verdict is the
    default one (sufficient, shortfall 0, moderate tier). In every case
    the budget check returns a verdict, so the request is not aborted by
    a transport failure. *)
Theorem transport_estimate_falls_back (t : TripDetails) (c : ResearchCache.t) :
  let primary :=
    estimate_transport_cost (origin_city t) (destination t) (num_people t) in
  let fallback :=
    estimate_transport_fallback (origin_city t) (destination t) (num_people t) in
  (forall x, primary = Ok x -> transport_of t c = ([primary_call t], c, Ok x))
  /\ (forall e y, primary = Raised e -> fallback = Ok y ->
        transport_of t c = ([primary_call t; fallback_call t], c, Ok y))
  /\ (forall e e', primary = Raised e -> fallback = Raised e' ->
        transport_of t c = ([primary_call t; fallback_call t], c, Raised e')
        /\ forall rd,
             validate t rd c = ([primary_call t; fallback_call t], c, Ok default_verdict))
  /\ ((forall o d n x, estimate_transport_cost o d n = Ok x -> (0 <= x)%Q) ->
      (forall o d n x, estimate_transport_fallback o d n = Ok x -> (0 <= x)%Q) ->
      forall tr c' x, transport_of t c = (tr, c', Ok x) -> (0 <= x)%Q)
  /\ (forall rd, exists tr v, validate t rd c = (tr, c, Ok v)).
Proof.
  intros primary fallback.
  pose proof (estimate_transport_cases estimate_transport_cost
                estimate_transport_fallback t c) as Hcases.
  fold primary in Hcases. fold fallback in Hcases.
  split; [|split; [|split; [|split]]].
  - intros x Hx. rewrite Hcases, Hx. reflexivity.
  - intros e y He Hy. rewrite Hcases, He, Hy. reflexivity.
  - intros e e' He He'.
    assert (Ht : transport_of t c = ([primary_call t; fallback_call t], c, Raised e'))
      by (rewrite Hcases, He, He'; reflexivity).
    split; [exact Ht|].
    intros rd. apply (validate_budget_raised _ _ _ _ _ _ _ _ e').
    apply body_raises_with_transport. exact Ht.
  - intros Hprimary Hfallback tr c' x. rewrite Hcases.
    destruct primary as [y|e] eqn:Ep.
    + intros H. injection H as _ _ <-. apply (Hprimary _ _ _ _ Ep).
    + destruct fallback as [y|e'] eqn:Ef; [|discriminate].
      intros H. injection H as _ _ <-. apply (Hfallback _ _ _ _ Ef).
  - intros rd. apply validate_budget_returns.
Qed.


End BudgetCheckFailures.

Lemma transport_estimate_falls_back_witness :
  estimate_transport out_of_order (flat_fare 6000) (goa_trip 40000) ResearchCache.empty
  = ([CallEstimateTransportCost (u "Mumbai") (u "Goa") 2;
      CallEstimateTransportFallback (u "Mumbai") (u "Goa") 2],
     ResearchCache.empty, Ok (6000 # 1)).
Proof.
  destruct (transport_estimate_falls_back ascii_digit out_of_order (flat_fare 6000)
              (goa_trip 40000) ResearchCache.empty) as [_ [H _]].
  apply (H CollaboratorError (6000 # 1)); reflexivity.
Defined.


(** ** The documented example in binary64 *)

(** 3000 * 5 * 2 * 1.2 + 8000 is 44000 without rounding error, so the three
    budgets of the example fall on the sides the exact arithmetic gives
    them. *)
Example binary64_required_total_44000 :
  Binary64.required_total 30000 8000 = 44000%float
  /\ PrimFloat.leb (Binary64.required_total 30000 8000) 40000 = false
  /\ (Binary64.required_total 30000 8000 - 40000)%float = 4000%float
  /\ PrimFloat.leb (Binary64.required_total 30000 8000) 44000 = true
  /\ (44000 - Binary64.required_total 30000 8000)%float = 0%float
  /\ PrimFloat.leb (Binary64.required_total 30000 8000) 50000 = true
  /\ (50000 - Binary64.required_total 30000 8000)%float = 6000%float.
Proof. vm_compute. repeat split. Qed.

(** With a daily minimum of 3000 the bounds 3900 and 7500 come out exact,
    and a daily budget on a bound is not below it. *)
Example binary64_tier_bounds_3000 :
  Binary64.budget_bound 3000 = 3900%float
  /\ PrimFloat.ltb 3900 (Binary64.budget_bound 3000) = false
  /\ Binary64.moderate_bound 3000 = 7500%float
  /\ PrimFloat.ltb 7500 (Binary64.moderate_bound 3000) = false.
Proof. vm_compute. repeat split. Qed.

(** Exactness on a bound belongs to the rationals. In binary64 the bound
    [3 * 1.3] rounds up to 3.9000000000000004, above the quotient
    [39 / 10 / 1]: a daily budget that stands on the bound over the
    rationals is below it there. *)
Example binary64_bound_rounding :
  PrimFloat.ltb (39 / 10 / 1)%float (Binary64.budget_bound 3) = true.
Proof. vm_compute. reflexivity. Qed.

(* ===================================================================== *)
(** * Properties of the OTP service *)
(* ===================================================================== *)

Lemma str_eqb_refl (a : str) : str_eqb a a = true.
Proof. apply str_eqb_eq. reflexivity. Qed.

Lemma str_eqb_neq (a b : str) : a <> b -> str_eqb a b = false.
Proof.
  intros H. destruct (str_eqb a b) eqn:E; [|reflexivity].
  apply str_eqb_eq in E. contradiction.
Qed.

Lemma verify_otp_absent (now : Z) (id code : str) (s : OTP.storage) :
  s !! id = None -> OTP.verify_otp now id code s = (s, OTP.NoOtpFound).
Proof. intros H. unfold OTP.verify_otp. rewrite H. reflexivity. Qed.

Lemma verify_otp_used (now : Z) (id code : str) (s : OTP.storage) (d : OTP.entry) :
  s !! id = Some d -> OTP.verified d = true ->
  OTP.verify_otp now id code s = (s, OTP.OtpAlreadyUsed).
Proof. intros H Hv. unfold OTP.verify_otp. rewrite H, Hv. reflexivity. Qed.

Lemma verify_otp_expired (now : Z) (id code : str) (s : OTP.storage) (d : OTP.entry) :
  s !! id = Some d -> OTP.verified d = false -> OTP.expires_at d < now ->
  OTP.verify_otp now id code s = (delete id s, OTP.OtpExpired).
Proof.
  intros H Hv He. unfold OTP.verify_otp. rewrite H, Hv.
  rewrite (proj2 (Z.ltb_lt _ _) He). reflexivity.
Qed.

Lemma verify_otp_locked (now : Z) (id code : str) (s : OTP.storage) (d : OTP.entry) :
  s !! id = Some d -> OTP.verified d = false -> now <= OTP.expires_at d ->
  3 <= OTP.attempts d ->
  OTP.verify_otp now id code s = (delete id s, OTP.MaximumAttemptsExceeded).
Proof.
  intros H Hv He Ha. unfold OTP.verify_otp. rewrite H, Hv.
  rewrite (proj2 (Z.ltb_ge _ _) He).
  unfold OTP.MAX_ATTEMPTS. rewrite (proj2 (Z.leb_le _ _) Ha). reflexivity.
Qed.

Lemma verify_otp_right (now : Z) (id : str) (s : OTP.storage) (d : OTP.entry) :
  s !! id = Some d -> OTP.verified d = false -> now <= OTP.expires_at d ->
  OTP.attempts d < 3 ->
  OTP.verify_otp now id (OTP.otp d) s
  = (<[id := OTP.mark_verified (OTP.count_attempt d)]> s, OTP.OtpVerified).
Proof.
  intros H Hv He Ha. unfold OTP.verify_otp. rewrite H, Hv.
  rewrite (proj2 (Z.ltb_ge _ _) He).
  unfold OTP.MAX_ATTEMPTS. rewrite (proj2 (Z.leb_gt _ _) Ha).
  cbn [OTP.count_attempt OTP.otp]. rewrite str_eqb_refl. reflexivity.
Qed.

Lemma verify_otp_wrong (now : Z) (id code : str) (s : OTP.storage) (d : OTP.entry) :
  s !! id = Some d -> OTP.verified d = false -> now <= OTP.expires_at d ->
  OTP.attempts d < 3 -> OTP.otp d <> code ->
  OTP.verify_otp now id code s
  = (<[id := OTP.count_attempt d]> s, OTP.InvalidOtp (3 - (OTP.attempts d + 1))).
Proof.
  intros H Hv He Ha Hne. unfold OTP.verify_otp. rewrite H, Hv.
  rewrite (proj2 (Z.ltb_ge _ _) He).
  unfold OTP.MAX_ATTEMPTS. rewrite (proj2 (Z.leb_gt _ _) Ha).
  cbn [OTP.count_attempt OTP.otp OTP.attempts]. rewrite (str_eqb_neq _ _ Hne). reflexivity.
Qed.

(** X1. A code that was just stored is accepted once. Whatever the storage
    held for the identifier before (nothing, a used code, a locked one),
    the first verification with the stored code, made no later than ten
    minutes after the storing, succeeds; from then on every verification
    for the identifier, with any code at any time, answers that the code
    was already used, and changes nothing. *)
Theorem stored_code_is_accepted_once
        (s : OTP.storage) (id code method_name : str) (t_created t_expires now : Z) :
  now <= t_expires + 600000000 ->
  let stored := OTP.store_otp t_created t_expires id code method_name s in
  exists used,
    OTP.verify_otp now id code stored = (used, OTP.OtpVerified)
    /\ forall later code',
         OTP.verify_otp later id code' used = (used, OTP.OtpAlreadyUsed).
Proof.
  intros Hnow stored.
  set (d := OTP.mkEntry code method_name t_created
                        (t_expires + OTP.minutes OTP.OTP_VALIDITY_MINUTES) 0 false).
  assert (Hd : stored !! id = Some d) by apply lookup_insert_eq.
  eexists. split.
  - apply (verify_otp_right now id stored d Hd); [reflexivity | exact Hnow | reflexivity].
  - intros later code'.
    apply (verify_otp_used later id code' _ (OTP.mark_verified (OTP.count_attempt d)));
      [apply lookup_insert_eq | reflexivity].
Qed.

Lemma stored_code_is_accepted_once_witness :
  exists used,
    OTP.verify_otp 600000000 (u "+919876543210") (u "482913")
      (OTP.store_otp 0 0 (u "+919876543210") (u "482913") (u "sms") ∅)
    = (used, OTP.OtpVerified).
Proof.
  destruct (stored_code_is_accepted_once ∅ (u "+919876543210") (u "482913") (u "sms")
              0 0 600000000) as [used [H _]]; [reflexivity|].
  exists used. exact H.
Defined.

(** The state of one identifier in the storage. *)
Lemma verify_all_absent (id : str) (guesses : list (Z * str)) (s : OTP.storage) :
  s !! id = None ->
  Forall (fun m => OTP.success m = false) (verify_all id guesses s).
Proof.
  revert s. induction guesses as [|[now code] rest IH]; intros s H; cbn [verify_all].
  - constructor.
  - rewrite (verify_otp_absent now id code s H). cbn [fst snd].
    constructor; [reflexivity | apply IH; exact H].
Qed.

Lemma verify_all_used (id : str) (guesses : list (Z * str)) (s : OTP.storage)
      (d : OTP.entry) :
  s !! id = Some d -> OTP.verified d = true ->
  Forall (fun m => OTP.success m = false) (verify_all id guesses s).
Proof.
  revert s. induction guesses as [|[now code] rest IH]; intros s H Hv; cbn [verify_all].
  - constructor.
  - rewrite (verify_otp_used now id code s d H Hv). cbn [fst snd].
    constructor; [reflexivity | apply IH; assumption].
Qed.

Lemma successes_none (answers : list OTP.message) :
  Forall (fun m => OTP.success m = false) answers -> successes answers = O.
Proof.
  unfold successes. induction 1 as [|m l Hm _ IH]; [reflexivity|].
  cbn [List.filter]. rewrite Hm. exact IH.
Qed.

Lemma no_success_at (answers : list OTP.message) (i : nat) (m : OTP.message) :
  Forall (fun m => OTP.success m = false) answers ->
  nth_error answers i = Some m -> OTP.success m = false.
Proof.
  intros H. revert i. induction H as [|x l Hx _ IH]; intros [|i] Hi;
    cbn [nth_error] in Hi; try discriminate.
  - injection Hi as <-. exact Hx.
  - apply (IH i Hi).
Qed.

Lemma verify_all_pending (id : str) (guesses : list (Z * str)) :
  forall (s : OTP.storage) (d : OTP.entry),
    s !! id = Some d -> OTP.verified d = false ->
    (successes (verify_all id guesses s) <= 1)%nat
    /\ forall i m,
         nth_error (verify_all id guesses s) i = Some m -> OTP.success m = true ->
         Z.of_nat i + OTP.attempts d < 3.
Proof.
  induction guesses as [|[now code] rest IH]; intros s d Hd Hv; cbn [verify_all].
  - split; [unfold successes; cbn; lia|]. intros [|i] m Hi; discriminate Hi.
  - destruct (Z_lt_le_dec (OTP.expires_at d) now) as [He|He].
    { rewrite (verify_otp_expired now id code s d Hd Hv He). cbn [fst snd].
      pose proof (verify_all_absent id rest (delete id s) (lookup_delete_eq s id)) as Hn.
      split.
      - unfold successes. cbn [List.filter OTP.success]. fold (successes (verify_all id rest (delete id s))).
        rewrite (successes_none _ Hn). lia.
      - intros [|i] m Hi Hs; cbn [nth_error] in Hi.
        + injection Hi as <-. discriminate Hs.
        + rewrite (no_success_at _ _ _ Hn Hi) in Hs. discriminate Hs. }
    destruct (Z_lt_le_dec (OTP.attempts d) 3) as [Ha|Ha].
    2:{ rewrite (verify_otp_locked now id code s d Hd Hv He Ha). cbn [fst snd].
        pose proof (verify_all_absent id rest (delete id s) (lookup_delete_eq s id)) as Hn.
        split.
        - unfold successes. cbn [List.filter OTP.success].
          fold (successes (verify_all id rest (delete id s))).
          rewrite (successes_none _ Hn). lia.
        - intros [|i] m Hi Hs; cbn [nth_error] in Hi.
          + injection Hi as <-. discriminate Hs.
          + rewrite (no_success_at _ _ _ Hn Hi) in Hs. discriminate Hs. }
    destruct (decide (OTP.otp d = code)) as [Heq|Hne].
    + subst code. rewrite (verify_otp_right now id s d Hd Hv He Ha). cbn [fst snd].
      pose proof (verify_all_used id rest _ (OTP.mark_verified (OTP.count_attempt d))
                    (lookup_insert_eq s id _) eq_refl) as Hn.
      split.
      * unfold successes. cbn [List.filter OTP.success length].
        fold (successes (verify_all id rest
                (<[id := OTP.mark_verified (OTP.count_attempt d)]> s))).
        rewrite (successes_none _ Hn). lia.
      * intros [|i] m Hi Hs; cbn [nth_error] in Hi.
        -- lia.
        -- rewrite (no_success_at _ _ _ Hn Hi) in Hs. discriminate Hs.
    + rewrite (verify_otp_wrong now id code s d Hd Hv He Ha Hne). cbn [fst snd].
      destruct (IH (<[id := OTP.count_attempt d]> s) (OTP.count_attempt d)
                  (lookup_insert_eq s id _) Hv) as [Hcount Hidx].
      split.
      * unfold successes. cbn [List.filter OTP.success].
        fold (successes (verify_all id rest (<[id := OTP.count_attempt d]> s))).
        exact Hcount.
      * intros [|i] m Hi Hs; cbn [nth_error] in Hi.
        -- injection Hi as <-. discriminate Hs.
        -- specialize (Hidx i m Hi Hs). cbn [OTP.count_attempt OTP.attempts] in Hidx. lia.
Qed.

(** X2. After a code was stored, a run of verifications for the identifier,
    with whatever guesses at whatever times, succeeds at most once, and a
    success can only be among the first three verifications. *)
Theorem stored_code_allows_three_guesses
        (s : OTP.storage) (id code method_name : str) (t_created t_expires : Z)
        (guesses : list (Z * str)) :
  let answers :=
    verify_all id guesses (OTP.store_otp t_created t_expires id code method_name s) in
  (successes answers <= 1)%nat
  /\ forall i m, nth_error answers i = Some m -> OTP.success m = true -> (i < 3)%nat.
Proof.
  intros answers.
  destruct (verify_all_pending id guesses
              (OTP.store_otp t_created t_expires id code method_name s) _
              (lookup_insert_eq s id _) eq_refl) as [Hcount Hidx].
  split; [exact Hcount|].
  intros i m Hi Hs. specialize (Hidx i m Hi Hs). cbn [OTP.attempts] in Hidx. lia.
Qed.

Lemma stored_code_allows_three_guesses_witness :
  le (successes (verify_all (u "+919876543210")
                   [(0, u "000000"); (1, u "482913"); (2, u "482913")]
                   (OTP.store_otp 0 0 (u "+919876543210") (u "482913") (u "sms") ∅)))
     1.
Proof.
  apply (stored_code_allows_three_guesses ∅ (u "+919876543210") (u "482913") (u "sms") 0 0
           [(0, u "000000"); (1, u "482913"); (2, u "482913")]).
Defined.

(** X3. A code is refused once its ten minutes are over: the first
    verification made later than that answers that the code expired and
    removes the entry, so that every verification after it, at any clock
    reading and with any code, finds no code at all. *)
Theorem stored_code_expires
        (s : OTP.storage) (id code method_name : str) (t_created t_expires now : Z) :
  t_expires + 600000000 < now ->
  let stored := OTP.store_otp t_created t_expires id code method_name s in
  OTP.verify_otp now id code stored = (delete id stored, OTP.OtpExpired)
  /\ forall later code',
       OTP.verify_otp later id code' (delete id stored)
       = (delete id stored, OTP.NoOtpFound).
Proof.
  intros Hnow stored. split.
  - apply (verify_otp_expired now id code stored _ (lookup_insert_eq s id _));
      [reflexivity | exact Hnow].
  - intros later code'. apply verify_otp_absent. apply lookup_delete_eq.
Qed.

Lemma stored_code_expires_witness :
  snd (OTP.verify_otp 600000001 (u "+919876543210") (u "482913")
         (OTP.store_otp 0 0 (u "+919876543210") (u "482913") (u "sms") ∅))
  = OTP.OtpExpired.
Proof.
  destruct (stored_code_expires ∅ (u "+919876543210") (u "482913") (u "sms")
              0 0 600000001) as [H _]; [reflexivity|].
  rewrite H. reflexivity.
Defined.

(** X4. Three wrong guesses lock a stored code. Made within the ten
    minutes, they are answered with 2, 1 and 0 attempts remaining; the
    fourth verification is refused even with the right code, and removes
    the entry; the fifth finds no code. *)
Theorem three_wrong_guesses_lock_the_code
        (s : OTP.storage) (id code method_name : str) (t_created t_expires : Z)
        (n1 n2 n3 n4 n5 : Z) (g1 g2 g3 g5 : str) :
  g1 <> code -> g2 <> code -> g3 <> code ->
  n1 <= t_expires + 600000000 -> n2 <= t_expires + 600000000 ->
  n3 <= t_expires + 600000000 -> n4 <= t_expires + 600000000 ->
  verify_all id [(n1, g1); (n2, g2); (n3, g3); (n4, code); (n5, g5)]
    (OTP.store_otp t_created t_expires id code method_name s)
  = [OTP.InvalidOtp 2; OTP.InvalidOtp 1; OTP.InvalidOtp 0;
     OTP.MaximumAttemptsExceeded; OTP.NoOtpFound].
Proof.
  intros H1 H2 H3 T1 T2 T3 T4.
  set (e := t_expires + OTP.minutes OTP.OTP_VALIDITY_MINUTES).
  set (d0 := OTP.mkEntry code method_name t_created e 0 false).
  set (s0 := OTP.store_otp t_created t_expires id code method_name s).
  assert (L0 : s0 !! id = Some d0) by apply lookup_insert_eq.
  cbn [verify_all].
  rewrite (verify_otp_wrong n1 id g1 s0 d0 L0 eq_refl T1 eq_refl (not_eq_sym H1)).
  cbn [fst snd].
  set (d1 := OTP.count_attempt d0). set (s1 := <[id := d1]> s0).
  assert (L1 : s1 !! id = Some d1) by apply lookup_insert_eq.
  rewrite (verify_otp_wrong n2 id g2 s1 d1 L1 eq_refl T2 eq_refl (not_eq_sym H2)).
  cbn [fst snd].
  set (d2 := OTP.count_attempt d1). set (s2 := <[id := d2]> s1).
  assert (L2 : s2 !! id = Some d2) by apply lookup_insert_eq.
  rewrite (verify_otp_wrong n3 id g3 s2 d2 L2 eq_refl T3 eq_refl (not_eq_sym H3)).
  cbn [fst snd].
  set (d3 := OTP.count_attempt d2). set (s3 := <[id := d3]> s2).
  assert (L3 : s3 !! id = Some d3) by apply lookup_insert_eq.
  rewrite (verify_otp_locked n4 id code s3 d3 L3 eq_refl T4 ltac:(cbn; lia)).
  cbn [fst snd].
  rewrite (verify_otp_absent n5 id g5 (delete id s3) (lookup_delete_eq s3 id)).
  reflexivity.
Qed.

Lemma three_wrong_guesses_lock_the_code_witness :
  verify_all (u "+919876543210")
    [(1, u "000000"); (2, u "111111"); (3, u "222222"); (4, u "482913"); (5, u "482913")]
    (OTP.store_otp 0 0 (u "+919876543210") (u "482913") (u "sms") ∅)
  = [OTP.InvalidOtp 2; OTP.InvalidOtp 1; OTP.InvalidOtp 0;
     OTP.MaximumAttemptsExceeded; OTP.NoOtpFound].
Proof.
  apply three_wrong_guesses_lock_the_code;
    try discriminate; vm_compute; discriminate.
Defined.

Lemma verify_otp_other (now : Z) (id id' code : str) (s : OTP.storage) :
  id <> id' -> fst (OTP.verify_otp now id code s) !! id' = s !! id'.
Proof.
  intros Hne. unfold OTP.verify_otp.
  destruct (s !! id) as [d|]; [|reflexivity].
  repeat match goal with
         | |- context [if ?c then _ else _] => destruct c
         end; cbn [fst];
    rewrite ?lookup_delete_ne, ?lookup_insert_ne by exact Hne; reflexivity.
Qed.

Lemma verify_otp_depends_on_entry (now : Z) (id code : str) (s s' : OTP.storage) :
  s !! id = s' !! id ->
  snd (OTP.verify_otp now id code s) = snd (OTP.verify_otp now id code s').
Proof.
  intros H. unfold OTP.verify_otp. rewrite <- H.
  destruct (s !! id) as [d|]; [|reflexivity].
  repeat match goal with
         | |- context [if ?c then _ else _] => destruct c
         end; reflexivity.
Qed.

(** X5. Identifiers do not interfere: storing a code for one identifier, or
    verifying one for it, changes neither the entry of another identifier
    nor the answer a verification for that other identifier gets. *)
Theorem identifiers_do_not_interfere
        (s : OTP.storage) (id id' : str) :
  id <> id' ->
  (forall t_created t_expires code method_name now' code',
      OTP.store_otp t_created t_expires id code method_name s !! id' = s !! id'
      /\ snd (OTP.verify_otp now' id' code'
                (OTP.store_otp t_created t_expires id code method_name s))
         = snd (OTP.verify_otp now' id' code' s))
  /\ (forall now code now' code',
         fst (OTP.verify_otp now id code s) !! id' = s !! id'
         /\ snd (OTP.verify_otp now' id' code' (fst (OTP.verify_otp now id code s)))
            = snd (OTP.verify_otp now' id' code' s)).
Proof.
  intros Hne. split.
  - intros. assert (H : OTP.store_otp t_created t_expires id code method_name s !! id'
                        = s !! id') by (apply lookup_insert_ne; exact Hne).
    split; [exact H | apply verify_otp_depends_on_entry; exact H].
  - intros. pose proof (verify_otp_other now id id' code s Hne) as H.
    split; [exact H | apply verify_otp_depends_on_entry; exact H].
Qed.

Lemma identifiers_do_not_interfere_witness :
  snd (OTP.verify_otp 5 (u "+919000000001") (u "135790")
         (fst (OTP.verify_otp 4 (u "+919876543210") (u "000000")
                 (OTP.store_otp 0 0 (u "+919876543210") (u "482913") (u "sms")
                    (OTP.store_otp 0 0 (u "+919000000001") (u "135790") (u "sms") ∅)))))
  = OTP.OtpVerified.
Proof.
  destruct (identifiers_do_not_interfere
              (OTP.store_otp 0 0 (u "+919876543210") (u "482913") (u "sms")
                 (OTP.store_otp 0 0 (u "+919000000001") (u "135790") (u "sms") ∅))
              (u "+919876543210") (u "+919000000001")) as [_ H];
    [vm_compute; discriminate|].
  destruct (H 4 (u "000000") 5 (u "135790")) as [_ Hans].
  rewrite Hans. vm_compute. reflexivity.
Defined.

Lemma lookup_fold_delete (keys : list str) (s : OTP.storage) (k : str) :
  (In k keys -> fold_left (fun acc key => delete key acc) keys s !! k = None)
  /\ (~ In k keys -> fold_left (fun acc key => delete key acc) keys s !! k = s !! k).
Proof.
  revert s. induction keys as [|x keys IH]; intros s; cbn [fold_left].
  - split; [intros [] | reflexivity].
  - destruct (IH (delete x s)) as [IHin IHout]. split.
    + intros [->|Hin].
      * destruct (in_dec (fun a b : str => decide (a = b)) k keys) as [Hk|Hk];
          [apply IHin; exact Hk|].
        rewrite (IHout Hk). apply lookup_delete_eq.
      * apply IHin. exact Hin.
    + intros Hout.
      assert (Hx : x <> k) by (intros ->; apply Hout; left; reflexivity).
      assert (Hk : ~ In k keys) by (intros Hk; apply Hout; right; exact Hk).
      rewrite (IHout Hk). apply lookup_delete_ne. exact Hx.
Qed.

Lemma In_expired_keys (now : Z) (s : OTP.storage) (k : str) :
  In k (OTP.expired_keys now s) <->
  exists d, s !! k = Some d /\ OTP.expires_at d < now.
Proof.
  unfold OTP.expired_keys. rewrite in_map_iff. split.
  - intros [[k' d] [Hk Hin]]. cbn [fst] in Hk. subst k'.
    apply filter_In in Hin as [Hin Hexp]. cbn [snd] in Hexp.
    exists d. split; [|apply Z.ltb_lt; exact Hexp].
    apply elem_of_map_to_list. apply list_elem_of_In. exact Hin.
  - intros [d [Hd Hexp]]. exists (k, d). split; [reflexivity|].
    apply filter_In. split.
    + apply list_elem_of_In. apply elem_of_map_to_list. exact Hd.
    + cbn [snd]. apply Z.ltb_lt. exact Hexp.
Qed.

Lemma cleanup_lookup (now : Z) (s : OTP.storage) (k : str) :
  OTP.cleanup_expired_otps now s !! k =
    match s !! k with
    | Some d => if OTP.expires_at d <? now then None else Some d
    | None => None
    end.
Proof.
  unfold OTP.cleanup_expired_otps.
  destruct (lookup_fold_delete (OTP.expired_keys now s) s k) as [Hin Hout].
  destruct (s !! k) as [d|] eqn:Hk.
  - destruct (Z.ltb_spec (OTP.expires_at d) now) as [Hexp|Hexp].
    + apply Hin. apply In_expired_keys. exists d. split; assumption.
    + rewrite Hout; [reflexivity|].
      intros H. apply In_expired_keys in H as [d' [Hd' Hexp']].
      rewrite Hk in Hd'. injection Hd' as <-. lia.
  - rewrite Hout; [reflexivity|].
    intros H. apply In_expired_keys in H as [d' [Hd' _]].
    rewrite Hk in Hd'. discriminate Hd'.
Qed.

(** X6. The clean-up removes exactly the entries whose expiry lies before
    the time it runs at, verified or not, and keeps every other entry as it
    is. It never changes whether a later verification succeeds: made no
    earlier than the clean-up, a verification succeeds on the cleaned
    storage exactly when it succeeds on the storage left alone. *)
Theorem cleanup_removes_expired_entries (now : Z) (s : OTP.storage) :
  (forall k d, s !! k = Some d -> OTP.expires_at d < now ->
               OTP.cleanup_expired_otps now s !! k = None)
  /\ (forall k d, s !! k = Some d -> now <= OTP.expires_at d ->
                  OTP.cleanup_expired_otps now s !! k = Some d)
  /\ (forall k, s !! k = None -> OTP.cleanup_expired_otps now s !! k = None)
  /\ (forall later id code,
         now <= later ->
         OTP.success (snd (OTP.verify_otp later id code (OTP.cleanup_expired_otps now s)))
         = OTP.success (snd (OTP.verify_otp later id code s))).
Proof.
  split; [|split; [|split]].
  - intros k d Hk Hexp. rewrite cleanup_lookup, Hk.
    rewrite (proj2 (Z.ltb_lt _ _) Hexp). reflexivity.
  - intros k d Hk Hexp. rewrite cleanup_lookup, Hk.
    rewrite (proj2 (Z.ltb_ge _ _) Hexp). reflexivity.
  - intros k Hk. rewrite cleanup_lookup, Hk. reflexivity.
  - intros later id code Hlater.
    pose proof (cleanup_lookup now s id) as Hc.
    destruct (s !! id) as [d|] eqn:Hid.
    + destruct (Z.ltb_spec (OTP.expires_at d) now) as [Hexp|Hexp].
      * rewrite (verify_otp_absent later id code _ Hc). cbn [snd OTP.success].
        destruct (OTP.verified d) eqn:Hv.
        -- rewrite (verify_otp_used later id code s d Hid Hv). reflexivity.
        -- rewrite (verify_otp_expired later id code s d Hid Hv ltac:(lia)). reflexivity.
      * f_equal. apply verify_otp_depends_on_entry. rewrite Hc, Hid. reflexivity.
    + f_equal. apply verify_otp_depends_on_entry. rewrite Hc, Hid. reflexivity.
Qed.

Lemma cleanup_removes_expired_entries_witness :
  OTP.cleanup_expired_otps 700000000
    (OTP.store_otp 0 0 (u "+919876543210") (u "482913") (u "sms") ∅)
  !! u "+919876543210" = None.
Proof.
  destruct (cleanup_removes_expired_entries 700000000
              (OTP.store_otp 0 0 (u "+919876543210") (u "482913") (u "sms") ∅))
    as [H _].
  apply (H _ (OTP.mkEntry (u "482913") (u "sms") 0 600000000 0 false));
    [apply lookup_insert_eq | reflexivity].
Defined.

Section SendingFacts.

Variable isdigit_char : N -> bool.
Variable api_key : option str.
Variable post : str -> str -> result OTP.http_response.

Local Abbreviation send_via := (OTP.send_otp_via_fast2sms isdigit_char api_key post).

Lemma send_otp_via_fast2sms_true (phone_number code : str) :
  snd (send_via phone_number code) = true.
Proof.
  unfold OTP.send_otp_via_fast2sms.
  repeat match goal with
         | |- context [if ?c then _ else _] => destruct c
         | |- context [match ?x with Ok _ => _ | Raised _ => _ end] => destruct x
         end; reflexivity.
Qed.

(** X7. Sending a code never reports a failure and never hands the code
    back to the caller: whatever Fast2SMS does, the code is stored for the
    phone number and the answer is [(True, "OTP sent to <phone>")].
    Fast2SMS is asked only when an API key is set and the cleaned number is
    exactly ten digit characters, and it is asked for that cleaned number;
    unless it confirms the message (status 200 and a true [return]), the
    code is printed on the console. *)
Theorem send_otp_always_reports_sent
        (now_created now_expires : Z) (phone_number code : str) (s : OTP.storage) :
  let sent :=
    OTP.send_otp isdigit_char api_key post now_created now_expires phone_number code s in
  snd sent = (true, OTP.OtpSentTo phone_number)
  /\ snd (fst sent) = OTP.store_otp now_created now_expires phone_number code (u "sms") s
  /\ (forall numbers text,
         In (OTP.PostFast2SMS numbers text) (fst (fst sent)) ->
         truthy_opt truthy_str api_key = true
         /\ numbers = OTP.clean_number phone_number
         /\ length numbers = 10%nat
         /\ forallb isdigit_char numbers = true
         /\ text = OTP.sms_text code)
  /\ (In (OTP.ConsoleOtp code) (fst (fst sent))
      \/ exists response,
          post (OTP.clean_number phone_number) (OTP.sms_text code) = Ok response
          /\ OTP.status_code response = 200
          /\ OTP.json_return response = Ok true).
Proof.
  intros sent. unfold sent, OTP.send_otp.
  pose proof (send_otp_via_fast2sms_true phone_number code) as Htrue.
  destruct (send_via phone_number code) as [trace sms_sent] eqn:E.
  cbn [snd] in Htrue. subst sms_sent. cbn [fst snd].
  split; [reflexivity|]. split; [reflexivity|].
  revert E. unfold OTP.send_otp_via_fast2sms.
  destruct (truthy_opt truthy_str api_key) eqn:Hkey; cbn [negb].
  2:{ intros E. injection E as <-. split; [intros ? ? [H|[]]; discriminate H|].
      left. left. reflexivity. }
  destruct (Nat.eqb (length (OTP.clean_number phone_number)) 10) eqn:Hlen; cbn [negb orb].
  2:{ intros E. injection E as <-. split; [intros ? ? [H|[]]; discriminate H|].
      left. left. reflexivity. }
  destruct (OTP.isdigit isdigit_char (OTP.clean_number phone_number)) eqn:Hdig; cbn [negb].
  2:{ intros E. injection E as <-. split; [intros ? ? [H|[]]; discriminate H|].
      left. left. reflexivity. }
  apply Nat.eqb_eq in Hlen.
  unfold OTP.isdigit in Hdig. apply andb_true_iff in Hdig as [_ Hdig].
  assert (Hpost : forall trace' numbers text,
             (trace' = [OTP.PostFast2SMS (OTP.clean_number phone_number) (OTP.sms_text code)]
              \/ trace' = [OTP.PostFast2SMS (OTP.clean_number phone_number)
                             (OTP.sms_text code); OTP.ConsoleOtp code]) ->
             In (OTP.PostFast2SMS numbers text) trace' ->
             true = true /\ numbers = OTP.clean_number phone_number
             /\ length numbers = 10%nat /\ forallb isdigit_char numbers = true
             /\ text = OTP.sms_text code).
  { intros trace' numbers text [-> | ->] Hin;
      repeat (destruct Hin as [Hin|Hin]; try discriminate Hin; try contradiction);
      injection Hin as <- <-; repeat split; assumption. }
  destruct (post (OTP.clean_number phone_number) (OTP.sms_text code))
    as [response|e] eqn:Ep.
  2:{ intros E. injection E as <-. split.
      - intros numbers text. apply Hpost. right. reflexivity.
      - left. right. left. reflexivity. }
  destruct (OTP.status_code response =? 200) eqn:Hst.
  2:{ intros E. injection E as <-. split.
      - intros numbers text. apply Hpost. right. reflexivity.
      - left. right. left. reflexivity. }
  apply Z.eqb_eq in Hst.
  destruct (OTP.json_return response) as [[|]|e] eqn:Ej;
    intros E; injection E as <-; (split; [intros numbers text; apply Hpost; tauto|]).
  - right. exists response. repeat split; assumption.
  - left. right. left. reflexivity.
  - left. right. left. reflexivity.
Qed.

End SendingFacts.

Lemma send_otp_always_reports_sent_witness :
  In (OTP.PostFast2SMS (u "9876543210") (OTP.sms_text (u "482913")))
     (fst (fst (OTP.send_otp ascii_isdigit (Some (u "key")) confirming 0 0
                  (u "+91 98765-43210") (u "482913") ∅)))
  /\ length (u "9876543210") = 10%nat.
Proof.
  assert (Hin : In (OTP.PostFast2SMS (u "9876543210") (OTP.sms_text (u "482913")))
                   (fst (fst (OTP.send_otp ascii_isdigit (Some (u "key")) confirming 0 0
                                (u "+91 98765-43210") (u "482913") ∅)))).
  { left. reflexivity. }
  split; [exact Hin|].
  destruct (send_otp_always_reports_sent ascii_isdigit (Some (u "key")) confirming 0 0
              (u "+91 98765-43210") (u "482913") ∅) as (_ & _ & H & _).
  destruct (H (u "9876543210") (OTP.sms_text (u "482913")) Hin) as (_ & _ & Hlen & _).
  exact Hlen.
Defined.

(** *** The cleaned phone number *)

Lemma replace_char (c : N) (s : str) :
  replace [c] [] s = List.filter (fun x => negb (c =? x)%N) s.
Proof.
  unfold replace. induction s as [|x s IH]; [reflexivity|].
  cbn [replace_from strip_prefix List.filter].
  destruct (c =? x)%N; cbn [negb length Nat.sub app].
  - exact IH.
  - rewrite IH. reflexivity.
Qed.

Lemma replace_absent (c : N) (old' new s : str) :
  ~ In c s -> replace (c :: old') new s = s.
Proof.
  unfold replace. induction s as [|x s IH]; intros Hc; [reflexivity|].
  cbn [replace_from strip_prefix].
  destruct (c =? x)%N eqn:E.
  - apply N.eqb_eq in E. subst x. exfalso. apply Hc. left. reflexivity.
  - rewrite IH; [reflexivity|]. intros H. apply Hc. right. exact H.
Qed.

Lemma filter_absent (c : N) (s : str) :
  ~ In c s -> List.filter (fun x => negb (c =? x)%N) s = s.
Proof.
  induction s as [|x s IH]; intros Hc; [reflexivity|].
  cbn [List.filter]. destruct (c =? x)%N eqn:E.
  - apply N.eqb_eq in E. subst x. exfalso. apply Hc. left. reflexivity.
  - cbn [negb]. rewrite IH; [reflexivity|]. intros H. apply Hc. right. exact H.
Qed.

Lemma clean_number_filters (phone_number : str) :
  OTP.clean_number phone_number
  = List.filter (fun x => negb (32 =? x)%N)
      (List.filter (fun x => negb (45 =? x)%N)
         (List.filter (fun x => negb (43 =? x)%N)
            (replace (u "+91") [] phone_number))).
Proof.
  unfold OTP.clean_number.
  change (u " ") with [32%N]. change (u "-") with [45%N]. change (u "+") with [43%N].
  rewrite !replace_char. reflexivity.
Qed.

(** X8. The cleaned phone number holds no plus sign, no hyphen and no
    space, whatever was sent in. *)
Theorem clean_number_has_no_separators (phone_number : str) :
  Forall (fun c => c <> 43%N /\ c <> 45%N /\ c <> 32%N) (OTP.clean_number phone_number).
Proof.
  rewrite clean_number_filters. apply Forall_forall. intros c Hc. apply list_elem_of_In in Hc.
  apply filter_In in Hc as [Hc H32]. apply filter_In in Hc as [Hc H45].
  apply filter_In in Hc as [_ H43].
  repeat split; intros ->; discriminate.
Qed.

(** X9. A number written without plus signs, hyphens and spaces is its own
    cleaned form, and so is it behind the country code [+91]: the cleaning
    takes the code off and nothing else. *)
Theorem clean_number_strips_country_code (digits : str) :
  ~ In 43%N digits -> ~ In 45%N digits -> ~ In 32%N digits ->
  OTP.clean_number digits = digits
  /\ OTP.clean_number (u "+91" ++ digits) = digits.
Proof.
  intros H43 H45 H32.
  assert (Hplain : OTP.clean_number digits = digits).
  { rewrite clean_number_filters.
    change (u "+91") with (43%N :: [57%N; 49%N]).
    rewrite (replace_absent 43 _ _ digits H43).
    rewrite (filter_absent 43 digits H43), (filter_absent 45 digits H45).
    apply (filter_absent 32 digits H32). }
  split; [exact Hplain|].
  rewrite <- Hplain at 2. reflexivity.
Qed.

Lemma clean_number_strips_country_code_witness :
  OTP.clean_number (u "+919876543210") = u "9876543210".
Proof.
  apply (clean_number_strips_country_code (u "9876543210"));
    vm_compute; intros H; repeat (destruct H as [H|H]; [discriminate H|]); exact H.
Defined.

(** *** The OTP endpoints *)

Section OtpEndpointFacts.

Variable isdigit_char : N -> bool.
Variable api_key : option str.
Variable post : str -> str -> result OTP.http_response.
Variable get_user_profile : str -> result (option (gmap str pyval)).
Variable create_or_update_user_profile : str -> gmap str pyval -> result unit.

Local Abbreviation send_endpoint := (send_otp_endpoint isdigit_char api_key post).
Local Abbreviation verify_endpoint :=
  (verify_otp_endpoint get_user_profile create_or_update_user_profile).

Lemma send_otp_endpoint_eq (now_created now_expires : Z) (phone_number code : str)
      (s : OTP.storage) :
  exists trace,
    send_endpoint now_created now_expires phone_number code s
    = (trace, OTP.store_otp now_created now_expires phone_number code (u "sms") s,
       OTPResponse true (u "OTP sent successfully") (Some 300)).
Proof.
  unfold send_otp_endpoint.
  pose proof (send_otp_always_reports_sent isdigit_char api_key post
                now_created now_expires phone_number code s) as [Hr [Hs _]].
  destruct (OTP.send_otp isdigit_char api_key post now_created now_expires
              phone_number code s) as [[trace s'] [ok m]].
  cbn [fst snd] in Hr, Hs. injection Hr as -> ->. subst s'.
  exists trace. reflexivity.
Qed.

(** X10. The send endpoint never answers with an error: whatever the SMS
    gateway does, it answers success with [expires_in = 300] seconds. The
    code it stored is accepted for twice as long: a verification up to 600
    seconds after the sending succeeds. *)
Theorem send_endpoint_announces_half_the_validity
        (now_created now_expires now : Z) (phone_number code : str) (s : OTP.storage) :
  now <= now_expires + 600 * 1000000 ->
  let sent := send_endpoint now_created now_expires phone_number code s in
  snd sent = OTPResponse true (u "OTP sent successfully") (Some 300)
  /\ snd (OTP.verify_otp now phone_number code (snd (fst sent))) = OTP.OtpVerified.
Proof.
  intros Hnow sent. unfold sent.
  destruct (send_otp_endpoint_eq now_created now_expires phone_number code s)
    as [trace ->].
  cbn [fst snd]. split; [reflexivity|].
  unfold OTP.store_otp.
  rewrite (verify_otp_right now phone_number
             (<[phone_number := _]> s)
             (OTP.mkEntry code (u "sms") now_created
                (now_expires + OTP.minutes OTP.OTP_VALIDITY_MINUTES) 0 false)).
  - reflexivity.
  - apply lookup_insert_eq.
  - reflexivity.
  - cbn [OTP.expires_at]. unfold OTP.minutes, OTP.OTP_VALIDITY_MINUTES. lia.
  - cbn [OTP.attempts]. lia.
Qed.

Lemma profile_or_new_found (current_user : FirebaseUser) (found : gmap str pyval) :
  found <> ∅ -> profile_or_new current_user (Some found) = found.
Proof.
  intros H. unfold profile_or_new.
  destruct (map_to_list found) eqn:E; [|reflexivity].
  apply map_to_list_empty_iff in E. contradiction.
Qed.

Lemma with_verified_phone_other (phone_number : str) (utcnow : Z)
      (profile : gmap str pyval) (k : str) :
  k <> u "phone_number" -> k <> u "phone_verified" -> k <> u "phone_verified_at" ->
  with_verified_phone phone_number utcnow profile !! k = profile !! k.
Proof.
  intros H1 H2 H3. unfold with_verified_phone.
  rewrite !lookup_insert_ne by (intros E; symmetry in E; contradiction).
  reflexivity.
Qed.

Lemma with_verified_phone_sets (phone_number : str) (utcnow : Z)
      (profile : gmap str pyval) :
  with_verified_phone phone_number utcnow profile !! u "phone_number"
  = Some (PyStr phone_number)
  /\ with_verified_phone phone_number utcnow profile !! u "phone_verified"
     = Some (PyBool true)
  /\ with_verified_phone phone_number utcnow profile !! u "phone_verified_at"
     = Some (PyTime utcnow).
Proof.
  unfold with_verified_phone. repeat split.
  - rewrite lookup_insert_ne by (vm_compute; discriminate).
    rewrite lookup_insert_ne by (vm_compute; discriminate).
    apply lookup_insert_eq.
  - rewrite lookup_insert_ne by (vm_compute; discriminate).
    apply lookup_insert_eq.
  - apply lookup_insert_eq.
Qed.

(** X11. The verify endpoint touches the profile store only after the code
    was accepted: on every other answer of the verification it raises HTTP
    400 with that answer and calls nothing. What it writes is written for
    the calling user, carries the phone number as verified, and keeps every
    other key of a profile that was found. *)
Theorem verify_endpoint_writes_after_success_only
        (current_user : FirebaseUser) (now utcnow : Z) (phone_number code : str)
        (s : OTP.storage) :
  let answer := snd (OTP.verify_otp now phone_number code s) in
  let served := verify_endpoint current_user now utcnow phone_number code s in
  (answer <> OTP.OtpVerified ->
   fst (fst served) = []
   /\ snd served = OtpHTTPException 400 (VerifyDetail answer))
  /\ (forall user_id profile_data,
         In (CreateOrUpdateUserProfile user_id profile_data) (fst (fst served)) ->
         answer = OTP.OtpVerified
         /\ user_id = user_uid current_user
         /\ profile_data !! u "phone_number" = Some (PyStr phone_number)
         /\ profile_data !! u "phone_verified" = Some (PyBool true)
         /\ profile_data !! u "phone_verified_at" = Some (PyTime utcnow)
         /\ forall found k,
              get_user_profile user_id = Ok (Some found) -> found <> ∅ ->
              k <> u "phone_number" -> k <> u "phone_verified" ->
              k <> u "phone_verified_at" ->
              profile_data !! k = found !! k).
Proof.
  intros answer served. unfold served, answer, verify_otp_endpoint, OTP.verify_otp_simple.
  destruct (OTP.verify_otp now phone_number code s) as [s' m]. cbn [snd].
  destruct (OTP.success m) eqn:Hm; cbn [negb fst snd].
  2:{ split; [intros _; split; reflexivity|]. intros ? ? []. }
  assert (m = OTP.OtpVerified) as -> by (destruct m; try discriminate Hm; reflexivity).
  split; [intros H; contradiction H; reflexivity|].
  intros user_id profile_data Hin.
  destruct (get_user_profile (user_uid current_user)) as [found0|e] eqn:Eget;
    cbn [fst snd] in Hin.
  2:{ destruct Hin as [Hin|[]]. discriminate Hin. }
  assert (Hwritten : user_id = user_uid current_user
                     /\ profile_data
                        = with_verified_phone phone_number utcnow
                            (profile_or_new current_user found0)).
  { destruct (create_or_update_user_profile _ _); cbn [fst snd] in Hin;
      destruct Hin as [Hin|[Hin|[]]]; try discriminate Hin;
      injection Hin as <- <-; split; reflexivity. }
  destruct Hwritten as [-> ->].
  destruct (with_verified_phone_sets phone_number utcnow
              (profile_or_new current_user found0)) as [H1 [H2 H3]].
  repeat split; try assumption.
  intros found k Hfound Hne K1 K2 K3.
  rewrite Eget in Hfound. injection Hfound as ->.
  rewrite with_verified_phone_other by assumption.
  rewrite profile_or_new_found by assumption. reflexivity.
Qed.

(** X12. A failure of the profile store after a right code costs the code:
    when reading or writing the profile raises, the endpoint raises HTTP
    500, and in every case the stored code is marked used by then, so that
    the same code sent again is refused with HTTP 400 and the profile store
    is not asked again. *)
Theorem failed_profile_write_consumes_the_code
        (current_user other_user : FirebaseUser) (now utcnow later utclater : Z)
        (phone_number : str) (s : OTP.storage) (d : OTP.entry) :
  s !! phone_number = Some d ->
  OTP.verified d = false -> now <= OTP.expires_at d -> OTP.attempts d < 3 ->
  let served := verify_endpoint current_user now utcnow phone_number (OTP.otp d) s in
  (((exists e, get_user_profile (user_uid current_user) = Raised e)
    \/ (forall profile, exists e,
           create_or_update_user_profile (user_uid current_user) profile = Raised e)) ->
   exists e, snd served = OtpHTTPException 500 (FailedToVerifyOtp e))
  /\ verify_endpoint other_user later utclater phone_number (OTP.otp d) (snd (fst served))
     = ([], snd (fst served), OtpHTTPException 400 (VerifyDetail OTP.OtpAlreadyUsed)).
Proof.
  intros Hd Hv He Ha served. unfold served, verify_otp_endpoint, OTP.verify_otp_simple.
  rewrite (verify_otp_right now phone_number s d Hd Hv He Ha).
  cbn [OTP.success negb fst snd].
  assert (Hagain : OTP.verify_otp later phone_number (OTP.otp d)
                     (<[phone_number := OTP.mark_verified (OTP.count_attempt d)]> s)
                   = (<[phone_number := OTP.mark_verified (OTP.count_attempt d)]> s,
                      OTP.OtpAlreadyUsed)).
  { apply (verify_otp_used later phone_number (OTP.otp d) _
             (OTP.mark_verified (OTP.count_attempt d)));
      [apply lookup_insert_eq | reflexivity]. }
  destruct (get_user_profile (user_uid current_user)) as [found|e]; cbn [fst snd].
  - match goal with
    | |- context [create_or_update_user_profile ?a ?b] =>
        destruct (create_or_update_user_profile a b) as [[]|e'] eqn:Ec
    end; cbn [fst snd]; (split; [|rewrite Hagain; reflexivity]).
    + intros [[e He']|Hfail]; [discriminate He'|].
      destruct (Hfail (with_verified_phone phone_number utcnow
                         (profile_or_new current_user found))) as [e He'].
      rewrite Ec in He'. discriminate He'.
    + intros _. eexists; reflexivity.
  - split; [intros _; eexists; reflexivity|]. rewrite Hagain. reflexivity.
Qed.

Lemma map_to_list_with_verified_phone (phone_number : str) (utcnow : Z)
      (profile : gmap str pyval) :
  map_to_list (with_verified_phone phone_number utcnow profile) <> [].
Proof.
  intros H. apply map_to_list_empty_iff in H.
  pose proof (with_verified_phone_sets phone_number utcnow profile) as [_ [_ H3]].
  rewrite H in H3. rewrite lookup_empty in H3. discriminate H3.
Qed.

End OtpEndpointFacts.

(** X13. What the verify endpoint writes is read back by the status
    endpoint as a verified phone: on a store that holds the written
    profile, the status says that the profile exists, that it has a phone
    number whenever the number sent in is not empty, and that the phone is
    verified. When no profile was found before, the status is answered and
    reports the profile as not complete. *)
Theorem verified_phone_shows_in_profile_status
        (get_user_profile : str -> result (option (gmap str pyval)))
        (create_or_update_user_profile : str -> gmap str pyval -> result unit)
        (current_user : FirebaseUser) (now utcnow : Z) (phone_number code : str)
        (s : OTP.storage) (user_id : str) (profile_data : gmap str pyval) :
  In (CreateOrUpdateUserProfile user_id profile_data)
     (fst (fst (verify_otp_endpoint get_user_profile create_or_update_user_profile
                  current_user now utcnow phone_number code s))) ->
  (forall status,
      get_profile_status (fun _ => Ok (Some profile_data)) current_user = Ok status ->
      has_phone_number status = truthy_str phone_number
      /\ phone_verified status = PyBool true
      /\ profile_exists status = true)
  /\ ((get_user_profile (user_uid current_user) = Ok None
       \/ get_user_profile (user_uid current_user) = Ok (Some ∅)) ->
      exists status,
        get_profile_status (fun _ => Ok (Some profile_data)) current_user = Ok status
        /\ profile_complete status = PyBool false).
Proof.
  intros Hin.
  assert (Hwritten : profile_data
                     = with_verified_phone phone_number utcnow
                         (profile_or_new current_user
                            match get_user_profile (user_uid current_user) with
                            | Ok found => found
                            | Raised _ => None
                            end)).
  { revert Hin. unfold verify_otp_endpoint.
    destruct (OTP.verify_otp_simple now phone_number code s) as [s' [ok m]].
    destruct ok; cbn [negb fst snd]; [|intros []].
    destruct (get_user_profile (user_uid current_user)) as [found|e]; cbn [fst snd].
    2:{ intros [H|[]]. discriminate H. }
    destruct (create_or_update_user_profile _ _); cbn [fst snd];
      intros [H|[H|[]]]; try discriminate H; injection H as _ <-; reflexivity. }
  set (before := profile_or_new current_user _) in Hwritten.
  pose proof (with_verified_phone_sets phone_number utcnow before) as [H1 [H2 _]].
  pose proof (map_to_list_with_verified_phone phone_number utcnow before) as Hne.
  rewrite <- Hwritten in H1, H2, Hne.
  split.
  - intros status. unfold get_profile_status.
    destruct (profile_completion profile_data) as [complete|e]; cbn [bind_result];
      [|discriminate].
    intros H. injection H as <-.
    cbn [has_phone_number phone_verified profile_exists].
    destruct (map_to_list profile_data); [contradiction Hne; reflexivity|].
    rewrite H1, H2. repeat split.
  - intros Hnone.
    assert (Hprefs : profile_data !! u "preferences" = Some (PyDict [])).
    { rewrite Hwritten.
      rewrite with_verified_phone_other by (vm_compute; discriminate).
      unfold before, profile_or_new.
      destruct Hnone as [-> | ->]; [|rewrite map_to_list_empty];
        apply lookup_insert_eq. }
    unfold get_profile_status, profile_completion.
    destruct (map_to_list profile_data); [contradiction Hne; reflexivity|].
    rewrite Hprefs. cbn [default truthy_val bind_result].
    eexists. split; reflexivity.
Qed.

Lemma verified_phone_shows_in_profile_status_witness :
  exists status,
    get_profile_status
      (fun _ => Ok (Some (with_verified_phone (u "+919876543210") 1000000
                            (profile_or_new (mkFirebaseUser (u "uid-1") PyNone PyNone)
                                            None))))
      (mkFirebaseUser (u "uid-1") PyNone PyNone)
    = Ok status
    /\ profile_complete status = PyBool false.
Proof.
  apply (verified_phone_shows_in_profile_status
           (fun _ => Ok None) (fun _ _ => Ok tt)
           (mkFirebaseUser (u "uid-1") PyNone PyNone) 1000000 1000000
           (u "+919876543210") (u "482913")
           (OTP.store_otp 0 0 (u "+919876543210") (u "482913") (u "sms") ∅)
           (u "uid-1")).
  - right. left. reflexivity.
  - left. reflexivity.
Defined.

Lemma send_endpoint_announces_half_the_validity_witness :
  snd (OTP.verify_otp 600000000 (u "+919876543210") (u "482913")
         (snd (fst (send_otp_endpoint (fun _ => true) None (fun _ _ => Raised CollaboratorError)
                      0 0 (u "+919876543210") (u "482913") ∅))))
  = OTP.OtpVerified.
Proof.
  destruct (send_endpoint_announces_half_the_validity
              (fun _ => true) None (fun _ _ => Raised CollaboratorError)
              0 0 600000000 (u "+919876543210") (u "482913") ∅) as [_ H];
    [vm_compute; discriminate | exact H].
Defined.

Lemma failed_profile_write_consumes_the_code_witness :
  exists e,
    snd (verify_otp_endpoint (fun _ => Ok None) (fun _ _ => Raised CollaboratorError)
           (mkFirebaseUser (u "uid-1") PyNone PyNone) 1000000 1000000
           (u "+919876543210") (u "482913")
           (OTP.store_otp 0 0 (u "+919876543210") (u "482913") (u "sms") ∅))
    = OtpHTTPException 500 (FailedToVerifyOtp e).
Proof.
  destruct (failed_profile_write_consumes_the_code
              (fun _ => Ok None) (fun _ _ => Raised CollaboratorError)
              (mkFirebaseUser (u "uid-1") PyNone PyNone)
              (mkFirebaseUser (u "uid-1") PyNone PyNone)
              1000000 1000000 2000000 2000000 (u "+919876543210")
              (OTP.store_otp 0 0 (u "+919876543210") (u "482913") (u "sms") ∅)
              (OTP.mkEntry (u "482913") (u "sms") 0 600000000 0 false)) as [H _].
  - apply lookup_insert_eq.
  - reflexivity.
  - vm_compute. discriminate.
  - reflexivity.
  - apply H. right. intros profile. exists CollaboratorError. reflexivity.
Defined.

Lemma verify_endpoint_writes_after_success_only_witness :
  fst (fst (verify_otp_endpoint (fun _ => Ok None) (fun _ _ => Ok tt)
              (mkFirebaseUser (u "uid-1") PyNone PyNone) 1000000 1000000
              (u "+919876543210") (u "000000")
              (OTP.store_otp 0 0 (u "+919876543210") (u "482913") (u "sms") ∅)))
  = [].
Proof.
  destruct (verify_endpoint_writes_after_success_only
              (fun _ => Ok None) (fun _ _ => Ok tt)
              (mkFirebaseUser (u "uid-1") PyNone PyNone) 1000000 1000000
              (u "+919876543210") (u "000000")
              (OTP.store_otp 0 0 (u "+919876543210") (u "482913") (u "sms") ∅))
    as [H _].
  apply H. vm_compute. discriminate.
Defined.

(** ** The trending cache *)

Lemma total_seconds_lt (later earlier n : Z) :
  (ResearchCache.total_seconds later earlier < inject_Z n)%Q
  <-> later - earlier < n * 1000000.
Proof.
  unfold ResearchCache.total_seconds, Qlt, inject_Z. cbn [Qnum Qden].
  change (Z.pos 1000000) with 1000000. lia.
Qed.

Lemma is_cache_valid_set (now stored : Z) (data : TrendingSuggestionsResponse.t)
      (c : TrendingCache.t) :
  TrendingCache.is_cache_valid now (TrendingCache.set_cache stored data c) = true
  <-> now - stored < hours (TrendingCache.cache_duration_hours c).
Proof.
  unfold TrendingCache.is_cache_valid, TrendingCache.set_cache, hours.
  cbn [TrendingCache.cache_data TrendingCache.cache_timestamp
       TrendingCache.cache_duration_hours].
  rewrite Qltb_lt, total_seconds_lt. lia.
Qed.

(** X14. Once the trending endpoint has built an answer, it hands out that
    same answer, and leaves the cache as it is, on every request made less
    than six hours after the answer was stored; from six hours on it builds
    a new one. The answer's own [valid_until] is six hours after the clock
    reading taken before the storing, so the cached answer goes on being
    served between its [valid_until] and the expiry of the cache. *)
Theorem trending_answer_is_kept_six_hours
        (c : TrendingCache.t) (read built stored : Z) :
  TrendingCache.cache_duration_hours c = 6 ->
  TrendingCache.get_cache read c = None ->
  let first := get_trending_suggestions read built stored c in
  TrendingSuggestionsResponse.valid_until (snd first) = built + 21600 * 1000000
  /\ (forall now now' now'',
         now - stored < 21600 * 1000000 ->
         get_trending_suggestions now now' now'' (fst first) = first)
  /\ (forall now now' now'',
         21600 * 1000000 <= now - stored ->
         let second := get_trending_suggestions now now' now'' (fst first) in
         TrendingSuggestionsResponse.cache_timestamp (snd second) = now'
         /\ TrendingCache.cache_data (fst second) = Some (snd second)
         /\ TrendingCache.cache_timestamp (fst second) = Some now'').
Proof.
  intros H6 Hmiss first.
  assert (Hfirst : first
                   = (TrendingCache.set_cache stored (snd first) c, snd first)).
  { unfold first, get_trending_suggestions. rewrite Hmiss. reflexivity. }
  split.
  { unfold first, get_trending_suggestions. rewrite Hmiss, H6. reflexivity. }
  rewrite Hfirst. cbn [fst snd]. split.
  - intros now now' now'' Hage. unfold get_trending_suggestions, TrendingCache.get_cache.
    rewrite (proj2 (is_cache_valid_set now stored _ c)) by (rewrite H6; unfold hours; lia).
    reflexivity.
  - intros now now' now'' Hage. unfold get_trending_suggestions, TrendingCache.get_cache.
    destruct (TrendingCache.is_cache_valid now (TrendingCache.set_cache stored _ c)) eqn:E.
    + apply is_cache_valid_set in E. rewrite H6 in E. unfold hours in E. lia.
    + cbn [fst snd]. repeat split.
Qed.

Lemma trending_answer_is_kept_six_hours_witness :
  get_trending_suggestions 21600999999 21601000000 21601000001
    (fst (get_trending_suggestions 0 1 1000000 TrendingCache.init))
  = get_trending_suggestions 0 1 1000000 TrendingCache.init.
Proof.
  destruct (trending_answer_is_kept_six_hours TrendingCache.init 0 1 1000000)
    as [_ [H _]]; [reflexivity | reflexivity |].
  apply H. reflexivity.
Defined.

(** X15. Clearing the trending cache makes the next request build a new
    answer at whatever time it comes, and it does so through the timestamp
    alone: the endpoint assigns [None] to an attribute [cached_data] that
    nothing reads, and the answer held in [cache_data] stays in place
    until the next request overwrites it. *)
Theorem clear_trending_cache_forces_a_new_answer
        (c : TrendingCache.t) (now now' now'' : Z) :
  let cleared := clear_trending_cache c in
  TrendingCache.cache_data cleared = TrendingCache.cache_data c
  /\ TrendingCache.get_cache now cleared = None
  /\ TrendingSuggestionsResponse.cache_timestamp
       (snd (get_trending_suggestions now now' now'' cleared)) = now'
  /\ TrendingCache.cache_data (fst (get_trending_suggestions now now' now'' cleared))
     = Some (snd (get_trending_suggestions now now' now'' cleared)).
Proof.
  intros cleared.
  assert (Hmiss : TrendingCache.get_cache now cleared = None).
  { unfold cleared, clear_trending_cache, TrendingCache.get_cache,
      TrendingCache.is_cache_valid.
    cbn [TrendingCache.cache_data TrendingCache.cache_timestamp].
    destruct (TrendingCache.cache_data c); reflexivity. }
  split; [reflexivity|]. split; [exact Hmiss|].
  unfold get_trending_suggestions. rewrite Hmiss. split; reflexivity.
Qed.

(** ** Whether a day optimization is suggested *)

Section CheckOptimizationFacts.

Variable get_trip_plan_by_id : result (option StoredTrip).
Variable get_expense_tracker : result ExpenseSummary.
Variable fromisoformat : str -> result Z.

Local Abbreviation check :=
  (check_optimization_needed get_trip_plan_by_id get_expense_tracker fromisoformat).

Lemma morning_reasons_cases (now current_hour : Z) (trip : StoredTrip)
      (l : list OptimizationReason) :
  morning_reasons fromisoformat now current_hour trip = Ok l ->
  l = [] \/ (l = [GoodMorning] /\ 7 <= current_hour <= 9).
Proof.
  unfold morning_reasons.
  destruct ((7 <=? current_hour) && (current_hour <=? 9)) eqn:Eh.
  2:{ intros H. injection H as <-. left. reflexivity. }
  apply andb_true_iff in Eh as [H7 H9]. apply Z.leb_le in H7, H9.
  destruct (negb (truthy_opt truthy_str (last_optimization_time trip))).
  { intros H. injection H as <-. right. split; [reflexivity | lia]. }
  destruct (last_optimization_time trip) as [last|].
  2:{ intros H. injection H as <-. right. split; [reflexivity | lia]. }
  destruct (fromisoformat last) as [t|e]; cbn [bind_result]; [|discriminate].
  destruct (ONE_DAY <=? now - t); intros H; injection H as <-;
    [right; split; [reflexivity | lia] | left; reflexivity].
Qed.

Lemma budget_reasons_cases (trip : StoredTrip) (expense_summary : ExpenseSummary)
      (l : list OptimizationReason) :
  budget_reasons trip expense_summary = Ok l ->
  l = []
  \/ (exists percent, l = [BudgetAlert percent] /\ (90 < percent)%Q)
  \/ (l = [BudgetExceeded]
      /\ (0 < total_spent expense_summary)%Q
      /\ (total_remaining expense_summary < 0)%Q
      /\ exists b, (b == match trip_budget trip with Some b => b | None => 1 end)%Q
                   /\ ~ (b == 0)%Q
                   /\ (total_spent expense_summary / b * 100 <= 90)%Q).
Proof.
  unfold budget_reasons.
  destruct (Qltb 0 (total_spent expense_summary)) eqn:Es.
  2:{ intros H. injection H as <-. left. reflexivity. }
  apply Qltb_lt in Es.
  unfold div_number.
  set (b := match trip_budget trip with Some b => b | None => 1%Q end).
  destruct (Qeq_bool b 0) eqn:Eb; cbn [bind_result]; [discriminate|].
  destruct (Qltb 90 (total_spent expense_summary / b * 100)) eqn:Ep.
  { intros H. injection H as <-. right. left. eexists. split; [reflexivity|].
    apply Qltb_lt. exact Ep. }
  destruct (Qltb (total_remaining expense_summary) 0) eqn:Er;
    intros H; injection H as <-; [|left; reflexivity].
  right. right. split; [reflexivity|]. split; [exact Es|].
  split; [apply Qltb_lt; exact Er|].
  exists b. split; [reflexivity|]. split.
  - intros Hb. apply Qeq_bool_iff in Hb. congruence.
  - apply Qltb_ge. exact Ep.
Qed.

Lemma midday_reasons_cases (current_hour : Z) :
  midday_reasons current_hour = []
  \/ (midday_reasons current_hour = [AfternoonPlans] /\ 12 <= current_hour <= 14).
Proof.
  unfold midday_reasons.
  destruct ((12 <=? current_hour) && (current_hour <=? 14)) eqn:Eh; [|left; reflexivity].
  apply andb_true_iff in Eh as [H1 H2]. apply Z.leb_le in H1, H2.
  right. split; [reflexivity | lia].
Qed.

Lemma evening_reasons_cases (current_hour : Z) :
  evening_reasons current_hour = []
  \/ (evening_reasons current_hour = [EveningAhead] /\ 17 <= current_hour <= 18).
Proof.
  unfold evening_reasons.
  destruct ((17 <=? current_hour) && (current_hour <=? 18)) eqn:Eh; [|left; reflexivity].
  apply andb_true_iff in Eh as [H1 H2]. apply Z.leb_le in H1, H2.
  right. split; [reflexivity | lia].
Qed.

(** What a checked answer is made of. *)
Lemma checked_answer (user_id : str) (now current_hour : Z)
      (b : bool) (rs : list OptimizationReason) (rest : Q) (days : Z) :
  check user_id now current_hour = Checked b rs rest days ->
  exists trip expense_summary morning money,
    get_trip_plan_by_id = Ok (Some trip)
    /\ trip_user_id trip = Some user_id
    /\ trip_status trip = Some (u "started")
    /\ get_expense_tracker = Ok expense_summary
    /\ morning_reasons fromisoformat now current_hour trip = Ok morning
    /\ budget_reasons trip expense_summary = Ok money
    /\ rs = morning ++ money ++ midday_reasons current_hour
                    ++ evening_reasons current_hour
    /\ b = negb (Nat.eqb (length rs) 0)
    /\ rest = total_remaining expense_summary
    /\ days = days_remaining expense_summary.
Proof.
  unfold check_optimization_needed, check_optimization_body.
  destruct get_trip_plan_by_id as [[trip|]|e] eqn:Et; cbn [bind_result];
    try discriminate.
  destruct (trip_user_id trip) as [owner|] eqn:Eo; cbn [negb]; try discriminate.
  destruct (str_eqb owner user_id) eqn:Eu; cbn [negb]; try discriminate.
  apply str_eqb_eq in Eu. subst owner.
  destruct (trip_status trip) as [status|] eqn:Est; cbn [negb]; try discriminate.
  destruct (str_eqb status (u "started")) eqn:Es; cbn [negb]; try discriminate.
  apply str_eqb_eq in Es. subst status.
  destruct get_expense_tracker as [expense_summary|e] eqn:Ee; cbn [bind_result];
    try discriminate.
  destruct (morning_reasons fromisoformat now current_hour trip) as [morning|e] eqn:Em;
    cbn [bind_result]; try discriminate.
  destruct (budget_reasons trip expense_summary) as [money|e] eqn:Eb;
    cbn [bind_result]; try discriminate.
  intros H. injection H as <- <- <- <-.
  exists trip, expense_summary, morning, money.
  repeat split; first [reflexivity | assumption].
Qed.

(** X16. An answer that lists reasons lists at most two: the three
    times of day exclude each other, so at most one of them is given, with
    at most one reason about the budget; the budget alert and the exceeded
    budget are never given together, and [should_optimize] is true exactly
    when a reason is listed. *)
Theorem optimization_reasons_are_at_most_two
        (user_id : str) (now current_hour : Z)
        (b : bool) (rs : list OptimizationReason) (rest : Q) (days : Z) :
  check user_id now current_hour = Checked b rs rest days ->
  (length rs <= 2)%nat
  /\ (b = true <-> rs <> [])
  /\ (length (List.filter (fun r => match r with
                                    | GoodMorning | AfternoonPlans | EveningAhead => true
                                    | _ => false
                                    end) rs) <= 1)%nat
  /\ (length (List.filter (fun r => match r with
                                    | BudgetAlert _ | BudgetExceeded => true
                                    | _ => false
                                    end) rs) <= 1)%nat.
Proof.
  intros H. apply checked_answer in H
    as (trip & es & morning & money & _ & _ & _ & _ & Hm & Hb & -> & -> & _ & _).
  apply morning_reasons_cases in Hm. apply budget_reasons_cases in Hb.
  destruct (midday_reasons_cases current_hour) as [Hd|[Hd Hdh]];
    destruct (evening_reasons_cases current_hour) as [He|[He Heh]];
    rewrite Hd, He;
    destruct Hm as [->|[-> Hmh]]; try lia;
    destruct Hb as [->|[[p [-> _]]|[-> _]]]; cbn;
    (repeat split; try lia; try discriminate; try (intros _; discriminate);
     try (intros Hf; contradiction Hf; reflexivity)).
Qed.

(** X17. With a budget above zero and a tracker whose remaining amount is
    the budget less what was spent, the reason of an exceeded budget is
    never given: it stands behind an [elif] that is reached only when at
    most 90 percent of the budget is used, where nothing is exceeded. *)
Theorem budget_exceeded_reason_is_never_given
        (user_id : str) (now current_hour : Z) (trip : StoredTrip)
        (expense_summary : ExpenseSummary) (budget : Q)
        (b : bool) (rs : list OptimizationReason) (rest : Q) (days : Z) :
  get_trip_plan_by_id = Ok (Some trip) ->
  get_expense_tracker = Ok expense_summary ->
  trip_budget trip = Some budget ->
  (0 < budget)%Q ->
  (total_remaining expense_summary == budget - total_spent expense_summary)%Q ->
  check user_id now current_hour = Checked b rs rest days ->
  ~ In BudgetExceeded rs.
Proof.
  intros Ht Hes Hbudget Hpos Hrem H. apply checked_answer in H
    as (trip' & es' & morning & money & Ht' & _ & _ & Hes' & Hm & Hb & -> & _).
  rewrite Ht in Ht'. injection Ht' as <-. rewrite Hes in Hes'. injection Hes' as <-.
  apply morning_reasons_cases in Hm. apply budget_reasons_cases in Hb.
  assert (Hmoney : ~ In BudgetExceeded money).
  { destruct Hb as [->|[[p [-> _]]|[-> [Hs [Hr [b' [Hb' [Hnz Hp]]]]]]]].
    - intros [].
    - intros [Hx|[]]. discriminate Hx.
    - exfalso. rewrite Hbudget in Hb'.
      assert (Hdiv : (total_spent expense_summary / b' * 100 * budget
                      == total_spent expense_summary * 100)%Q).
      { rewrite Hb'. field. intros Hz. rewrite Hz in Hpos.
        apply (Qlt_irrefl 0). exact Hpos. }
      assert (Hle : (total_spent expense_summary / b' * 100 * budget <= 90 * budget)%Q).
      { apply Qmult_le_compat_r; [exact Hp | apply Qlt_le_weak; exact Hpos]. }
      rewrite Hdiv in Hle. rewrite Hrem in Hr. lra. }
  intros Hin. apply in_app_or in Hin as [Hin|Hin].
  { destruct Hm as [->|[-> _]]; [destruct Hin|].
    destruct Hin as [Hx|[]]. discriminate Hx. }
  apply in_app_or in Hin as [Hin|Hin]; [exact (Hmoney Hin)|].
  apply in_app_or in Hin as [Hin|Hin].
  - destruct (midday_reasons_cases current_hour) as [Hd|[Hd _]]; rewrite Hd in Hin.
    + destruct Hin.
    + destruct Hin as [Hx|[]]. discriminate Hx.
  - destruct (evening_reasons_cases current_hour) as [He|[He _]]; rewrite He in Hin.
    + destruct Hin.
    + destruct Hin as [Hx|[]]. discriminate Hx.
Qed.

(** X18. A started trip stored with a budget of zero, on which something
    was spent, gets no check at all: the percentage divides by the budget,
    the exception is caught, and the answer is "Error checking conditions"
    with [should_optimize] false, at every hour of the day. *)
Theorem zero_budget_is_answered_as_an_error
        (user_id : str) (now current_hour : Z) (trip : StoredTrip)
        (expense_summary : ExpenseSummary) (budget : Q) :
  get_trip_plan_by_id = Ok (Some trip) ->
  get_expense_tracker = Ok expense_summary ->
  trip_user_id trip = Some user_id ->
  trip_status trip = Some (u "started") ->
  trip_budget trip = Some budget ->
  (budget == 0)%Q ->
  (0 < total_spent expense_summary)%Q ->
  check user_id now current_hour = NotChecked ErrorCheckingConditions.
Proof.
  intros Ht Hes Hu Hst Hb Hz Hs.
  unfold check_optimization_needed, check_optimization_body.
  rewrite Ht, Hes. cbn [bind_result]. rewrite Hu, Hst, !str_eqb_refl. cbn [negb].
  destruct (morning_reasons fromisoformat now current_hour trip) as [morning|e];
    cbn [bind_result]; [|reflexivity].
  unfold budget_reasons. rewrite (proj2 (Qltb_lt _ _) Hs), Hb.
  unfold div_number. rewrite (proj2 (Qeq_bool_iff _ _) Hz). reflexivity.
Qed.

End CheckOptimizationFacts.

Lemma optimization_reasons_are_at_most_two_witness :
  (length [GoodMorning; BudgetAlert (38000 / 40000 * 100)] <= 2)%nat.
Proof.
  apply (optimization_reasons_are_at_most_two
           (Ok (Some (started_trip 40000))) (Ok spent_38000_of_40000) no_iso_time
           (u "uid-1") 0 8 true [GoodMorning; BudgetAlert (38000 / 40000 * 100)] 2000 1).
  reflexivity.
Defined.

Lemma budget_exceeded_reason_is_never_given_witness :
  ~ In BudgetExceeded [GoodMorning; BudgetAlert (38000 / 40000 * 100)].
Proof.
  apply (budget_exceeded_reason_is_never_given
           (Ok (Some (started_trip 40000))) (Ok spent_38000_of_40000) no_iso_time
           (u "uid-1") 0 8 (started_trip 40000) spent_38000_of_40000 40000
           true [GoodMorning; BudgetAlert (38000 / 40000 * 100)] 2000 1);
    reflexivity.
Defined.

Lemma zero_budget_is_answered_as_an_error_witness :
  check_optimization_needed (Ok (Some (started_trip 0))) (Ok spent_38000_of_40000)
    no_iso_time (u "uid-1") 0 13
  = NotChecked ErrorCheckingConditions.
Proof.
  apply (zero_budget_is_answered_as_an_error
           (Ok (Some (started_trip 0))) (Ok spent_38000_of_40000) no_iso_time
           (u "uid-1") 0 13 (started_trip 0) spent_38000_of_40000 0);
    reflexivity.
Defined.

(** ** The head of the planning endpoint *)

Lemma is_space_cases (c : N) :
  is_space c = true ->
  (9 <= c <= 13 \/ 28 <= c <= 32 \/ c = 133 \/ c = 160 \/ c = 5760
   \/ 8192 <= c <= 8202 \/ c = 8232 \/ c = 8233 \/ c = 8239 \/ c = 8287
   \/ c = 12288)%N.
Proof.
  unfold is_space.
  rewrite !orb_true_iff, !andb_true_iff, !N.leb_le, !N.eqb_eq. tauto.
Qed.

Lemma upper_cp_space (c : N) : is_space c = true -> upper_cp c = [c].
Proof.
  intros H. apply is_space_cases in H. unfold upper_cp.
  repeat match goal with
         | |- (if ?t then _ else _) = _ =>
             let E := fresh "E" in
             destruct t eqn:E;
             [ exfalso;
               rewrite ?orb_true_iff, ?andb_true_iff, ?N.leb_le, ?N.eqb_eq in E; lia
             | clear E ]
         end.
  reflexivity.
Qed.

Lemma upper_cp_no_space (c : N) :
  is_space c = false -> Forall (fun x => is_space x = false) (upper_cp c).
Proof.
  intros H. unfold upper_cp.
  destruct ((97 <=? c) && (c <=? 122))%N eqn:E.
  { apply andb_true_iff in E as [E1 E2]. apply N.leb_le in E1, E2.
    constructor; [|constructor].
    destruct (is_space (c - 32)) eqn:Es; [|reflexivity].
    apply is_space_cases in Es. lia. }
  repeat match goal with
         | |- Forall _ (if ?t then _ else _) =>
             destruct t; [repeat constructor|]
         end.
  constructor; [exact H | constructor].
Qed.

Lemma upper_cp_upper (c : N) : upper (upper_cp c) = upper_cp c.
Proof.
  remember (upper_cp c) as l eqn:El. unfold upper_cp in El.
  destruct ((97 <=? c) && (c <=? 122))%N eqn:E.
  { apply andb_true_iff in E as [E1 E2]. apply N.leb_le in E1, E2. subst l.
    unfold upper. cbn [flat_map]. rewrite app_nil_r. unfold upper_cp.
    repeat match goal with
           | |- (if ?t then _ else _) = _ =>
               let E := fresh "E" in
               destruct t eqn:E;
               [ exfalso;
                 rewrite ?orb_true_iff, ?andb_true_iff, ?N.leb_le, ?N.eqb_eq in E; lia
               | clear E ]
           end.
    reflexivity. }
  repeat match type of El with
         | _ = (if ?t then _ else _) =>
             let E' := fresh "E" in
             destruct t eqn:E'; [subst l; reflexivity|]
         end.
  subst l. unfold upper. cbn [flat_map]. rewrite app_nil_r. unfold upper_cp.
  repeat match goal with
         | H : ?t = false |- context [if ?t then _ else _] => rewrite H
         end.
  reflexivity.
Qed.

Lemma upper_app (a b : str) : upper (a ++ b) = upper a ++ upper b.
Proof. unfold upper. apply flat_map_app. Qed.

Lemma upper_upper (s : str) : upper (upper s) = upper s.
Proof.
  induction s as [|c s IH]; [reflexivity|].
  change (upper (c :: s)) with (upper_cp c ++ upper s).
  rewrite upper_app, upper_cp_upper, IH. reflexivity.
Qed.

Lemma upper_cp_not_nil (c : N) : upper_cp c <> [].
Proof.
  unfold upper_cp.
  repeat match goal with
         | |- (if ?t then _ else _) <> _ => destruct t; [discriminate|]
         end.
  discriminate.
Qed.

Lemma upper_nil (s : str) : upper s = [] -> s = [].
Proof.
  destruct s as [|c s]; [reflexivity|].
  change (upper (c :: s)) with (upper_cp c ++ upper s).
  intros H. apply app_eq_nil in H as [H _]. contradiction (upper_cp_not_nil c).
Qed.

Lemma skip_spaces_no_space (l t : str) :
  l <> [] -> Forall (fun x => is_space x = false) l -> skip_spaces (l ++ t) = l ++ t.
Proof.
  intros Hl H. destruct H as [|x l Hx _]; [contradiction|].
  cbn [app skip_spaces]. rewrite Hx. reflexivity.
Qed.

Lemma skip_spaces_upper (s : str) : skip_spaces (upper s) = upper (skip_spaces s).
Proof.
  induction s as [|c s IH]; [reflexivity|].
  change (upper (c :: s)) with (upper_cp c ++ upper s).
  cbn [skip_spaces]. destruct (is_space c) eqn:Ec.
  - rewrite (upper_cp_space c Ec). cbn [app skip_spaces]. rewrite Ec. exact IH.
  - rewrite skip_spaces_no_space;
      [reflexivity | apply upper_cp_not_nil | apply upper_cp_no_space; exact Ec].
Qed.

Lemma rstrip_no_space (l t : str) :
  Forall (fun x => is_space x = false) l -> rstrip (l ++ t) = l ++ rstrip t.
Proof.
  induction 1 as [|x l Hx _ IH]; [reflexivity|].
  cbn [app rstrip]. rewrite IH, Hx.
  destruct (l ++ rstrip t); reflexivity.
Qed.

Lemma rstrip_upper (s : str) : rstrip (upper s) = upper (rstrip s).
Proof.
  induction s as [|c s IH]; [reflexivity|].
  change (upper (c :: s)) with (upper_cp c ++ upper s).
  destruct (is_space c) eqn:Ec.
  - rewrite (upper_cp_space c Ec). cbn [app rstrip]. rewrite IH, Ec.
    destruct (rstrip s) as [|x r] eqn:Er; [reflexivity|].
    destruct (upper (x :: r)) eqn:Eu.
    + apply upper_nil in Eu. discriminate Eu.
    + change (upper (c :: x :: r)) with (upper_cp c ++ upper (x :: r)).
      rewrite (upper_cp_space c Ec), Eu. reflexivity.
  - rewrite rstrip_no_space by (apply upper_cp_no_space; exact Ec).
    rewrite IH. cbn [rstrip]. rewrite Ec.
    destruct (rstrip s) as [|x r]; [|reflexivity].
    cbn [upper flat_map]. reflexivity.
Qed.

Lemma strip_upper (s : str) : strip (upper s) = upper (strip s).
Proof. unfold strip. rewrite skip_spaces_upper. apply rstrip_upper. Qed.

Lemma skip_spaces_spaces (a s : str) :
  Forall (fun x => is_space x = true) a -> skip_spaces (a ++ s) = skip_spaces s.
Proof.
  induction 1 as [|x a Hx _ IH]; [reflexivity|].
  cbn [app skip_spaces]. rewrite Hx. exact IH.
Qed.

Lemma rstrip_spaces (s b : str) :
  Forall (fun x => is_space x = true) b -> rstrip (s ++ b) = rstrip s.
Proof.
  intros Hb. induction s as [|c s IH].
  - cbn [app]. induction Hb as [|x b Hx _ IHb]; [reflexivity|].
    cbn [rstrip]. rewrite IHb, Hx. reflexivity.
  - cbn [app rstrip]. rewrite IH. reflexivity.
Qed.

Lemma skip_spaces_app (s b : str) :
  skip_spaces s <> [] -> skip_spaces (s ++ b) = skip_spaces s ++ b.
Proof.
  induction s as [|c s IH]; intros H; [contradiction|].
  cbn [app skip_spaces] in *. destruct (is_space c); [apply IH; exact H | reflexivity].
Qed.

Lemma skip_spaces_all (s : str) :
  skip_spaces s = [] -> Forall (fun x => is_space x = true) s.
Proof.
  induction s as [|c s IH]; intros H; [constructor|].
  cbn [skip_spaces] in H. destruct (is_space c) eqn:Ec; [|discriminate H].
  constructor; [exact Ec | apply IH; exact H].
Qed.

Lemma strip_spaces (a s b : str) :
  Forall (fun x => is_space x = true) a -> Forall (fun x => is_space x = true) b ->
  strip (a ++ s ++ b) = strip s.
Proof.
  intros Ha Hb. unfold strip. rewrite (skip_spaces_spaces a _ Ha).
  destruct (skip_spaces s) as [|x r] eqn:Es.
  - apply skip_spaces_all in Es.
    assert (Hall : Forall (fun x => is_space x = true) (s ++ b)).
    { apply Forall_app. split; assumption. }
    rewrite <- (app_nil_r (s ++ b)), (skip_spaces_spaces (s ++ b) [] Hall).
    reflexivity.
  - rewrite skip_spaces_app by (rewrite Es; discriminate).
    rewrite Es. apply rstrip_spaces. exact Hb.
Qed.

(** X19. The routing reads the reply of the intent model without its
    outer white space and without regard to the case of its letters: white
    space put before or after a reply, and the reply in capitals, are
    routed as the reply itself. *)
Theorem intent_ignores_case_and_outer_space (content before after : str) :
  Forall (fun x => is_space x = true) before ->
  Forall (fun x => is_space x = true) after ->
  intent_of (before ++ content ++ after) = intent_of content
  /\ intent_of (upper content) = intent_of content.
Proof.
  intros Ha Hb. unfold intent_of. split.
  - rewrite (strip_spaces before content after Ha Hb). reflexivity.
  - rewrite strip_upper, upper_upper. reflexivity.
Qed.

Lemma intent_ignores_case_and_outer_space_witness :
  intent_of (u " " ++ u "Greeting" ++ [10%N]) = intent_of (u "Greeting")
  /\ intent_of (u "Greeting") = GREETING.
Proof.
  split; [|reflexivity].
  apply (intent_ignores_case_and_outer_space (u "Greeting") (u " ") [10%N]);
    repeat constructor.
Defined.

Section EndpointFacts.

Variable digit_value : N -> option Z.
Variable get_minimum_daily_budget : str -> result str.
Variable get_travel_advisory : str -> result str.
Variable get_realtime_weather : str -> result str.
Variable get_travel_document_info : str -> result str.
Variable estimate_transport_cost : str -> str -> Z -> result Q.
Variable estimate_transport_fallback : str -> str -> Z -> result Q.
Variable agent_executor : Mission -> TripDetails -> ResearchData -> result str.
Variable intent_llm : str -> result str.
Variable smart_llm : Intent -> str -> result str.
Variable extractor_llm : str -> option PreviousExtraction -> result TripDetails.

Local Abbreviation serve :=
  (serve_plan_trip_from_prompt digit_value
     get_minimum_daily_budget get_travel_advisory get_realtime_weather
     get_travel_document_info estimate_transport_cost estimate_transport_fallback
     agent_executor intent_llm smart_llm extractor_llm).

Local Abbreviation plan :=
  (plan_trip_from_prompt digit_value
     get_minimum_daily_budget get_travel_advisory get_realtime_weather
     get_travel_document_info estimate_transport_cost estimate_transport_fallback
     agent_executor).

(** X20. A reply of the intent model that is one of the six labels keeps
    the request away from the planning: the extractor is not invoked, no
    planning step is called and the research cache is left as it is. A
    modification request is refused with the fixed text and no further
    call, whether or not the request carries a previous extraction; each of
    the five other labels costs one call of the conversational model, whose
    stripped reply is the answer, or whose failure is an HTTP 500. *)
Theorem labelled_intents_stay_out_of_planning
        (prompt : str) (previous_extraction : option PreviousExtraction)
        (now_lookup now_store : Z) (c : ResearchCache.t) (content : str) :
  intent_llm prompt = Ok content ->
  intent_of content <> TRIP_PLANNING ->
  let '(invoked, calls, c', answer) :=
    serve prompt previous_extraction now_lookup now_store c in
  calls = [] /\ c' = c
  /\ (forall p q, ~ In (InvokeExtractor p q) invoked)
  /\ (intent_of content = MODIFICATION_REQUEST ->
      invoked = [InvokeIntent prompt]
      /\ answer = Ok (TextOnly false (u "Cannot modify plan without context")
                               SendFullDetailsAgain))
  /\ (intent_of content <> MODIFICATION_REQUEST ->
      invoked = [InvokeIntent prompt; InvokeSmart (intent_of content) prompt]
      /\ answer = match smart_llm (intent_of content) prompt with
                  | Ok reply =>
                      Ok (TextOnly true (conversation_message (intent_of content))
                                   (ModelReply (strip reply)))
                  | Raised _ => Raised (HTTPException 500)
                  end).
Proof.
  intros Hc Hi. unfold serve_plan_trip_from_prompt. rewrite Hc.
  destruct (intent_of content) eqn:Ei;
    [ | | | | | | contradiction Hi; reflexivity ].
  1-5: destruct (smart_llm _ prompt) as [reply|e];
    (split; [reflexivity|]; split; [reflexivity|]; split;
     [ intros p q [H|[H|[]]]; discriminate H |];
     split; [intros H; discriminate H | intros _; split; reflexivity]).
  split; [reflexivity|]. split; [reflexivity|]. split.
  - intros p q [H|[]]. discriminate H.
  - split; [intros _; split; reflexivity|].
    intros H. contradiction H. reflexivity.
Qed.

Lemma intent_of_unlabelled (content : str) :
  ~ In (upper (strip content))
       [u "GREETING"; u "DESTINATION_INQUIRY"; u "RECOMMENDATION"; u "ADVICE";
        u "OTHER"; u "MODIFICATION_REQUEST"] ->
  intent_of content = TRIP_PLANNING.
Proof.
  intros H. unfold intent_of.
  rewrite !str_eqb_neq; [reflexivity| | | | | |];
    intros E; apply H; rewrite E; cbn [In]; tauto.
Qed.

(** X21. Every reply of the intent model that is none of the six labels
    once stripped and put in capitals, the label of a trip planning among
    them, sends the request to the extractor. When the extractor fails the
    request is answered, not failed: the answer says "Extraction
    failed", no planning step is called and the cache is left as it is.
    When it returns, the rest of the request is the planning from the merge
    on. *)
Theorem unlabelled_intent_goes_to_extraction
        (prompt : str) (previous_extraction : option PreviousExtraction)
        (now_lookup now_store : Z) (c : ResearchCache.t) (content : str) :
  intent_llm prompt = Ok content ->
  ~ In (upper (strip content))
       [u "GREETING"; u "DESTINATION_INQUIRY"; u "RECOMMENDATION"; u "ADVICE";
        u "OTHER"; u "MODIFICATION_REQUEST"] ->
  let '(invoked, calls, c', answer) :=
    serve prompt previous_extraction now_lookup now_store c in
  invoked = [InvokeIntent prompt; InvokeExtractor prompt previous_extraction]
  /\ (forall e, extractor_llm prompt previous_extraction = Raised e ->
        calls = [] /\ c' = c
        /\ answer = Ok (TextOnly false (u "Extraction failed") CouldNotUnderstand))
  /\ (forall extracted,
        extractor_llm prompt previous_extraction = Ok extracted ->
        let '(calls_of_plan, cache_of_plan, planned) :=
          plan previous_extraction extracted now_lookup now_store c in
        calls = calls_of_plan /\ c' = cache_of_plan
        /\ match planned with
           | Ok r => answer = Ok (Planning r)
           | Raised e => answer = Raised e
           end).
Proof.
  intros Hc Hi. unfold serve_plan_trip_from_prompt.
  rewrite Hc, (intent_of_unlabelled content Hi).
  destruct (extractor_llm prompt previous_extraction) as [extracted|e].
  - destruct (plan previous_extraction extracted now_lookup now_store c)
      as [[trace c1] r] eqn:Ep.
    split; [reflexivity|]. split; [intros e He; discriminate He|].
    intros extracted' He. injection He as <-. rewrite Ep.
    destruct r; repeat split; reflexivity.
  - split; [reflexivity|]. split; [intros e' _; repeat split; reflexivity|].
    intros extracted He. discriminate He.
Qed.

End EndpointFacts.

Lemma labelled_intents_stay_out_of_planning_witness :
  serve_plan_trip_from_prompt ascii_digit
    (answering []) (answering []) (answering []) (answering [])
    out_of_order out_of_order (fun _ _ _ => Raised CollaboratorError)
    (replying " modification_request") silent_model failing_extractor
    (u "use the whole budget") (Some trip_from_mumbai) 0 0 ResearchCache.empty
  = ([InvokeIntent (u "use the whole budget")], [], ResearchCache.empty,
     Ok (TextOnly false (u "Cannot modify plan without context") SendFullDetailsAgain)).
Proof.
  pose proof (labelled_intents_stay_out_of_planning ascii_digit
                (answering []) (answering []) (answering []) (answering [])
                out_of_order out_of_order (fun _ _ _ => Raised CollaboratorError)
                (replying " modification_request") silent_model failing_extractor
                (u "use the whole budget") (Some trip_from_mumbai) 0 0
                ResearchCache.empty (u " modification_request") eq_refl) as H.
  destruct (serve_plan_trip_from_prompt _ _ _ _ _ _ _ _ _ _ _ _ _ _ _ _)
    as [[[invoked calls] c'] answer].
  destruct H as (-> & -> & _ & H & _); [vm_compute; discriminate|].
  destruct H as [-> ->]; reflexivity.
Defined.

Lemma unlabelled_intent_goes_to_extraction_witness :
  serve_plan_trip_from_prompt ascii_digit
    (answering []) (answering []) (answering []) (answering [])
    out_of_order out_of_order (fun _ _ _ => Raised CollaboratorError)
    (replying "Greeting.") silent_model failing_extractor
    (u "hello") None 0 0 ResearchCache.empty
  = ([InvokeIntent (u "hello"); InvokeExtractor (u "hello") None], [],
     ResearchCache.empty,
     Ok (TextOnly false (u "Extraction failed") CouldNotUnderstand)).
Proof.
  pose proof (unlabelled_intent_goes_to_extraction ascii_digit
                (answering []) (answering []) (answering []) (answering [])
                out_of_order out_of_order (fun _ _ _ => Raised CollaboratorError)
                (replying "Greeting.") silent_model failing_extractor
                (u "hello") None 0 0 ResearchCache.empty (u "Greeting.") eq_refl) as H.
  destruct (serve_plan_trip_from_prompt _ _ _ _ _ _ _ _ _ _ _ _ _ _ _ _)
    as [[[invoked calls] c'] answer].
  destruct H as (-> & H & _).
  { vm_compute. intros H. repeat (destruct H as [H|H]; [discriminate H|]). exact H. }
  destruct (H CollaboratorError eq_refl) as (-> & -> & ->). reflexivity.
Defined.

(** ** More on the budget check *)

(** X22. Without the marker the minimum daily cost is never zero and never
    wild: it is the default 2500, or a rupee amount from 1000 to 15000, or
    a dollar amount from 10 to 200 times 83, so it lies between 830 and
    16600. A minimum of zero, on which the ratio print of the budget check
    divides, can only come from the marker. *)
Theorem estimate_without_marker_is_bounded
        (digit_value : N -> option Z) (budget_info : str) :
  search_marker digit_value budget_info = None ->
  let est := estimate_min_daily digit_value budget_info in
  (est = 2500 \/ 1000 <= est <= 15000 \/ exists d, 10 <= d <= 200 /\ est = d * 83)
  /\ 830 <= est <= 16600.
Proof.
  intros Hm est.
  assert (H : est = 2500 \/ 1000 <= est <= 15000
              \/ exists d, 10 <= d <= 200 /\ est = d * 83).
  { destruct (min_daily_cases digit_value budget_info) as [_ [Hr [Hd Hnone]]].
    fold est in Hr, Hd, Hnone.
    destruct (rupee_matches digit_value budget_info) as [|r rs] eqn:Er.
    - destruct (dollar_matches digit_value budget_info) as [|d ds] eqn:Ed.
      + left. apply Hnone; [exact Hm | reflexivity | reflexivity].
      + destruct (Hd Hm eq_refl) as [Hsome Hempty]; [discriminate|].
        destruct (converted_dollars digit_value budget_info) as [|a l] eqn:Ec.
        * left. apply Hempty. reflexivity.
        * right. right. destruct Hsome as [Hin _]; [discriminate|].
          rewrite <- Ec in Hin. unfold converted_dollars in Hin.
          apply in_map_iff in Hin as [x [Hx Hin]].
          apply filter_In in Hin as [_ Hrange].
          apply andb_true_iff in Hrange as [H1 H2]. apply Z.leb_le in H1, H2.
          exists x. split; [lia | symmetry; exact Hx].
    - destruct (Hr Hm) as [Hsome Hempty]; [discriminate|].
      destruct (plausible_rupees digit_value budget_info) as [|a l] eqn:Ep.
      + left. apply Hempty. reflexivity.
      + right. left. destruct Hsome as [Hin _]; [discriminate|].
        rewrite <- Ep in Hin. unfold plausible_rupees in Hin.
        apply filter_In in Hin as [_ Hrange].
        apply andb_true_iff in Hrange as [H1 H2]. apply Z.leb_le in H1, H2. lia. }
  split; [exact H|].
  destruct H as [->|[H|[d [Hd ->]]]]; lia.
Qed.

Lemma estimate_without_marker_is_bounded_witness :
  830 <= estimate_min_daily ascii_digit (u "about $10 a day") <= 16600.
Proof.
  apply (estimate_without_marker_is_bounded ascii_digit (u "about $10 a day")).
  reflexivity.
Defined.




(** X24. A larger budget never lowers the verdict: for the same trip,
    minimum and transport cost, what is sufficient stays sufficient, the
    shortfall does not grow and the tier does not fall. *)
Theorem larger_budget_never_lowers_the_verdict
        (t : TripDetails) (daily_minimum : Z) (transport : Q) (smaller larger : Q)
        (f f' : Feasibility) :
  0 < num_people t -> 0 < num_days t -> (smaller <= larger)%Q ->
  feasibility (set_budget smaller t) daily_minimum transport = Ok f ->
  feasibility (set_budget larger t) daily_minimum transport = Ok f' ->
  (is_budget_sufficient f = true -> is_budget_sufficient f' = true)
  /\ (shortfall f' <= shortfall f)%Q
  /\ tier_rank (fst (classify_tier (user_daily_per_person f) daily_minimum))
     <= tier_rank (fst (classify_tier (user_daily_per_person f') daily_minimum)).
Proof.
  intros Hp Hd Hle Hf Hf'.
  rewrite feasibility_ok in Hf by (cbn; lia). injection Hf as <-.
  rewrite feasibility_ok in Hf' by (cbn; lia). injection Hf' as <-.
  cbn [is_budget_sufficient shortfall user_daily_per_person set_budget
       budget num_people num_days].
  set (total := (inject_Z (daily_minimum * num_days t * num_people t) * BUFFER
                 + transport)%Q).
  assert (Hp' : (inject_Z 0 < inject_Z (num_people t))%Q) by (rewrite <- Zlt_Qlt; exact Hp).
  assert (Hd' : (inject_Z 0 < inject_Z (num_days t))%Q) by (rewrite <- Zlt_Qlt; exact Hd).
  change (inject_Z 0) with 0%Q in Hp', Hd'.
  assert (Hdaily : (smaller / inject_Z (num_people t) / inject_Z (num_days t)
                    <= larger / inject_Z (num_people t) / inject_Z (num_days t))%Q).
  { unfold Qdiv. apply Qmult_le_compat_r.
    - apply Qmult_le_compat_r; [exact Hle|].
      apply Qlt_le_weak, Qinv_lt_0_compat. exact Hp'.
    - apply Qlt_le_weak, Qinv_lt_0_compat. exact Hd'. }
  set (daily := (smaller / inject_Z (num_people t) / inject_Z (num_days t))%Q) in *.
  set (daily' := (larger / inject_Z (num_people t) / inject_Z (num_days t))%Q) in *.
  split; [|split].
  - intros H. apply Qleb_le in H. apply Qleb_le. lra.
  - destruct (Qleb total smaller) eqn:E1; destruct (Qleb total larger) eqn:E2;
      cbn [negb];
      try apply Qleb_le in E1; try apply Qleb_gt in E1;
      try apply Qleb_le in E2; try apply Qleb_gt in E2; lra.
  - unfold classify_tier.
    destruct (Qltb daily (inject_Z daily_minimum * (13 # 10))) eqn:A1;
      destruct (Qltb daily' (inject_Z daily_minimum * (13 # 10))) eqn:B1;
      destruct (Qltb daily (inject_Z daily_minimum * (5 # 2))) eqn:A2;
      destruct (Qltb daily' (inject_Z daily_minimum * (5 # 2))) eqn:B2;
      cbn [fst tier_rank]; try lia; exfalso;
      try apply Qltb_lt in A1; try apply Qltb_ge in A1;
      try apply Qltb_lt in B1; try apply Qltb_ge in B1;
      try apply Qltb_lt in A2; try apply Qltb_ge in A2;
      try apply Qltb_lt in B2; try apply Qltb_ge in B2; lra.
Qed.

Lemma larger_budget_never_lowers_the_verdict_witness :
  exists f f',
    feasibility (goa_trip 40000) 3000 8000 = Ok f
    /\ feasibility (goa_trip 60000) 3000 8000 = Ok f'
    /\ (shortfall f' <= shortfall f)%Q.
Proof.
  do 2 eexists. split; [reflexivity|]. split; [reflexivity|].
  apply (larger_budget_never_lowers_the_verdict (goa_trip 0) 3000 8000 40000 60000);
    try reflexivity; try discriminate.
Defined.

(** ** The feedback statistics *)

Lemma str_eqb_sym (a b : str) : str_eqb a b = str_eqb b a.
Proof.
  destruct (str_eqb a b) eqn:E.
  - apply str_eqb_eq in E. subst b. symmetry. apply str_eqb_refl.
  - destruct (str_eqb b a) eqn:E'; [|reflexivity].
    apply str_eqb_eq in E'. subst b. rewrite str_eqb_refl in E. discriminate E.
Qed.

Lemma count_of_cons (k x : str) (l : list str) :
  count_of k (x :: l) = (if str_eqb k x then 1 else 0) + count_of k l.
Proof.
  unfold count_of. cbn [List.filter]. destruct (str_eqb k x); cbn [length]; lia.
Qed.

Lemma count_of_nonneg (k : str) (l : list str) : 0 <= count_of k l.
Proof. unfold count_of. lia. Qed.

Lemma count_of_In (k : str) (l : list str) : In k l <-> 1 <= count_of k l.
Proof.
  induction l as [|x l IH].
  - cbn. split; [intros [] | unfold count_of; cbn; lia].
  - rewrite count_of_cons. pose proof (count_of_nonneg k l) as Hn. split.
    + intros [->|H]; [rewrite str_eqb_refl; lia|].
      apply IH in H. destruct (str_eqb k x); lia.
    + intros H. destruct (str_eqb k x) eqn:E.
      * apply str_eqb_eq in E. left. symmetry. exact E.
      * right. apply IH. lia.
Qed.

Lemma count_held_bump (x k : str) (counts : list (str * Z)) :
  count_held k (Feedback.bump x counts)
  = count_held k counts + (if str_eqb k x then 1 else 0).
Proof.
  induction counts as [|[k0 n] rest IH]; cbn [Feedback.bump count_held].
  - rewrite (str_eqb_sym x k). destruct (str_eqb k x); reflexivity.
  - destruct (str_eqb k0 x) eqn:E0; cbn [count_held].
    + apply str_eqb_eq in E0. subst x.
      rewrite (str_eqb_sym k k0). destruct (str_eqb k0 k); lia.
    + destruct (str_eqb k0 k) eqn:E1; [|exact IH].
      apply str_eqb_eq in E1. subst k0. rewrite E0. lia.
Qed.

Lemma keys_bump (x k : str) (counts : list (str * Z)) :
  In k (map fst (Feedback.bump x counts)) <-> In k (map fst counts) \/ k = x.
Proof.
  induction counts as [|[k0 n] rest IH]; cbn [Feedback.bump map fst In].
  - split; [intros [H|[]]; right; symmetry; exact H | intros [[]|H]; left; symmetry; exact H].
  - destruct (str_eqb k0 x) eqn:E0; cbn [map fst In].
    + apply str_eqb_eq in E0. subst x. split; [tauto|].
      intros [H|H]; [exact H | left; symmetry; exact H].
    + rewrite IH. tauto.
Qed.

Lemma NoDup_bump (x : str) (counts : list (str * Z)) :
  List.NoDup (map fst counts) -> List.NoDup (map fst (Feedback.bump x counts)).
Proof.
  induction counts as [|[k0 n] rest IH]; cbn [Feedback.bump map fst]; intros H.
  - constructor; [intros [] | constructor].
  - destruct (str_eqb k0 x) eqn:E0; cbn [map fst]; [exact H|].
    inversion H as [|? ? Hnot Hrest]; subst. constructor; [|apply IH; exact Hrest].
    intros Hin. apply keys_bump in Hin as [Hin| ->]; [exact (Hnot Hin)|].
    rewrite str_eqb_refl in E0. discriminate E0.
Qed.

Lemma positive_bump (x : str) (counts : list (str * Z)) :
  (forall k n, In (k, n) counts -> 1 <= n) ->
  forall k n, In (k, n) (Feedback.bump x counts) -> 1 <= n.
Proof.
  induction counts as [|[k0 n0] rest IH]; cbn [Feedback.bump]; intros H k n Hin.
  - destruct Hin as [Hin|[]]. injection Hin as _ <-. lia.
  - destruct (str_eqb k0 x).
    + destruct Hin as [Hin|Hin].
      * injection Hin as _ <-. specialize (H k0 n0 (or_introl eq_refl)). lia.
      * apply (H k n). right. exact Hin.
    + destruct Hin as [Hin|Hin].
      * apply (H k n). left. exact Hin.
      * apply (IH (fun k n Hi => H k n (or_intror Hi)) k n Hin).
Qed.

Lemma count_held_In (k : str) (n : Z) (counts : list (str * Z)) :
  List.NoDup (map fst counts) -> In (k, n) counts -> count_held k counts = n.
Proof.
  induction counts as [|[k0 n0] rest IH]; cbn [map fst In count_held]; intros Hnd Hin.
  - destruct Hin.
  - inversion Hnd as [|? ? Hnot Hrest]; subst. destruct Hin as [Hin|Hin].
    + injection Hin as -> ->. rewrite str_eqb_refl. reflexivity.
    + destruct (str_eqb k0 k) eqn:E; [|apply IH; assumption].
      apply str_eqb_eq in E. subst k0. exfalso. apply Hnot.
      apply in_map_iff. exists (k, n). split; [reflexivity | exact Hin].
Qed.

Lemma In_count_held (k : str) (counts : list (str * Z)) :
  In k (map fst counts) -> In (k, count_held k counts) counts.
Proof.
  induction counts as [|[k0 n0] rest IH]; cbn [map fst In count_held]; intros Hin.
  - destruct Hin.
  - destruct (str_eqb k0 k) eqn:E.
    + apply str_eqb_eq in E. subst k0. left. reflexivity.
    + destruct Hin as [Hin|Hin]; [subst k0; rewrite str_eqb_refl in E; discriminate E|].
      right. apply IH. exact Hin.
Qed.

(** What a run of [bump] over [items] leaves in the dictionary. *)
Lemma bump_all (items : list str) :
  forall counts : list (str * Z),
    List.NoDup (map fst counts) ->
    (forall k n, In (k, n) counts -> 1 <= n) ->
    let counted := fold_left (fun acc item => Feedback.bump item acc) items counts in
    List.NoDup (map fst counted)
    /\ (forall k n, In (k, n) counted -> 1 <= n)
    /\ (forall k, count_held k counted = count_held k counts + count_of k items)
    /\ (forall k, In k (map fst counted) <-> In k (map fst counts) \/ In k items).
Proof.
  induction items as [|x items IH]; intros counts Hnd Hpos; cbn [fold_left].
  - repeat split; try assumption.
    + unfold count_of. cbn. lia.
    + intros H. left. exact H.
    + intros [H|[]]. exact H.
  - destruct (IH (Feedback.bump x counts) (NoDup_bump x counts Hnd)
                 (positive_bump x counts Hpos)) as (H1 & H2 & H3 & H4).
    repeat split; try assumption.
    + intros k. rewrite H3, count_held_bump, count_of_cons. lia.
    + intros H. apply H4 in H as [H|H]; [|right; right; exact H].
      apply keys_bump in H as [H|H]; [left; exact H | right; left; symmetry; exact H].
    + intros H. apply H4. destruct H as [H|[H|H]].
      * left. apply keys_bump. left. exact H.
      * left. apply keys_bump. right. symmetry. exact H.
      * right. exact H.
Qed.

Lemma count_items_flat (field : Feedback.t -> list str) (all_feedback : list Feedback.t) :
  forall counts,
    fold_left (fun counts data =>
                 fold_left (fun acc item => Feedback.bump item acc) (field data) counts)
              all_feedback counts
    = fold_left (fun acc item => Feedback.bump item acc) (flat_map field all_feedback) counts.
Proof.
  induction all_feedback as [|f fs IH]; intros counts; [reflexivity|].
  cbn [fold_left flat_map]. rewrite fold_left_app. apply IH.
Qed.

Lemma insert_by_count_perm (x : str * Z) (l : list (str * Z)) :
  Permutation (Feedback.insert_by_count x l) (x :: l).
Proof.
  induction l as [|y l IH]; cbn [Feedback.insert_by_count]; [reflexivity|].
  destruct (snd x <? snd y); [|reflexivity].
  rewrite IH. apply perm_swap.
Qed.

Lemma sorted_by_count_perm (l : list (str * Z)) :
  Permutation (Feedback.sorted_by_count l) l.
Proof.
  induction l as [|x l IH]; [reflexivity|].
  unfold Feedback.sorted_by_count in *. cbn [fold_right].
  rewrite insert_by_count_perm. constructor. exact IH.
Qed.

Lemma insert_by_count_descending (x : str * Z) (l : list (str * Z)) :
  descending l -> descending (Feedback.insert_by_count x l).
Proof.
  induction l as [|y l IH]; cbn [Feedback.insert_by_count descending].
  - intros _. split; [intros ? [] | exact I].
  - intros [Hy Hl]. destruct (snd x <? snd y) eqn:E.
    + apply Z.ltb_lt in E. cbn [descending]. split; [|apply IH; exact Hl].
      intros z Hz. apply (Permutation_in _ (insert_by_count_perm x l)) in Hz.
      destruct Hz as [<-|Hz]; [lia | apply Hy; exact Hz].
    + apply Z.ltb_ge in E. cbn [descending]. split; [|split; assumption].
      intros z [<-|Hz]; [exact E|]. specialize (Hy z Hz). lia.
Qed.

Lemma sorted_by_count_descending (l : list (str * Z)) :
  descending (Feedback.sorted_by_count l).
Proof.
  induction l as [|x l IH]; [exact I|].
  unfold Feedback.sorted_by_count in *. cbn [fold_right].
  apply insert_by_count_descending. exact IH.
Qed.

Lemma In_firstn_In {A} (n : nat) (l : list A) (x : A) : In x (firstn n l) -> In x l.
Proof.
  revert l. induction n as [|n IH]; intros [|y l]; cbn [firstn In]; try tauto.
  intros [H|H]; [left; exact H | right; apply IH; exact H].
Qed.

Lemma descending_firstn (n : nat) (l : list (str * Z)) :
  descending l -> descending (firstn n l).
Proof.
  revert l. induction n as [|n IH]; intros [|x l]; cbn [firstn descending]; try tauto.
  intros [Hx Hl]. split; [|apply IH; exact Hl].
  intros y Hy. apply Hx. apply (In_firstn_In n l y Hy).
Qed.

Lemma descending_split (n : nat) (l : list (str * Z)) :
  descending l ->
  forall x y, In x (firstn n l) -> In y (skipn n l) -> snd y <= snd x.
Proof.
  revert l. induction n as [|n IH]; intros [|z l] Hd x y Hx Hy;
    cbn [firstn skipn descending In] in *; try contradiction.
  destruct Hd as [Hz Hl]. destruct Hx as [<-|Hx].
  - apply Hz. rewrite <- (firstn_skipn n l). apply in_or_app. right. exact Hy.
  - apply (IH l Hl x y Hx Hy).
Qed.

Lemma NoDup_firstn {A} (n : nat) (l : list A) : List.NoDup l -> List.NoDup (firstn n l).
Proof.
  revert l. induction n as [|n IH]; intros [|x l] H; cbn [firstn]; try constructor.
  - inversion H as [|? ? Hnot Hl]; subst. intros Hin. apply Hnot.
    apply (In_firstn_In n l x Hin).
  - inversion H; subst. apply IH. assumption.
Qed.

Lemma firstn_short {A} (n : nat) (l : list A) :
  (length (firstn n l) < n)%nat -> skipn n l = [].
Proof.
  revert l. induction n as [|n IH]; intros [|x l]; cbn [firstn skipn length]; try lia;
    try reflexivity.
  intros H. apply IH. lia.
Qed.

Lemma top_five_most_mentioned (field : Feedback.t -> list str)
      (all_feedback : list Feedback.t) :
  most_mentioned (flat_map field all_feedback)
                 (Feedback.top_five (Feedback.count_items field all_feedback)).
Proof.
  unfold Feedback.count_items. rewrite count_items_flat.
  set (items := flat_map field all_feedback).
  destruct (bump_all items [] ltac:(constructor) (fun k n H => match H with end))
    as (Hnd & Hpos & Hheld & Hkeys).
  set (counted := fold_left (fun acc item => Feedback.bump item acc) items []) in *.
  cbn [count_held map In] in Hheld, Hkeys.
  pose proof (sorted_by_count_perm counted) as Hperm.
  pose proof (sorted_by_count_descending counted) as Hdesc.
  set (sorted := Feedback.sorted_by_count counted) in *.
  assert (Hnd' : List.NoDup (map fst sorted)).
  { apply (Permutation_NoDup (Permutation_map fst (Permutation_sym Hperm))). exact Hnd. }
  unfold most_mentioned, Feedback.top_five. fold sorted.
  split; [apply firstn_le_length|].
  split; [apply descending_firstn; exact Hdesc|].
  split.
  { rewrite <- firstn_map. apply NoDup_firstn. exact Hnd'. }
  split.
  { intros item n Hin. apply In_firstn_In in Hin.
    apply (Permutation_in _ Hperm) in Hin.
    rewrite <- (count_held_In item n counted Hnd Hin) at 1.
    rewrite Hheld. split; [lia|]. apply (Hpos item n Hin). }
  intros item Hitem Hnot.
  assert (Hin : In (item, count_of item items) sorted).
  { apply (Permutation_in _ (Permutation_sym Hperm)).
    replace (count_of item items) with (count_held item counted) by (rewrite Hheld; lia).
    apply In_count_held. apply Hkeys. right. exact Hitem. }
  rewrite <- (firstn_skipn 5 sorted) in Hin. apply in_app_or in Hin as [Hin|Hin].
  { exfalso. apply Hnot. apply in_map_iff. exists (item, count_of item items).
    split; [reflexivity | exact Hin]. }
  split.
  - pose proof (firstn_le_length 5 sorted) as Hle.
    destruct (Nat.eq_dec (length (firstn 5 sorted)) 5%nat) as [E|E]; [exact E|].
    rewrite (firstn_short 5 sorted) in Hin by lia. destruct Hin.
  - intros other n Hother.
    apply (descending_split 5 sorted Hdesc (other, n) (item, count_of item items)
             Hother Hin).
Qed.

(** X25. The two lists of the feedback statistics hold what they are named
    after: each lists up to five items with the number of their mentions
    over all feedback, the most mentioned first and none twice, and an
    item that is left out is mentioned no more often than any listed one,
    and is left out only when five are listed. *)
Theorem feedback_tops_are_the_most_mentioned (all_feedback : list Feedback.t) :
  most_mentioned (flat_map Feedback.highlights all_feedback)
                 (Feedback.top_highlights (Feedback.get_feedback_stats all_feedback))
  /\ most_mentioned (flat_map Feedback.improvements all_feedback)
                    (Feedback.common_improvements
                       (Feedback.get_feedback_stats all_feedback)).
Proof.
  destruct all_feedback as [|f fs].
  - split; apply (top_five_most_mentioned _ []).
  - split; apply top_five_most_mentioned.
Qed.

Lemma sum_ratings_bounds (lo hi : Q) (all_feedback : list Feedback.t) :
  (forall f, In f all_feedback -> (lo <= Feedback.rating f <= hi)%Q) ->
  forall acc,
    (acc + inject_Z (Z.of_nat (length all_feedback)) * lo
     <= fold_left (fun acc data => acc + Feedback.rating data) all_feedback acc)%Q
    /\ (fold_left (fun acc data => acc + Feedback.rating data) all_feedback acc
        <= acc + inject_Z (Z.of_nat (length all_feedback)) * hi)%Q.
Proof.
  induction all_feedback as [|f fs IH]; intros H acc; cbn [fold_left length].
  - change (inject_Z (Z.of_nat 0)) with 0%Q. split; lra.
  - destruct (IH (fun g Hg => H g (or_intror Hg)) (acc + Feedback.rating f)%Q)
      as [Hlo Hhi].
    destruct (H f (or_introl eq_refl)) as [Hf1 Hf2].
    rewrite Nat2Z.inj_succ. unfold Z.succ. rewrite inject_Z_plus.
    change (inject_Z 1) with 1%Q. split; lra.
Qed.

Lemma recommendations_bounds (all_feedback : list Feedback.t) :
  forall acc,
    acc <= fold_left (fun acc data => if Feedback.would_recommend data then acc + 1 else acc)
                     all_feedback acc
        <= acc + Z.of_nat (length all_feedback).
Proof.
  induction all_feedback as [|f fs IH]; intros acc; cbn [fold_left length]; [lia|].
  destruct (Feedback.would_recommend f).
  - specialize (IH (acc + 1)). lia.
  - specialize (IH acc). lia.
Qed.

(** X26. Over feedback that is not empty the statistics are well
    defined and in range: the total is the number of documents, the
    average rating lies between any two bounds that hold all ratings, and
    the recommendation rate is a percentage from 0 to 100. *)
Theorem feedback_rates_stay_in_range
        (all_feedback : list Feedback.t) (lo hi : Q) :
  all_feedback <> [] ->
  (forall f, In f all_feedback -> (lo <= Feedback.rating f <= hi)%Q) ->
  let stats := Feedback.get_feedback_stats all_feedback in
  Feedback.total_feedback stats = Z.of_nat (length all_feedback)
  /\ (lo <= Feedback.average_rating stats <= hi)%Q
  /\ (0 <= Feedback.recommendation_rate stats <= 100)%Q.
Proof.
  intros Hne Hr stats. unfold stats, Feedback.get_feedback_stats.
  destruct all_feedback as [|f fs]; [contradiction|].
  cbn [Feedback.total_feedback Feedback.average_rating Feedback.recommendation_rate].
  set (all := f :: fs) in *. set (total := Z.of_nat (length all)).
  assert (Htotal : (0 < inject_Z total)%Q).
  { change 0%Q with (inject_Z 0). rewrite <- Zlt_Qlt. unfold total, all. cbn [length]. lia. }
  split; [reflexivity|].
  destruct (sum_ratings_bounds lo hi all Hr 0%Q) as [Hlo Hhi]. fold total in Hlo, Hhi.
  pose proof (recommendations_bounds all 0) as Hrec. fold total in Hrec.
  fold (Feedback.sum_ratings all) in Hlo, Hhi.
  fold (Feedback.recommendations all) in Hrec.
  assert (Hrq : (0 <= inject_Z (Feedback.recommendations all) <= inject_Z total)%Q).
  { change 0%Q with (inject_Z 0). rewrite <- !Zle_Qle. lia. }
  assert (Hs : (Feedback.sum_ratings all / inject_Z total * inject_Z total
                == Feedback.sum_ratings all)%Q) by (field; lra).
  assert (Hq : (inject_Z (Feedback.recommendations all) / inject_Z total * inject_Z total
                == inject_Z (Feedback.recommendations all))%Q) by (field; lra).
  set (avg := (Feedback.sum_ratings all / inject_Z total)%Q) in *.
  set (share := (inject_Z (Feedback.recommendations all) / inject_Z total)%Q) in *.
  repeat split.
  - apply Qnot_lt_le. intros Hlt. assert ((avg * inject_Z total < lo * inject_Z total)%Q) by nra. lra.
  - apply Qnot_lt_le. intros Hlt. assert ((hi * inject_Z total < avg * inject_Z total)%Q) by nra. lra.
  - apply Qnot_lt_le. intros Hlt.
    assert ((share * inject_Z total < 0)%Q) by nra. lra.
  - apply Qnot_lt_le. intros Hlt.
    assert ((1 * inject_Z total < share * inject_Z total)%Q) by nra. lra.
Qed.

Lemma feedback_rates_stay_in_range_witness :
  (1 <= Feedback.average_rating (Feedback.get_feedback_stats two_feedbacks) <= 5)%Q.
Proof.
  apply (feedback_rates_stay_in_range two_feedbacks 1 5); [discriminate|].
  intros f [<-|[<-|[]]]; cbn [Feedback.rating]; lra.
Defined.

(** ** Two requests in a row *)

Section ResearchReuse.

Variable digit_value : N -> option Z.
Variable get_minimum_daily_budget : str -> result str.
Variable get_travel_advisory : str -> result str.
Variable get_realtime_weather : str -> result str.
Variable get_travel_document_info : str -> result str.
Variable estimate_transport_cost : str -> str -> Z -> result Q.
Variable estimate_transport_fallback : str -> str -> Z -> result Q.
Variable agent_executor : Mission -> TripDetails -> ResearchData -> result str.

Local Abbreviation validate :=
  (validate_budget digit_value estimate_transport_cost estimate_transport_fallback).
Local Abbreviation research_of :=
  (research_phase get_minimum_daily_budget get_travel_advisory get_realtime_weather
     get_travel_document_info).
Local Abbreviation tools_of :=
  (run_research_parallel get_minimum_daily_budget get_travel_advisory
     get_realtime_weather get_travel_document_info).
Local Abbreviation handler :=
  (plan_trip_from_prompt digit_value get_minimum_daily_budget get_travel_advisory
     get_realtime_weather get_travel_document_info estimate_transport_cost
     estimate_transport_fallback agent_executor).

(** The budget check calls the transport estimators and nothing else. *)
Lemma validate_budget_calls (t : TripDetails) (rd : ResearchData) (c : ResearchCache.t) :
  exists tr v,
    validate t rd c = (tr, c, Ok v)
    /\ Forall (fun ev => is_research_call ev = false) tr.
Proof.
  destruct (validate_budget_returns digit_value estimate_transport_cost
              estimate_transport_fallback t rd c) as [tr [v Hv]].
  exists tr, v. split; [exact Hv|].
  revert Hv. unfold validate_budget, try_except, budget_check_body, bind.
  rewrite estimate_transport_cases.
  destruct (estimate_transport_cost _ _ _) as [x|e].
  - unfold lift, ret. destruct (feasibility _ _ _) as [f|e1].
    + destruct (true_div _ _); intros H;
        apply (f_equal (fun p => fst (fst p))) in H; cbn [fst snd] in H; subst tr;
        repeat constructor.
    + intros H. apply (f_equal (fun p => fst (fst p))) in H. cbn [fst snd] in H. subst tr.
      repeat constructor.
  - destruct (estimate_transport_fallback _ _ _) as [y|e'].
    + unfold lift, ret. destruct (feasibility _ _ _) as [f|e1].
      * destruct (true_div _ _); intros H;
          apply (f_equal (fun p => fst (fst p))) in H; cbn [fst snd] in H; subst tr;
          repeat constructor.
      * intros H. apply (f_equal (fun p => fst (fst p))) in H. cbn [fst snd] in H. subst tr.
      repeat constructor.
    + unfold ret. intros H. apply (f_equal (fun p => fst (fst p))) in H. cbn [fst snd] in H. subst tr.
      repeat constructor.
Qed.

(** X27. Research is shared between requests. When a request with complete
    slots finds nothing in the cache and the four research tools answer,
    the next request with complete slots for the same destination text,
    made less than an hour after the storing, calls none of the four tools
    and leaves the cache as it is; whatever its other slots are, its plan
    is made from the research data of the first request. *)
Theorem second_request_reuses_the_research
        (previous1 previous2 : option PreviousExtraction) (extracted1 extracted2 : TripDetails)
        (lookup1 store1 lookup2 store2 : Z) (c : ResearchCache.t) (rd : ResearchData) :
  let t1 := merge_with_previous previous1 extracted1 in
  let t2 := merge_with_previous previous2 extracted2 in
  missing_fields t1 = [] -> missing_fields t2 = [] ->
  destination t2 = destination t1 ->
  ResearchCache.get_cached_research lookup1 (destination t1) c = None ->
  snd (tools_of (destination t1) c) = Ok rd ->
  (ResearchCache.total_seconds lookup2 store1 < 3600)%Q ->
  let first := handler previous1 extracted1 lookup1 store1 c in
  let second := handler previous2 extracted2 lookup2 store2 (snd (fst first)) in
  firstn 4 (fst (fst first)) = research_calls (destination t1)
  /\ Forall (fun ev => is_research_call ev = false) (fst (fst second))
  /\ snd (fst second) = snd (fst first)
  /\ (forall answer, snd second = Ok answer ->
        exists plan details, answer = TripPlanGenerated plan details rd).
Proof.
  intros t1 t2 Hm1 Hm2 Hdest Hmiss Htools Hage first second.
  set (c1 := ResearchCache.cache_research store1 (destination t1) rd c).
  assert (Hr1 : research_of lookup1 store1 (destination t1) c
                = (research_calls (destination t1), c1, Ok rd)).
  { rewrite (research_phase_miss _ _ _ _ lookup1 store1 (destination t1) c Hmiss).
    destruct (tools_of (destination t1) c) as [[tr0 c0] r0]. cbn [snd] in Htools.
    subst r0. reflexivity. }
  destruct (validate_budget_calls t1 rd c1) as [trv1 [v1 [Hv1 _]]].
  assert (Hfirst : first
                   = (research_calls (destination t1) ++ trv1
                        ++ [CallPlanningAgent (assign_mission v1)], c1,
                      match agent_executor (assign_mission v1) t1 rd with
                      | Ok final_plan =>
                          Ok (TripPlanGenerated final_plan (final_details t1 v1) rd)
                      | Raised _ => Raised (HTTPException 500)
                      end)).
  { apply (handler_on_complete_slots digit_value get_minimum_daily_budget
             get_travel_advisory get_realtime_weather get_travel_document_info
             estimate_transport_cost estimate_transport_fallback agent_executor
             previous1 extracted1 lookup1 store1 c c1 c1 _ trv1 rd v1 Hm1 Hr1 Hv1). }
  assert (Hhit : ResearchCache.get_cached_research lookup2 (destination t2) c1 = Some rd).
  { rewrite Hdest. unfold c1. rewrite get_after_put.
    rewrite (proj2 (Qltb_lt _ _) Hage). reflexivity. }
  assert (Hr2 : research_of lookup2 store2 (destination t2) c1 = ([], c1, Ok rd)).
  { apply research_phase_hit. exact Hhit. }
  destruct (validate_budget_calls t2 rd c1) as [trv2 [v2 [Hv2 Hcalls2]]].
  assert (Hsecond : second
                    = ([] ++ trv2 ++ [CallPlanningAgent (assign_mission v2)], c1,
                       match agent_executor (assign_mission v2) t2 rd with
                       | Ok final_plan =>
                           Ok (TripPlanGenerated final_plan (final_details t2 v2) rd)
                       | Raised _ => Raised (HTTPException 500)
                       end)).
  { unfold second. rewrite Hfirst. cbn [fst snd].
    apply (handler_on_complete_slots digit_value get_minimum_daily_budget
             get_travel_advisory get_realtime_weather get_travel_document_info
             estimate_transport_cost estimate_transport_fallback agent_executor
             previous2 extracted2 lookup2 store2 c1 c1 c1 _ trv2 rd v2 Hm2 Hr2 Hv2). }
  rewrite Hsecond, Hfirst. cbn [fst snd app].
  split; [reflexivity|]. split.
  - apply Forall_app. split; [exact Hcalls2 | repeat constructor].
  - split; [reflexivity|].
    intros answer Ha. destruct (agent_executor (assign_mission v2) t2 rd);
      [|discriminate Ha].
    injection Ha as <-. do 2 eexists. reflexivity.
Qed.

End ResearchReuse.

Lemma second_request_reuses_the_research_witness :
  Forall (fun ev => is_research_call ev = false)
    (fst (fst (plan_trip_from_prompt ascii_digit
                 (answering (extracted_minimum "3000")) (answering (u "No advisories"))
                 (answering (u "Sunny")) (answering (u "ID card"))
                 (flat_fare 8000) out_of_order (fun _ _ _ => Ok (u "plan"))
                 None (goa_trip 60000) 1000000 1000000
                 (snd (fst (plan_trip_from_prompt ascii_digit
                              (answering (extracted_minimum "3000"))
                              (answering (u "No advisories"))
                              (answering (u "Sunny")) (answering (u "ID card"))
                              (flat_fare 8000) out_of_order (fun _ _ _ => Ok (u "plan"))
                              None (goa_trip 40000) 0 0 ResearchCache.empty)))))).
Proof.
  apply (second_request_reuses_the_research ascii_digit
           (answering (extracted_minimum "3000")) (answering (u "No advisories"))
           (answering (u "Sunny")) (answering (u "ID card"))
           (flat_fare 8000) out_of_order (fun _ _ _ => Ok (u "plan"))
           None None (goa_trip 40000) (goa_trip 60000) 0 0 1000000 1000000
           ResearchCache.empty (research_saying (extracted_minimum "3000")));
    reflexivity.
Defined.
